(** * Webex channel extension: inbound normalisation, access gate, credentials,
      outbound addressing and the dual-mode monitor.

    Shallow embedding of
    [extensions/webex/src/{inbound,token,probe,send,monitor,channel,outbound}.ts].

    Conventions of the embedding.
    - A JavaScript string is a [string]; the model covers strings of ASCII
      characters (code units below 128), so whitespace is the ASCII part of
      what [String.prototype.trim] and the regular-expression class [\s]
      accept, and case folding is the folding of the ASCII letters.
    - An optional property ([x?: T], or a property that may be missing from a
      JSON object) is an [option]; [undefined] is [None].
    - A timestamp is the number of milliseconds since the epoch that
      [new Date(s).getTime()] yields for the ISO-8601 string [s] of the
      source, as a [Z]; timestamps of the remote API are well formed.
    - An answer of the remote API that resolves is an object, and the code
      reads off it the properties it finds: the object of the method's
      declared type, the empty object that the client returns for a 204,
      or an object of another method.  A listing whose items are of
      another kind than the method's is not considered.  A rejection
      carries a message that is not empty, so that
      [error?.message || String(error)] is that message.
    - Express accepts the configured webhook path: the registrations of
      the routes ([app.post(webhookPath, ...)], [app.get("/health", ...)])
      do not throw.
    - A log line of the embedding stands for the log call at that place
      of the source, with its level; where the source's line goes on
      with further detail (the bot's address after its name, the error
      of a failed probe, counts and times of a listing, a stack), the
      embedding keeps the beginning of the line.  The line that the
      callback of [app.listen] logs once the port is bound is not part
      of the startup's trace. *)

From stdpp Require Import base option list strings gmap sorting.
From Stdlib Require Import ZArith Ascii String Sorted.

Open Scope string_scope.
Open Scope list_scope.
Open Scope Z_scope.

(** ** JavaScript string primitives used by the extension *)

Module Js.

(** Truthiness of a string: only the empty string is falsy. *)
Definition truthy (s : string) : bool := negb (String.eqb s "").

(** [o || d] for an optional string [o] and a string [d]. *)
Definition or_else (o : option string) (d : string) : string :=
  match o with
  | Some s => if truthy s then s else d
  | None => d
  end.

(** [o1 || o2] for two optional strings: the first truthy operand, or
    else the second operand whatever it is. *)
Definition or_opt (o1 o2 : option string) : option string :=
  match o1 with
  | Some s => if truthy s then o1 else o2
  | None => o2
  end.

(** White space of [trim] and of [\s], ASCII part: TAB, LF, VT, FF, CR
    and SPACE. *)
Definition is_space (c : ascii) : bool :=
  let n := nat_of_ascii c in
  ((9 <=? n)%nat && (n <=? 13)%nat) || (n =? 32)%nat.

Fixpoint trimStart (s : string) : string :=
  match s with
  | String c s' => if is_space c then trimStart s' else s
  | EmptyString => EmptyString
  end.

(** Drop trailing white space: a character is kept when it is not white
    space or when something is kept after it. *)
Fixpoint trimEnd (s : string) : string :=
  match s with
  | String c s' =>
      match trimEnd s' with
      | EmptyString => if is_space c then EmptyString else String c EmptyString
      | t => String c t
      end
  | EmptyString => EmptyString
  end.

Definition trim (s : string) : string := trimEnd (trimStart s).

(** [s.startsWith(p)] *)
Definition startsWith (s p : string) : bool := String.prefix p s.

(** [s.includes(p)] *)
Fixpoint includes (s p : string) : bool :=
  String.prefix p s ||
  match s with
  | String _ s' => includes s' p
  | EmptyString => false
  end.

(** Canonicalisation of the [i] flag on ASCII: lower-case letters are
    mapped to upper case, everything else is left alone. *)
Definition upcase (c : ascii) : ascii :=
  let n := nat_of_ascii c in
  if ((97 <=? n)%nat && (n <=? 122)%nat)%bool then ascii_of_nat (n - 32) else c.

Definition eq_ci (a b : ascii) : bool := Ascii.eqb (upcase a) (upcase b).

(** Line terminators, which [.] does not match: LF and CR. *)
Definition is_line_terminator (c : ascii) : bool :=
  let n := nat_of_ascii c in (n =? 10)%nat || (n =? 13)%nat.

End Js.

(** ** The fragment of regular expressions the extension builds

    The extension uses three patterns, all anchored at the start and all
    with the [i] flag: [/^person:/i], [/^room:/i] and
    [new RegExp(`^@${botName}\\s*`, "i")].  The last one splices the bot's
    display name into the pattern source unescaped, so a character of the
    name is read as pattern syntax.  The fragment modelled here reads a
    source one character at a time: [.] is the wildcard, any other
    syntax character puts the source outside the fragment, and every other
    character stands for itself. *)

Module Regex.

Inductive atom : Type :=
| Chr (c : ascii)   (* a pattern character, matched up to ASCII case *)
| Dot.              (* [.]: any character but a line terminator *)

(** SyntaxCharacter of ECMAScript, the dot left out. *)
Definition is_syntax_char (c : ascii) : bool :=
  existsb (Ascii.eqb c)
    ["^"; "$"; "\"; "*"; "+"; "?"; "("; ")"; "["; "]"; "{"; "}"; "|"]%char.

Definition atom_of (c : ascii) : option atom :=
  if Ascii.eqb c "." then Some Dot
  else if is_syntax_char c then None
  else Some (Chr c).

(** The atoms of a pattern source, [None] outside the fragment. *)
Fixpoint atoms_of (src : string) : option (list atom) :=
  match src with
  | EmptyString => Some []
  | String c src' =>
      match atom_of c, atoms_of src' with
      | Some a, Some l => Some (a :: l)
      | _, _ => None
      end
  end.

Definition atom_matches (a : atom) (c : ascii) : bool :=
  match a with
  | Chr p => Js.eq_ci p c
  | Dot => negb (Js.is_line_terminator c)
  end.

(** Match the atoms at the start of [s]; the result is what follows the
    match. *)
Fixpoint match_atoms (atoms : list atom) (s : string) : option string :=
  match atoms, s with
  | [], _ => Some s
  | a :: atoms', String c s' =>
      if atom_matches a c then match_atoms atoms' s' else None
  | _ :: _, EmptyString => None
  end.

(** [s.replace(/^<atoms>/i, "")] *)
Definition replace_start (atoms : list atom) (s : string) : string :=
  match match_atoms atoms s with
  | Some rest => rest
  | None => s
  end.

(** [s.replace(/^<atoms>\s*/i, "")]: the star is greedy and nothing
    follows it, so it takes all the white space after the atoms. *)
Definition replace_start_ws (atoms : list atom) (s : string) : string :=
  match match_atoms atoms s with
  | Some rest => Js.trimStart rest
  | None => s
  end.

(** The atoms of a source known to be free of pattern syntax. *)
Definition literal (src : string) : list atom := map Chr (list_ascii_of_string src).

(** A source in which every character stands for itself: no syntax
    character and no dot. *)
Fixpoint plain (src : string) : bool :=
  match src with
  | EmptyString => true
  | String c src' => negb (Ascii.eqb c ".") && negb (is_syntax_char c) && plain src'
  end.

End Regex.

(** ** api.ts: the records of the remote API the monitor reads *)

Module Api.

(** [WebexMessage]; [roomType] is kept as the string on the wire and
    [created] as its epoch milliseconds. *)
Record WebexMessage : Type := {
  id : string;
  roomId : string;
  roomType : string;
  text : option string;
  markdown : option string;
  files : option (list string);
  personId : string;
  personEmail : string;
  created : Z;
  mentionedPeople : option (list string)
}.

(** [WebexWebhook], the fields the monitor reads. *)
Record WebexWebhook : Type := {
  wh_id : string;
  wh_targetUrl : string;
  wh_resource : string;
  wh_event : string
}.

End Api.

(** ** inbound.ts *)

Module Inbound.

(** [WebexWebhookEvent["data"]] *)
Record EventData : Type := {
  id : string;
  roomId : option string;
  roomType : option string;
  personId : option string;
  personEmail : option string;
  mentionedPeople : option (list string);
  created : option Z
}.

(** [WebexWebhookEvent], the fields the extension reads. *)
Record WebexWebhookEvent : Type := {
  resource : string;
  event : string;
  data : EventData
}.

Inductive RoomType : Type := Direct | Group.

#[global] Instance RoomType_eq_dec : EqDecision RoomType.
Proof. solve_decision. Defined.

(** [ParsedWebexMessage]; [p_created] is the [Date] as epoch
    milliseconds. *)
Record ParsedWebexMessage : Type := {
  p_messageId : string;
  p_roomId : option string;
  p_roomType : option RoomType;
  p_personId : string;
  p_personEmail : string;
  p_text : option string;
  p_markdown : option string;
  p_files : option (list string);
  p_mentionedPeople : option (list string);
  p_created : Z;
  p_isBotMentioned : bool
}.

(** [fullMessage] is of type [any]; these are the properties read from
    it. *)
Record MessageDetail : Type := {
  d_text : option string;
  d_markdown : option string;
  d_files : option (list string)
}.

Definition detail_of (m : Api.WebexMessage) : MessageDetail :=
  {| d_text := Api.text m; d_markdown := Api.markdown m; d_files := Api.files m |}.

(** [a.includes(x)] on an array of strings *)
Definition array_includes (a : list string) (x : string) : bool :=
  existsb (String.eqb x) a.

Definition isWebexBotMessage (ev : WebexWebhookEvent) (botEmail : string) : bool :=
  match personEmail (data ev) with
  | Some e => String.eqb e botEmail
  | None => false
  end.

Definition wasWebexBotMentioned (ev : WebexWebhookEvent) (botId : string) : bool :=
  let mentioned := default [] (mentionedPeople (data ev)) in
  array_includes mentioned botId.

(** [fullMessage] is read through [?.]: [None] is a null or undefined
    detail.  [now] is the value of [Date.now()]. *)
Definition parseWebexWebhookEvent (ev : WebexWebhookEvent)
    (fullMessage : option MessageDetail) (botId : string) (now : Z)
  : ParsedWebexMessage :=
  let isBotMentioned := wasWebexBotMentioned ev botId in
  {| p_messageId := id (data ev);
     p_roomId := roomId (data ev);
     p_roomType :=
       Some (match roomType (data ev) with
             | Some t => if String.eqb t "direct" then Direct else Group
             | None => Group
             end);
     p_personId := Js.or_else (personId (data ev)) "";
     p_personEmail := Js.or_else (personEmail (data ev)) "";
     p_text := fullMessage ≫= d_text;
     p_markdown := fullMessage ≫= d_markdown;
     p_files := Some (default [] (fullMessage ≫= d_files));
     p_mentionedPeople := Some (default [] (mentionedPeople (data ev)));
     p_created := default now (created (data ev));
     p_isBotMentioned := isBotMentioned |}.

Section StripMention.

(** What [text.replace(new RegExp(src, "i"), "")] yields for a pattern
    source outside the modelled fragment, [None] when the constructor
    throws [SyntaxError].  Arguments: the bot's name, then the text. *)
Variable regexp_beyond : string -> string -> option string.

(** [None] stands for the [SyntaxError] of [new RegExp]. *)
Definition stripWebexBotMention (text botName : string) : option string :=
  match Regex.atoms_of botName with
  | Some name =>
      Some (Js.trim (Regex.replace_start_ws (Regex.Chr "@" :: name) text))
  | None => Js.trim <$> regexp_beyond botName text
  end.

End StripMention.

Definition shouldProcessWebexMessage (parsed : ParsedWebexMessage)
    (requireMentionInGroups : bool) : bool :=
  if decide (p_roomType parsed = Some Direct) then true
  else if requireMentionInGroups then p_isBotMentioned parsed
  else true.

End Inbound.

(** ** The [channels.webex] section of the configuration *)

Module Config.

Record WebhookConfig : Type := {
  port : option Z;
  path : option string;
  url : option string
}.

Record PollingConfig : Type := {
  intervalSeconds : option Z
}.

Record WebexConfig : Type := {
  enabled : option bool;
  mode : option string;
  botToken : option string;
  groupPolicy : option string;
  webhook : option WebhookConfig;
  polling : option PollingConfig
}.

End Config.

(** ** token.ts *)

Module Token.

(** [cfg] is the [channels.webex] section, [None] when the configuration
    has none; [env] is [process.env.WEBEX_BOT_TOKEN].  The result is the
    [botToken] of the credentials, [None] for [null]. *)
Definition resolveWebexCredentials (env : option string)
    (cfg : option Config.WebexConfig) : option string :=
  let envToken := Js.trim <$> env in
  let configToken := Js.trim <$> (cfg ≫= Config.botToken) in
  (* [if (t) return { botToken: t }] *)
  let if_set (t : option string) : option string :=
    match t with
    | Some s => if Js.truthy s then Some s else None
    | None => None
    end in
  match if_set envToken with
  | Some t => Some t
  | None => if_set configToken
  end.

End Token.

(** ** Asynchronous code as resumptions

    An [async] function is a tree of its synchronous effects and of its
    [await]s.  Between two [await]s JavaScript runs a function to
    completion, so the points where another task can run are exactly the
    [Await] nodes. *)

Module Async.

(** The addressing fields and the body of [client.createMessage]. *)
Record MessagePayload : Type := {
  mp_roomId : option string;
  mp_toPersonId : option string;
  mp_toPersonEmail : option string;
  mp_text : option string;
  mp_markdown : option string;
  mp_files : option (list string)
}.

(** The methods of [WebexClient] the extension calls. *)
Inductive ApiCall : Type :=
| GetMe
| GetMessage (messageId : string)
| ListMessages (roomId : string) (max : Z)
| ListRooms (sortBy : string) (max : Z)
| CreateMessage (payload : MessagePayload)
| ListWebhooks
| CreateWebhook (name targetUrl resource event : string)
| DeleteWebhook (webhookId : string).

(** What the monitor hands to the reply dispatcher: the fields of
    [ctxPayload] that are computed from the parsed message. *)
Record InboundContext : Type := {
  RawBody : string;
  From : string;
  To : string;
  ChatType : string;
  SenderId : string;
  SenderUsername : string;
  MessageSid : string
}.

(** What a task asks of its environment and waits for.  [Call token c] is
    the method [c] of [new WebexClient(token)].  [Dispatch] is the
    downstream bridge as one request: route and session resolution,
    envelope formatting, session recording and
    [dispatchReplyWithBufferedBlockDispatcher]; it completes or throws.
    [Listen] and [CloseServer] are [app.listen] and [server.close]; a
    rejected [Listen] is [app.listen] throwing (a port out of range, for
    one), while a port that is taken does not throw: the error comes
    later, as an event of the server, and [Listen] is answered. *)
Inductive Request : Type :=
| Call (token : string) (c : ApiCall)
| Dispatch (ctx : InboundContext)
| Listen (port : Z)
| CloseServer.

Record BotInfo : Type := {
  bot_id : string;
  bot_displayName : string;
  bot_emails : option (list string)
}.

(** The answer to a request: a rejection (or an exception of a
    synchronous call), or a value. *)
Inductive Response : Type :=
| Rejected (message : string)
| Done
| Person (p : BotInfo)
| Message (m : Api.WebexMessage)
| Messages (items : option (list Api.WebexMessage))
| Rooms (items : list string)
| Webhooks (items : list Api.WebexWebhook)
| Webhook (w : Api.WebexWebhook).

(** What the code finds when it reads [r.id], [r.displayName] and
    [r.emails] off an answer that resolved.  [Done] is the empty object
    of a 204; a listing has [items] only. *)
Definition id_of (r : Response) : option string :=
  match r with
  | Person p => Some (bot_id p)
  | Message m => Some (Api.id m)
  | Webhook w => Some (Api.wh_id w)
  | _ => None
  end.

Definition displayName_of (r : Response) : option string :=
  match r with
  | Person p => Some (bot_displayName p)
  | _ => None
  end.

Definition emails_of (r : Response) : option (list string) :=
  match r with
  | Person p => bot_emails p
  | _ => None
  end.

Inductive Level : Type := Debug | Info | Warn | Error.

(** What a run leaves behind, in order. *)
Inductive Event : Type :=
| Log (level : Level) (message : string)
| Respond (status : Z) (body : string)       (* [res.status(..).send(..)] *)
| Requested (req : Request)                  (* a request was issued *)
| Stored (room : string) (time : Z)          (* [lastMessageTimeByRoom.set] *)
| PollSpawned                                (* [void pollMessages()] *)
| IntervalSet (ms : Z)                       (* [setInterval] *)
| IntervalCleared.                           (* [clearInterval] *)

Inductive Proc (A : Type) : Type :=
| Ret (a : A)
| Throw (err : string)
| Emit (e : Event) (k : Proc A)
| MapGet (room : string) (k : option Z -> Proc A)
| MapSet (room : string) (time : Z) (k : Proc A)
| Await (req : Request) (k : Response -> Proc A).

Arguments Ret {A} a.
Arguments Throw {A} err.
Arguments Emit {A} e k.
Arguments MapGet {A} room k.
Arguments MapSet {A} room time k.
Arguments Await {A} req k.

Fixpoint bind {A B : Type} (f : A -> Proc B) (p : Proc A) : Proc B :=
  match p with
  | Ret a => f a
  | Throw err => Throw err
  | Emit e k => Emit e (bind f k)
  | MapGet room k => MapGet room (fun o => bind f (k o))
  | MapSet room time k => MapSet room time (bind f k)
  | Await req k => Await req (fun r => bind f (k r))
  end.

#[global] Instance Proc_ret : MRet Proc := @Ret.
#[global] Instance Proc_bind : MBind Proc := @bind.

(** [try { p } catch (error) { h (error.message) }] *)
Fixpoint catch {A : Type} (p : Proc A) (h : string -> Proc A) : Proc A :=
  match p with
  | Ret a => Ret a
  | Throw err => h err
  | Emit e k => Emit e (catch k h)
  | MapGet room k => MapGet room (fun o => catch (k o) h)
  | MapSet room time k => MapSet room time (catch k h)
  | Await req k => Await req (fun r => catch (k r) h)
  end.

Definition emit (e : Event) : Proc unit := Emit e (Ret tt).
Definition log (l : Level) (m : string) : Proc unit := emit (Log l m).
Definition mapGet (room : string) : Proc (option Z) := MapGet room Ret.
Definition mapSet (room : string) (time : Z) : Proc unit := MapSet room time (Ret tt).

(** [await] of a request: a rejection is thrown at the [await]. *)
Definition await (req : Request) : Proc Response :=
  Await req (fun r => match r with Rejected m => Throw m | _ => Ret r end).

(** [for (const x of xs) { body x }] *)
Fixpoint forEach {A : Type} (xs : list A) (body : A -> Proc unit) : Proc unit :=
  match xs with
  | [] => Ret tt
  | x :: xs' => body x ;; forEach xs' body
  end.

(** *** Running a task alone

    [run env p store] runs [p] to its end against an environment that
    answers every request, with no other task in between. *)

Inductive Outcome (A : Type) : Type :=
| Returned (a : A)
| Threw (err : string).

Arguments Returned {A} a.
Arguments Threw {A} err.

Fixpoint run {A : Type} (env : Request -> Response) (p : Proc A)
    (store : gmap string Z) : gmap string Z * list Event * Outcome A :=
  match p with
  | Ret a => (store, [], Returned a)
  | Throw err => (store, [], Threw err)
  | Emit e k =>
      let '(store', evs, o) := run env k store in (store', e :: evs, o)
  | MapGet room k => run env (k (store !! room)) store
  | MapSet room time k =>
      let '(store', evs, o) := run env k (<[room := time]> store) in
      (store', Stored room time :: evs, o)
  | Await req k =>
      let '(store', evs, o) := run env (k (env req)) store in
      (store', Requested req :: evs, o)
  end.

(** *** Running tasks that overlap

    [sync p store] runs [p] up to its next [await] (or to its end).  A
    system is the shared map and the tasks, each stopped at an [await] or
    finished; [resume i r] gives the answer [r] to the pending request of
    task [i] and runs that task to its next [await].  The trace of a step
    ends with the request the task stops at. *)

Fixpoint sync {A : Type} (p : Proc A) (store : gmap string Z)
  : gmap string Z * list Event * Proc A :=
  match p with
  | Emit e k =>
      let '(store', evs, p') := sync k store in (store', e :: evs, p')
  | MapGet room k => sync (k (store !! room)) store
  | MapSet room time k =>
      let '(store', evs, p') := sync k (<[room := time]> store) in
      (store', Stored room time :: evs, p')
  | Ret _ | Throw _ | Await _ _ => (store, [], p)
  end.

Record System : Type := {
  shared : gmap string Z;
  tasks : list (Proc unit)
}.

(** The request a stopped task has just issued. *)
Definition issued {A : Type} (p : Proc A) : list Event :=
  match p with
  | Await req _ => [Requested req]
  | _ => []
  end.

(** Start a task: it runs at once up to its first [await]. *)
Definition spawn (p : Proc unit) (s : System) : System * list Event :=
  let '(store', evs, p') := sync p (shared s) in
  ({| shared := store'; tasks := tasks s ++ [p'] |}, evs ++ issued p').

Definition resume (i : nat) (r : Response) (s : System)
  : option (System * list Event) :=
  match tasks s !! i with
  | Some (Await req k) =>
      let '(store', evs, p') := sync (k r) (shared s) in
      Some ({| shared := store'; tasks := <[i := p']> (tasks s) |}, evs ++ issued p')
  | _ => None
  end.

(** A step of a schedule: start a new task, or answer a pending request. *)
Inductive Step : Type :=
| Start (p : Proc unit)
| Answer (i : nat) (r : Response).

Fixpoint schedule (steps : list Step) (s : System) : option (System * list Event) :=
  match steps with
  | [] => Some (s, [])
  | Start p :: steps' =>
      let '(s', evs) := spawn p s in
      '(s'', evs') ← schedule steps' s';
      Some (s'', evs ++ evs')
  | Answer i r :: steps' =>
      '(s', evs) ← resume i r s;
      '(s'', evs') ← schedule steps' s';
      Some (s'', evs ++ evs')
  end.

End Async.

(** ** probe.ts *)

Module Probe.
Import Async.

(** [botInfo]: [id] and [displayName] are what the answer holds, [None]
    when it holds none. *)
Record ProbedBot : Type := {
  id : option string;
  displayName : option string;
  emails : list string
}.

Record WebexProbeResult : Type := {
  ok : bool;
  botInfo : option ProbedBot;
  error : option string
}.

(** The [token] of [probeWebex]: [botToken || envToken]. *)
Definition token (env : option string) (webexConfig : option Config.WebexConfig)
  : option string :=
  let botToken := Js.trim <$> (webexConfig ≫= Config.botToken) in
  let envToken := Js.trim <$> env in
  Js.or_opt botToken envToken.

Definition probeWebex (env : option string)
    (webexConfig : option Config.WebexConfig) : Proc WebexProbeResult :=
  catch
    (match token env webexConfig with
     | Some t =>
         if Js.truthy t then
           person ← await (Call t GetMe);
           mret {| ok := true;
                   botInfo := Some {| id := id_of person;
                                      displayName := displayName_of person;
                                      emails := default [] (emails_of person) |};
                   error := None |}
         else mret {| ok := false; botInfo := None;
                      error := Some "No bot token configured" |}
     | None => mret {| ok := false; botInfo := None;
                       error := Some "No bot token configured" |}
     end)
    (fun errorMsg =>
       mret {| ok := false; botInfo := None;
               error := Some ("Probe failed: " +:+ errorMsg) |}).

End Probe.

(** ** send.ts *)

Module Send.
Import Async.

Record SendWebexMessageResult : Type := {
  ok : bool;
  messageId : option string;
  error : option string
}.

(** The Base64 prefix of a Webex person id. *)
Definition person_id_prefix : string := "Y2lzY29zcGFyazovL3VzL1BFT1BMRS8".

(** The [messagePayload] that [sendMessageWebex] builds from its target,
    text and optional media URL. *)
Definition messagePayload (to text : string) (mediaUrl : option string)
  : MessagePayload :=
  let files :=
    match mediaUrl with
    | Some u => if Js.truthy u then Some [u] else None
    | None => None
    end in
  if Js.includes to "@" then
    {| mp_roomId := None; mp_toPersonId := None; mp_toPersonEmail := Some to;
       mp_text := None; mp_markdown := Some text; mp_files := files |}
  else if Js.startsWith to person_id_prefix || Js.startsWith to "person:" then
    let personId := Regex.replace_start (Regex.literal "person:") to in
    {| mp_roomId := None; mp_toPersonId := Some personId; mp_toPersonEmail := None;
       mp_text := None; mp_markdown := Some text; mp_files := files |}
  else
    let roomId := Regex.replace_start (Regex.literal "room:") to in
    {| mp_roomId := Some roomId; mp_toPersonId := None; mp_toPersonEmail := None;
       mp_text := None; mp_markdown := Some text; mp_files := files |}.

Definition sendMessageWebex (env : option string) (cfg : option Config.WebexConfig)
    (to text : string) (mediaUrl : option string) : Proc SendWebexMessageResult :=
  catch
    (match Token.resolveWebexCredentials env cfg with
     | None =>
         mret {| ok := false; messageId := None;
                 error := Some "No Webex credentials configured" |}
     | Some botToken =>
         response ← await (Call botToken (CreateMessage (messagePayload to text mediaUrl)));
         mret {| ok := true; messageId := id_of response; error := None |}
     end)
    (fun errorMsg =>
       mret {| ok := false; messageId := None;
               error := Some ("Failed to send Webex message: " +:+ errorMsg) |}).

End Send.

(** ** monitor.ts *)

Module Monitor.
Import Async.

(** What [monitorWebexProvider] returns.  [Inert] is a return with the
    empty [shutdown] ([async () => {}]); [Started] carries the variables
    the real [shutdown] closes over: the client's token, [webhookId],
    whether [server] is set and whether [pollingInterval] is set. *)
Inductive MonitorResult : Type :=
| Inert (mode : string)
| Started (mode : string) (token : string) (webhookId : option string)
    (server : bool) (pollingInterval : bool).

(** The body of a POST as [express.json()] leaves it in [req.body]:
    missing, or an object whose properties may be missing. *)
Inductive RequestBody : Type :=
| BodyMissing
| BodyObject (resource event : option string) (data : option Inbound.EventData).

Section Running.

Variable regexp_beyond : string -> string -> option string.

(** The [channels.webex] section. *)
Variable webexCfg : Config.WebexConfig.

(** The client's token, the bot's identity from the probe, and the value
    of [Date.now()] when the monitor started. *)
Variables (token botId botEmail botName : string) (pollStartTime : Z).

Definition requireMentionInGroups : bool :=
  match Config.groupPolicy webexCfg with
  | Some p => String.eqb p "mention" || String.eqb p "allowlist"
  | None => false
  end.

(** [let text = parsed.text || parsed.markdown || ""], then the mention
    is stripped when the bot was mentioned.  The webhook handler and the
    polling loop hold the same lines. *)
Definition dispatchText (parsed : Inbound.ParsedWebexMessage) : Proc string :=
  let text :=
    Js.or_else (Js.or_opt (Inbound.p_text parsed) (Inbound.p_markdown parsed)) "" in
  if Inbound.p_isBotMentioned parsed then
    match Inbound.stripWebexBotMention regexp_beyond text botName with
    | Some stripped => mret stripped
    | None => Throw "SyntaxError"
    end
  else mret text.

Definition inboundContext (parsed : Inbound.ParsedWebexMessage) (text : string)
  : InboundContext :=
  let direct := bool_decide (Inbound.p_roomType parsed = Some Inbound.Direct) in
  {| RawBody := text;
     From := "webex:" +:+ Inbound.p_personId parsed;
     To := "webex:" +:+ default "undefined" (Inbound.p_roomId parsed);
     ChatType := if direct then "direct" else "channel";
     SenderId := Inbound.p_personId parsed;
     SenderUsername := Inbound.p_personEmail parsed;
     MessageSid := Inbound.p_messageId parsed |}.

(** Route, record the session and dispatch to the agent, as both the
    webhook handler and the polling loop do. *)
Definition dispatchToAgent (parsed : Inbound.ParsedWebexMessage) (text : string)
  : Proc unit :=
  await (Dispatch (inboundContext parsed text)) ;; mret tt.

(** The handler of [app.post(webhookPath, ...)]; [now] is [Date.now()]
    at the time the event is parsed. *)
Definition webhookHandler (now : Z) (body : RequestBody) : Proc unit :=
  catch
    (emit (Respond 200 "OK") ;;
     match body with
     | BodyMissing => Throw "TypeError"
     | BodyObject resource event data =>
         if negb (bool_decide (resource = Some "messages"))
            || negb (bool_decide (event = Some "created"))
         then mret tt
         else
           match data with
           | None => Throw "TypeError"
           | Some d =>
               let ev := {| Inbound.resource := "messages";
                            Inbound.event := "created";
                            Inbound.data := d |} in
               if Inbound.isWebexBotMessage ev botEmail then mret tt
               else
                 fullMessage ← await (Call token (GetMessage (Inbound.id d)));
                 let parsed :=
                   Inbound.parseWebexWebhookEvent ev
                     (match fullMessage with
                      | Message m => Some (Inbound.detail_of m)
                      | _ => None
                      end)
                     botId now in
                 if negb (Inbound.shouldProcessWebexMessage parsed requireMentionInGroups)
                 then log Debug "skipping message: no mention in group"
                 else
                   text ← dispatchText parsed;
                   dispatchToAgent parsed text
           end
     end)
    (fun message => log Error ("webhook error: " +:+ message)).

(** The event the polling loop builds from a listed message. *)
Definition eventOfMessage (message : Api.WebexMessage) : Inbound.WebexWebhookEvent :=
  {| Inbound.resource := "messages";
     Inbound.event := "created";
     Inbound.data :=
       {| Inbound.id := Api.id message;
          Inbound.roomId := Some (Api.roomId message);
          Inbound.roomType := Some (Api.roomType message);
          Inbound.personId := Some (Api.personId message);
          Inbound.personEmail := Some (Api.personEmail message);
          Inbound.mentionedPeople := Api.mentionedPeople message;
          Inbound.created := Some (Api.created message) |} |}.

(** The body of [for (const message of [...items].reverse())]; [lastTime]
    was read before the messages were listed.  The event built from the
    message carries its [created], so the normalizer does not read the
    clock and the time passed for it is of no consequence. *)
Definition pollMessage (room : string) (lastTime : Z) (message : Api.WebexMessage)
  : Proc unit :=
  let messageTime := Api.created message in
  if messageTime <=? lastTime then
    log Debug "skipping old message"
  else if String.eqb (Api.personEmail message) botEmail then
    log Debug ("skipping bot's own message: " +:+ Api.id message) ;;
    mapSet room (Z.max lastTime messageTime)
  else
    log Info ("processing message " +:+ Api.id message) ;;
    let parsed :=
      Inbound.parseWebexWebhookEvent (eventOfMessage message)
        (Some (Inbound.detail_of message))
        botId pollStartTime in
    if negb (Inbound.shouldProcessWebexMessage parsed requireMentionInGroups) then
      log Debug "skipping message: no mention in group" ;;
      mapSet room (Z.max lastTime messageTime)
    else
      text ← dispatchText parsed;
      log Info ("received message from " +:+ Inbound.p_personEmail parsed) ;;
      dispatchToAgent parsed text ;;
      mapSet room (Z.max lastTime messageTime).

(** [lastMessageTimeByRoom.get(room.id) || pollStartTime]: a missing
    entry and a stored zero both give the start time. *)
Definition lastTimeOr (entry : option Z) : Z :=
  match entry with
  | Some t => if t =? 0 then pollStartTime else t
  | None => pollStartTime
  end.

(** The body of [for (const room of rooms.items)], with its own
    [try]/[catch]. *)
Definition pollRoom (room : string) : Proc unit :=
  catch
    (entry ← mapGet room;
     let lastTime := lastTimeOr entry in
     messages ← await (Call token (ListMessages room 20));
     match messages with
     | Messages items =>
         let items := default [] items in
         log Debug ("polling room " +:+ room) ;;
         forEach (rev items) (pollMessage room lastTime)
     | _ =>
         (* [messages.items || []] of an object without [items] *)
         log Debug ("polling room " +:+ room) ;;
         forEach (rev []) (pollMessage room lastTime)
     end)
    (fun message => log Warn ("error polling room " +:+ room +:+ ": " +:+ message)).

(** One tick of the polling loop. *)
Definition pollMessages : Proc unit :=
  catch
    (rooms ← await (Call token (ListRooms "lastactivity" 50));
     match rooms with
     | Rooms items =>
         log Debug "polling: fetched rooms" ;;
         forEach items pollRoom
     | _ => Throw "TypeError"
     end)
    (fun message => log Error ("polling error: " +:+ message)).

End Running.

(** *** Startup and shutdown *)

(** The predicate of [existingWebhooks.items.find]. *)
Definition matches (webhookUrl : string) (wh : Api.WebexWebhook) : bool :=
  String.eqb (Api.wh_targetUrl wh) webhookUrl && String.eqb (Api.wh_resource wh) "messages".

(** The inner [try] of the webhook start: reuse a subscription that
    matches on target URL and resource, or create one.  The result is
    [webhookId]. *)
Definition registerWebhook (token webhookUrl : string) : Proc (option string) :=
  catch
    (existingWebhooks ← await (Call token ListWebhooks);
     match existingWebhooks with
     | Webhooks items =>
         match List.find (matches webhookUrl) items with
         | Some existing =>
             log Info ("using existing webhook: " +:+ Api.wh_id existing) ;;
             mret (Some (Api.wh_id existing))
         | None =>
             webhook ← await (Call token
                        (CreateWebhook "Moltbot Webex Webhook" webhookUrl "messages" "created"));
             log Info ("created webhook: " +:+ default "undefined" (id_of webhook)) ;;
             mret (id_of webhook)
         end
     | _ => Throw "TypeError"
     end)
    (fun message =>
       log Warn ("webhook registration failed: " +:+ message) ;;
       log Warn ("you may need to manually configure webhook to " +:+ webhookUrl) ;;
       mret None).

(** The outer [try] of the webhook start.  [None] is the early return of
    the [catch] in webhook mode; otherwise the pair is [server] (set or
    not) and [webhookId]. *)
Definition startWebhook (mode token : string) (webhookPort : Z) (webhookUrl : string)
  : Proc (option (bool * option string)) :=
  catch
    (await (Listen webhookPort) ;;
     webhookId ← registerWebhook token webhookUrl;
     mret (Some (true, webhookId)))
    (fun message =>
       log Error ("failed to start webhook server: " +:+ message) ;;
       if String.eqb mode "webhook" then mret None
       else
         log Warn "continuing with polling mode only" ;;
         mret (Some (false, None))).

(** [cfg] is [cfg.channels?.webex]. *)
Definition monitorWebexProvider (envToken : option string)
    (cfg : option Config.WebexConfig) : Proc MonitorResult :=
  match cfg with
  | None => log Debug "webex provider disabled" ;; mret (Inert "webhook")
  | Some webexCfg =>
  if negb (default false (Config.enabled webexCfg)) then
    log Debug "webex provider disabled" ;; mret (Inert "webhook")
  else
  match Token.resolveWebexCredentials envToken cfg with
  | None => log Error "webex credentials not configured" ;; mret (Inert "webhook")
  | Some botToken =>
  let mode := Js.or_else (Config.mode webexCfg) "webhook" in
  probe ← Probe.probeWebex envToken cfg;
  match (if Probe.ok probe then Probe.botInfo probe else None) with
  | None => log Error "webex probe failed" ;; mret (Inert mode)
  | Some botInfo =>
  log Info ("webex bot authenticated: "
            +:+ default "undefined" (Probe.displayName botInfo)) ;;
  let pollingIntervalMs :=
    default 5 (Config.polling webexCfg ≫= Config.intervalSeconds) * 1000 in
  let webhookPort := default 3979 (Config.webhook webexCfg ≫= Config.port) in
  let webhookPath := default "/webex/webhook" (Config.webhook webexCfg ≫= Config.path) in
  let webhookUrl :=
    Js.or_else (Config.webhook webexCfg ≫= Config.url)
      ("https://your-domain.com" +:+ webhookPath) in
  let enableWebhook := String.eqb mode "webhook" || String.eqb mode "both" in
  let enablePolling := String.eqb mode "polling" || String.eqb mode "both" in
  started ← (if enableWebhook then startWebhook mode botToken webhookPort webhookUrl
             else mret (Some (false, None)));
  match started with
  | None => mret (Inert mode)
  | Some (server, webhookId) =>
      (if enablePolling then
         log Info "starting polling mode" ;;
         emit PollSpawned ;;
         emit (IntervalSet pollingIntervalMs)
       else mret tt) ;;
      mret (Started mode botToken webhookId server enablePolling)
  end
  end
  end
  end.

(** The [shutdown] that [monitorWebexProvider] returns. *)
Definition shutdown (r : MonitorResult) : Proc unit :=
  match r with
  | Inert _ => mret tt
  | Started _ token webhookId server pollingInterval =>
      log Info "shutting down webex monitor" ;;
      (if pollingInterval then
         emit IntervalCleared ;; log Info "polling stopped"
       else mret tt) ;;
      (match webhookId with
       | Some wid =>
           if Js.truthy wid then
             catch
               (await (Call token (DeleteWebhook wid)) ;;
                log Info ("deleted webhook: " +:+ wid))
               (fun message => log Warn ("failed to delete webhook: " +:+ message))
           else mret tt
       | None => mret tt
       end) ;;
      (if server then
         await CloseServer ;; log Info "webhook server stopped"
       else mret tt)
  end.

End Monitor.

(** ** The specification's own words, for comparison with the code *)

Module Spec.

(** The decision table of the access-policy gate, row by row. *)
Definition shouldForward (roomType : Inbound.RoomType)
    (requireMentionInGroups mentionsBot : bool) : bool :=
  match roomType, requireMentionInGroups, mentionsBot with
  | Inbound.Direct, _, _ => true
  | Inbound.Group, false, _ => true
  | Inbound.Group, true, true => true
  | Inbound.Group, true, false => false
  end.

(** Two strings are equal up to the case of ASCII letters. *)
Fixpoint same_ci (a b : string) : bool :=
  match a, b with
  | EmptyString, EmptyString => true
  | String x a', String y b' => Js.eq_ci x y && same_ci a' b'
  | _, _ => false
  end.

(** [s] without its leading [p], when [s] starts with [p] up to case. *)
Fixpoint strip_prefix_ci (p s : string) : option string :=
  match p, s with
  | EmptyString, _ => Some s
  | String x p', String y s' => if Js.eq_ci x y then strip_prefix_ci p' s' else None
  | String _ _, EmptyString => None
  end.

(** The text handed to dispatch, as the claim words it: [text] if
    non-empty, else [markdown], else the empty string; when the bot was
    mentioned, a leading [@<botName>] (up to case) is removed and the
    result is trimmed. *)
Definition dispatch_text (botName : string) (text markdown : option string)
    (mentioned : bool) : string :=
  let t :=
    match text with
    | Some (String c s) => String c s
    | _ => match markdown with
           | Some (String c s) => String c s
           | _ => ""
           end
    end in
  if mentioned then
    match strip_prefix_ci (String "@" botName) t with
    | Some rest => Js.trim rest
    | None => Js.trim t
    end
  else t.

(** How many of the three addressing fields a payload sets. *)
Definition addressing_fields (p : Async.MessagePayload) : nat :=
  let set (o : option string) : nat := match o with Some _ => 1%nat | None => 0%nat end in
  (set (Async.mp_roomId p) + set (Async.mp_toPersonId p)
   + set (Async.mp_toPersonEmail p))%nat.

(** Webhook registration fails: the listing is rejected, or nothing
    listed matches and the creation is rejected. *)
Definition registration_fails (env : Async.Request -> Async.Response)
    (token webhookUrl : string) : Prop :=
  (exists m, env (Async.Call token Async.ListWebhooks) = Async.Rejected m)
  \/ (exists items m,
        env (Async.Call token Async.ListWebhooks) = Async.Webhooks items
        /\ List.find (Monitor.matches webhookUrl) items = None
        /\ env (Async.Call token
                  (Async.CreateWebhook "Moltbot Webex Webhook" webhookUrl
                     "messages" "created")) = Async.Rejected m).

(** The three ways a listed message is kept from dispatch, for a tick
    that read [lastTime] for the room: it is not newer than [lastTime],
    it is the bot's own, or the gate rejects its normal form. *)
Definition duplicate (lastTime : Z) (m : Api.WebexMessage) : bool :=
  Api.created m <=? lastTime.

Definition own (botEmail : string) (m : Api.WebexMessage) : bool :=
  String.eqb (Api.personEmail m) botEmail.

Definition gated_out (webexCfg : Config.WebexConfig) (botId : string)
    (m : Api.WebexMessage) : bool :=
  negb (Inbound.shouldProcessWebexMessage
          (Inbound.parseWebexWebhookEvent (Monitor.eventOfMessage m)
             (Some (Inbound.detail_of m)) botId (Api.created m))
          (Monitor.requireMentionInGroups webexCfg)).

Definition dispatched (webexCfg : Config.WebexConfig) (botId botEmail : string)
    (lastTime : Z) (m : Api.WebexMessage) : bool :=
  negb (duplicate lastTime m) && negb (own botEmail m) && negb (gated_out webexCfg botId m).

(** The write that follows a message that is not a duplicate. *)
Definition advance (room : string) (lastTime : Z) (store : gmap string Z)
    (m : Api.WebexMessage) : gmap string Z :=
  <[room := Z.max lastTime (Api.created m)]> store.

(** The watermark of a room: what a tick reads for it. *)
Definition watermark (pollStartTime : Z) (store : gmap string Z) (room : string) : Z :=
  Monitor.lastTimeOr pollStartTime (store !! room).

(** Every stored time is a time after the epoch. *)
Definition positive_times (store : gmap string Z) : Prop :=
  forall room t, store !! room = Some t -> 0 < t.

(** The invariant of one visit of [room] that read [lastTime], started
    from [store0]: the room's watermark stays at or above what was read,
    and no other room is written. *)
Definition during_visit (pollStartTime : Z) (room : string) (lastTime : Z)
    (store0 store : gmap string Z) : Prop :=
  positive_times store
  /\ lastTime <= watermark pollStartTime store room
  /\ forall r, r <> room -> store !! r = store0 !! r.

(** The invariant of one tick started from [store0]: no watermark is
    below what it was. *)
Definition during_tick (pollStartTime : Z) (store0 store : gmap string Z) : Prop :=
  positive_times store
  /\ forall r, watermark pollStartTime store0 r <= watermark pollStartTime store r.

(** Ticks that run one after the other, each to its end before the next
    starts, each against its own environment. *)
Fixpoint ticks_in_turn (tick : Async.Proc unit)
    (envs : list (Async.Request -> Async.Response)) (store : gmap string Z)
  : gmap string Z :=
  match envs with
  | [] => store
  | env :: envs' => ticks_in_turn tick envs' (Async.run env tick store).1.1
  end.

(** Messages as the remote API lists them: newest first. *)
Definition newest_first (items : list Api.WebexMessage) : Prop :=
  StronglySorted (fun a b => Api.created b <= Api.created a) items.

Definition oldest_first (items : list Api.WebexMessage) : Prop :=
  StronglySorted (fun a b => Api.created a <= Api.created b) items.

End Spec.

(** ** Reading a trace *)

Module Trace.
Import Async.

(** The writes to [lastMessageTimeByRoom], in order. *)
Fixpoint stores (t : list Event) : list (string * Z) :=
  match t with
  | Stored room time :: t' => (room, time) :: stores t'
  | _ :: t' => stores t'
  | [] => []
  end.

(** The contexts handed to the dispatcher, in order. *)
Fixpoint dispatches (t : list Event) : list InboundContext :=
  match t with
  | Requested (Dispatch ctx) :: t' => ctx :: dispatches t'
  | _ :: t' => dispatches t'
  | [] => []
  end.

(** The HTTP responses sent, in order. *)
Fixpoint responses (t : list Event) : list (Z * string) :=
  match t with
  | Respond status body :: t' => (status, body) :: responses t'
  | _ :: t' => responses t'
  | [] => []
  end.

(** The requests issued, in order. *)
Fixpoint requests (t : list Event) : list Request :=
  match t with
  | Requested req :: t' => req :: requests t'
  | _ :: t' => requests t'
  | [] => []
  end.

(** The log lines of a level, in order. *)
Fixpoint logged (l : Level) (t : list Event) : list string :=
  match t with
  | Log l' m :: t' =>
      match l, l' with
      | Debug, Debug | Info, Info | Warn, Warn | Error, Error => m :: logged l t'
      | _, _ => logged l t'
      end
  | _ :: t' => logged l t'
  | [] => []
  end.

(** A task that leaves the shared map alone and sends no HTTP response,
    whatever its environment answers. *)
Definition quiet {A : Type} (p : Proc A) : Prop :=
  forall (env : Request -> Response) (store : gmap string Z),
    exists t o, run env p store = (store, t, o) /\ responses t = [].

(** A task that keeps an invariant of the shared map, whatever its
    environment answers and however it ends. *)
Definition keeps {A : Type} (I : gmap string Z -> Prop) (p : Proc A) : Prop :=
  forall (env : Request -> Response) (store : gmap string Z),
    I store -> I (run env p store).1.1.

End Trace.

(** ** Sample data: the configurations and messages of the test suite *)

Module Sample.

Definition parsed (rt : Inbound.RoomType) (mentioned : bool)
  : Inbound.ParsedWebexMessage :=
  {| Inbound.p_messageId := "msg-123";
     Inbound.p_roomId := Some "room-123";
     Inbound.p_roomType := Some rt;
     Inbound.p_personId := "person-123";
     Inbound.p_personEmail := "user@example.com";
     Inbound.p_text := Some "Hello everyone";
     Inbound.p_markdown := None;
     Inbound.p_files := Some [];
     Inbound.p_mentionedPeople := Some [];
     Inbound.p_created := 1769644800000;
     Inbound.p_isBotMentioned := mentioned |}.

(** The event and the detail of the test "handles group room type". *)
Definition group_event : Inbound.WebexWebhookEvent :=
  {| Inbound.resource := "messages";
     Inbound.event := "created";
     Inbound.data :=
       {| Inbound.id := "msg-123";
          Inbound.roomId := None;
          Inbound.roomType := Some "group";
          Inbound.personId := Some "person-123";
          Inbound.personEmail := Some "user@example.com";
          Inbound.mentionedPeople := Some [];
          Inbound.created := None |} |}.

Definition empty_detail : Inbound.MessageDetail :=
  {| Inbound.d_text := None; Inbound.d_markdown := None; Inbound.d_files := None |}.

(** The configuration of the test "prefers environment variable over
    config". *)
Definition config_with_token : Config.WebexConfig :=
  {| Config.enabled := None;
     Config.mode := None;
     Config.botToken := Some "config-token";
     Config.groupPolicy := None;
     Config.webhook := None;
     Config.polling := None |}.

(** The bot of the monitor's test suite. *)
Definition test_bot : Async.BotInfo :=
  {| Async.bot_id := "bot-id-123";
     Async.bot_displayName := "Test Bot";
     Async.bot_emails := Some ["testbot@webex.bot"] |}.

(** A remote API that knows the bot and rejects everything else. *)
Definition api_with_bot (req : Async.Request) : Async.Response :=
  match req with
  | Async.Call _ Async.GetMe => Async.Person test_bot
  | _ => Async.Rejected "HTTP 503"
  end.

(** A group message that mentions the bot, with the given text. *)
Definition mention (text : string) : Inbound.ParsedWebexMessage :=
  {| Inbound.p_messageId := "msg-group-mention";
     Inbound.p_roomId := Some "room-group";
     Inbound.p_roomType := Some Inbound.Group;
     Inbound.p_personId := "person-123";
     Inbound.p_personEmail := "user@example.com";
     Inbound.p_text := Some text;
     Inbound.p_markdown := None;
     Inbound.p_files := Some [];
     Inbound.p_mentionedPeople := Some ["bot-id-123"];
     Inbound.p_created := 1769644800000;
     Inbound.p_isBotMentioned := true |}.

(** A configuration for a given mode, with a public webhook URL. *)
Definition config (mode : string) : Config.WebexConfig :=
  {| Config.enabled := Some true;
     Config.mode := Some mode;
     Config.botToken := Some "test-token";
     Config.groupPolicy := Some "mention";
     Config.webhook :=
       Some {| Config.port := None;
               Config.path := None;
               Config.url := Some "https://bot.example.com/webex/webhook" |};
     Config.polling := Some {| Config.intervalSeconds := Some 5 |} |}.

(** A subscription registered by an earlier run or by hand. *)
Definition earlier_webhook : Api.WebexWebhook :=
  {| Api.wh_id := "webhook-from-earlier-run";
     Api.wh_targetUrl := "https://bot.example.com/webex/webhook";
     Api.wh_resource := "messages";
     Api.wh_event := "created" |}.

(** A remote API on which the subscription already exists. *)
Definition api_with_webhook (req : Async.Request) : Async.Response :=
  match req with
  | Async.Call _ Async.GetMe => Async.Person test_bot
  | Async.Call _ Async.ListWebhooks => Async.Webhooks [earlier_webhook]
  | Async.Call _ (Async.DeleteWebhook _) => Async.Done
  | Async.Listen _ => Async.Done
  | Async.CloseServer => Async.Done
  | _ => Async.Rejected "HTTP 404"
  end.

(** A remote API whose webhook endpoints cannot be reached; the local
    server starts. *)
Definition api_without_webhooks (req : Async.Request) : Async.Response :=
  match req with
  | Async.Call _ Async.GetMe => Async.Person test_bot
  | Async.Listen _ => Async.Done
  | Async.CloseServer => Async.Done
  | _ => Async.Rejected "fetch failed"
  end.

(** A direct message from a user, created at the given time. *)
Definition direct_message (id : string) (created : Z) : Api.WebexMessage :=
  {| Api.id := id;
     Api.roomId := "room-123";
     Api.roomType := "direct";
     Api.text := Some "Hello bot";
     Api.markdown := None;
     Api.files := None;
     Api.personId := "person-123";
     Api.personEmail := "user@example.com";
     Api.created := created;
     Api.mentionedPeople := Some [] |}.

(** Three messages at times 1, 2 and 3, listed newest first. *)
Definition three_messages : list Api.WebexMessage :=
  [direct_message "msg-3" 3; direct_message "msg-2" 2; direct_message "msg-1" 1].

(** A remote API with one room, which lists the given messages for it;
    every dispatch completes. *)
Definition room_api (items : list Api.WebexMessage) (req : Async.Request)
  : Async.Response :=
  match req with
  | Async.Call _ Async.GetMe => Async.Person test_bot
  | Async.Call _ (Async.ListRooms _ _) => Async.Rooms ["room-123"]
  | Async.Call _ (Async.ListMessages _ _) => Async.Messages (Some items)
  | Async.Dispatch _ => Async.Done
  | _ => Async.Rejected "HTTP 404"
  end.

(** No pattern outside the modelled fragment is needed for a bot whose
    name has no pattern syntax. *)
Definition no_regexp (botName text : string) : option string := None.

(** A polling tick of the monitor started at [pollStartTime] for the test
    suite's bot. *)
Definition tick (pollStartTime : Z) : Async.Proc unit :=
  Monitor.pollMessages no_regexp (config "polling") "test-token" "bot-id-123"
    "testbot@webex.bot" "Test Bot" pollStartTime.

(** Two ticks of a monitor started at time 100 overlap on one room.  The
    first tick lists the message of time 105 and is still waiting for its
    dispatch (the agent's reply) when the second tick starts; the second
    tick lists the messages of times 110 and 105, dispatches both and
    finishes; then the first tick's dispatch completes. *)
Definition overlapping_ticks : list Async.Step :=
  [Async.Start (tick 100);
   Async.Answer 0 (Async.Rooms ["room-123"]);
   Async.Answer 0 (Async.Messages (Some [direct_message "msg-105" 105]));
   Async.Start (tick 100);
   Async.Answer 1 (Async.Rooms ["room-123"]);
   Async.Answer 1 (Async.Messages (Some [direct_message "msg-110" 110;
                                          direct_message "msg-105" 105]));
   Async.Answer 1 Async.Done;
   Async.Answer 1 Async.Done;
   Async.Answer 0 Async.Done].

Definition idle : Async.System := {| Async.shared := ∅; Async.tasks := [] |}.

(** A message of a group room that mentions the bot by name. *)
Definition group_mention (id : string) (created : Z) : Api.WebexMessage :=
  {| Api.id := id;
     Api.roomId := "room-123";
     Api.roomType := "group";
     Api.text := Some "@C++ Helper status";
     Api.markdown := None;
     Api.files := None;
     Api.personId := "person-123";
     Api.personEmail := "user@example.com";
     Api.created := created;
     Api.mentionedPeople := Some ["bot-id-123"] |}.

(** [new RegExp("^@C++ Helper\\s*", "i")] throws a [SyntaxError]
    (nothing to repeat), whatever the text. *)
Definition nothing_to_repeat (botName text : string) : option string := None.

End Sample.

(** ** More of the extension: the JavaScript primitives it needs *)

Module JsText.

(** [toLowerCase] on ASCII: upper-case letters are mapped to lower case. *)
Definition downcase (c : ascii) : ascii :=
  let n := nat_of_ascii c in
  if ((65 <=? n)%nat && (n <=? 90)%nat)%bool then ascii_of_nat (n + 32) else c.

Fixpoint toLowerCase (s : string) : string :=
  match s with
  | EmptyString => EmptyString
  | String c s' => String (downcase c) (toLowerCase s')
  end.

(** [s.replace(/^(a1|a2|...)<tail>/i, "")] for alternatives and a tail
    free of pattern syntax: the alternatives are tried from the left,
    each followed by the tail, and the first that matches is removed. *)
Fixpoint replace_start_first (alternatives : list string) (tail s : string) : string :=
  match alternatives with
  | [] => s
  | a :: alternatives' =>
      match Regex.match_atoms (Regex.literal (a +:+ tail)) s with
      | Some rest => rest
      | None => replace_start_first alternatives' tail s
      end
  end.

(** [/^(a1|a2|...)<tail>/i.test(s)] *)
Definition test_start_first (alternatives : list string) (tail s : string) : bool :=
  existsb (fun a => bool_decide (is_Some (Regex.match_atoms (Regex.literal (a +:+ tail)) s)))
    alternatives.

(** [xs.slice(0, limit && limit > 0 ? limit : undefined)] *)
Definition slice_limit {A : Type} (limit : option Z) (xs : list A) : list A :=
  match limit with
  | Some n => if 0 <? n then firstn (Z.to_nat n) xs else xs
  | None => xs
  end.

End JsText.

(** ** probe.ts: [verifyWebexWebhook] *)

Module ProbeWebhook.
Import Async.

Record VerifyResult : Type := {
  ok : bool;
  error : option string
}.

Definition verifyWebexWebhook (env : option string) (cfg : option Config.WebexConfig)
    (webhookUrl : string) : Proc VerifyResult :=
  catch
    (match Token.resolveWebexCredentials env cfg with
     | None => mret {| ok := false; error := Some "No credentials configured" |}
     | Some botToken =>
         webhooks ← await (Call botToken ListWebhooks);
         match webhooks with
         | Webhooks items =>
             match List.find (fun wh => String.eqb (Api.wh_targetUrl wh) webhookUrl) items with
             | Some _ => mret {| ok := true; error := None |}
             | None => mret {| ok := false; error := Some "Webhook not found" |}
             end
         | _ => Throw "TypeError"
         end
     end)
    (fun message => mret {| ok := false; error := Some message |}).

End ProbeWebhook.

(** ** send.ts: [getWebexMessage] and [listWebexRooms] *)

Module SendMore.
Import Async.

(** The message detail is returned as the client gives it; without
    credentials the function throws, and a rejection of the client is not
    caught. *)
Definition getWebexMessage (env : option string) (cfg : option Config.WebexConfig)
    (messageId : string) : Proc Response :=
  match Token.resolveWebexCredentials env cfg with
  | None => Throw "No Webex credentials configured"
  | Some botToken => await (Call botToken (GetMessage messageId))
  end.

(** [client.listRooms()] passes no parameter; the client leaves a falsy
    [sortBy] and a falsy [max] out of the query, so the request is that
    of an empty [sortBy] and a zero [max].  The result is
    [response.items || []]. *)
Definition listWebexRooms (env : option string) (cfg : option Config.WebexConfig)
  : Proc (list string) :=
  match Token.resolveWebexCredentials env cfg with
  | None => mret []
  | Some botToken =>
      response ← await (Call botToken (ListRooms "" 0));
      match response with
      | Rooms items => mret items
      | _ => mret []
      end
  end.

End SendMore.

(** ** outbound.ts *)

Module Outbound.
Import Async.

Record OutboundResult : Type := {
  channel : string;
  ok : bool;
  messageId : option string;
  error : option string
}.

Definition textChunkLimit : Z := 7439.

Definition of_send (result : Send.SendWebexMessageResult) : OutboundResult :=
  {| channel := "webex";
     ok := Send.ok result;
     messageId := Send.messageId result;
     error := Send.error result |}.

Definition sendText (env : option string) (cfg : option Config.WebexConfig)
    (to text : string) : Proc OutboundResult :=
  result ← Send.sendMessageWebex env cfg to text None;
  mret (of_send result).

Definition sendMedia (env : option string) (cfg : option Config.WebexConfig)
    (to text : string) (mediaUrl : option string) : Proc OutboundResult :=
  result ← Send.sendMessageWebex env cfg to text mediaUrl;
  mret (of_send result).

End Outbound.

(** ** channel.ts *)

Module Channel.
Import Async.

(** [normalizeWebexTarget]; [None] is [null]. *)
Definition normalizeWebexTarget (raw : string) : option string :=
  let trimmed := Js.trim raw in
  if negb (Js.truthy trimmed) then None
  else
    let withoutPrefix :=
      Js.trim
        (JsText.replace_start_first ["person"; "room"; "user"] ":"
           (Regex.replace_start (Regex.literal "webex:") trimmed)) in
    if Js.truthy withoutPrefix then Some withoutPrefix else None.

(** [pairing.normalizeAllowEntry] and [security.normalizeEntry] *)
Definition normalizeAllowEntry (entry : string) : string :=
  JsText.replace_start_first ["webex"; "person"; "user"] ":" entry.

(** [config.formatAllowFrom], for entries that are strings. *)
Definition formatAllowFrom (allowFrom : list string) : list string :=
  List.filter Js.truthy (map (fun e => JsText.toLowerCase (Js.trim e)) allowFrom).

(** [config.resolveAllowFrom]: [channels?.webex?.allowFrom ?? []] *)
Definition resolveAllowFrom (allowFrom : option (list string)) : list string :=
  default [] allowFrom.

Record ResolvedWebexAccount : Type := {
  accountId : string;
  enabled : bool;
  configured : bool;
  botToken : option string
}.

(** [config.resolveAccount]; [DEFAULT_ACCOUNT_ID] is the SDK's, and
    [webexCfg?.enabled !== false] holds for a missing section and for a
    missing flag. *)
Definition resolveAccount (DEFAULT_ACCOUNT_ID : string) (env : option string)
    (webexCfg : option Config.WebexConfig) : ResolvedWebexAccount :=
  let credentials := Token.resolveWebexCredentials env webexCfg in
  {| accountId := DEFAULT_ACCOUNT_ID;
     enabled := negb (bool_decide (webexCfg ≫= Config.enabled = Some false));
     configured := match credentials with
                   | Some t => Js.truthy t
                   | None => false
                   end;
     botToken := credentials |}.

(** [groups.resolveRequireMention] *)
Definition resolveRequireMention (webexCfg : option Config.WebexConfig) : bool :=
  let groupPolicy := default "allowlist" (webexCfg ≫= Config.groupPolicy) in
  String.eqb groupPolicy "mention" || String.eqb groupPolicy "allowlist".

(** [groups.resolveToolPolicy] *)
Definition resolveToolPolicy (webexCfg : option Config.WebexConfig) : string :=
  let groupPolicy := default "allowlist" (webexCfg ≫= Config.groupPolicy) in
  if String.eqb groupPolicy "disabled" then "disabled"
  else if String.eqb groupPolicy "open" then "open"
  else "allowlist".

(** [messaging.targetResolver.looksLikeId] *)
Definition looksLikeId (raw : string) : bool :=
  let trimmed := Js.trim raw in
  if negb (Js.truthy trimmed) then false
  else if JsText.test_start_first ["person"; "room"] ":" trimmed then true
  else if Js.includes trimmed "@" then true
  else if Js.startsWith trimmed "Y2lzY29zcGFyazovL3VzL" then true
  else false.

Record ResolvedTarget : Type := {
  input : string;
  resolved : bool;
  id : option string;
  note : option string
}.

(** One entry of [resolver.resolveTargets]. *)
Definition resolveTarget (inp : string) : ResolvedTarget :=
  let trimmed := Js.trim inp in
  if negb (Js.truthy trimmed) then
    {| input := inp; resolved := false; id := None; note := Some "empty input" |}
  else
    match normalizeWebexTarget trimmed with
    | Some normalized =>
        {| input := inp; resolved := true; id := Some normalized; note := None |}
    | None =>
        {| input := inp; resolved := false; id := None;
           note := Some "invalid target format" |}
    end.

Definition resolveTargets (inputs : list string) : list ResolvedTarget :=
  map resolveTarget inputs.

(** [new Set] filled in order: a value is kept where it first occurs. *)
Fixpoint set_add_all (seen : list string) (xs : list string) : list string :=
  match xs with
  | [] => seen
  | x :: xs' =>
      if Inbound.array_includes seen x then set_add_all seen xs'
      else set_add_all (seen ++ [x]) xs'
  end.

(** [directory.listPeers]: the ids of the peers ([kind] is always
    ["user"]); [allowFrom] is [channels?.webex?.allowFrom], with entries
    that are strings. *)
Definition listPeers (allowFrom : option (list string)) (query : option string)
    (limit : option Z) : list string :=
  let q := Js.or_else (JsText.toLowerCase <$> (Js.trim <$> query)) "" in
  let ids :=
    set_add_all []
      (List.filter (fun trimmed => Js.truthy trimmed && negb (String.eqb trimmed "*"))
         (map Js.trim (default [] allowFrom))) in
  JsText.slice_limit limit
    (List.filter
       (fun id => if Js.truthy q then Js.includes (JsText.toLowerCase id) q else true)
       (map (fun raw => default raw (normalizeWebexTarget raw)) ids)).

(** A room as [directory.listGroups] reads it. *)
Record Room : Type := {
  room_id : string;
  room_title : option string
}.

(** [directory.listGroups] after [await listWebexRooms(cfg)]: [rooms] is
    what the call returned, [None] when it threw.  The result is the list
    of [(id, name)] of the groups. *)
Definition listGroups (rooms : option (list Room)) (query : option string)
    (limit : option Z) : list (string * option string) :=
  match rooms with
  | None => []
  | Some rooms =>
      let q := Js.or_else (JsText.toLowerCase <$> (Js.trim <$> query)) "" in
      map (fun room => (room_id room, room_title room))
        (JsText.slice_limit limit
           (List.filter
              (fun room =>
                 if Js.truthy q then
                   Js.includes (Js.or_else (JsText.toLowerCase <$> room_title room) "") q
                 else true)
              rooms))
  end.

(** [status.probeAccount] *)
Definition probeAccount (env : option string) (webexCfg : option Config.WebexConfig)
  : Proc Probe.WebexProbeResult :=
  probe ← Probe.probeWebex env webexCfg;
  mret {| Probe.ok := Probe.ok probe;
          Probe.botInfo := Probe.botInfo probe;
          Probe.error := Probe.error probe |}.

(** [pairing.notifyApproval]; [PAIRING_APPROVED_MESSAGE] is the SDK's. *)
Definition notifyApproval (PAIRING_APPROVED_MESSAGE : string) (env : option string)
    (cfg : option Config.WebexConfig) (id : string) : Proc unit :=
  Send.sendMessageWebex env cfg id PAIRING_APPROVED_MESSAGE None ;; mret tt.

Section ConfigEdits.

(** A value of the configuration that the extension does not read. *)
Variable Json : Type.

(** [cfg.channels]: the [webex] section and the other keys. *)
Record Channels : Type := {
  webex : option Config.WebexConfig;
  others : gmap string Json
}.

(** The configuration: [channels] and the other top-level keys. *)
Record OpenClawConfig : Type := {
  channels : option Channels;
  top : gmap string Json
}.

(** [{ ...webex, enabled }], where spreading a missing section gives
    the empty object. *)
Definition with_enabled (webexCfg : option Config.WebexConfig) (flag : bool)
  : Config.WebexConfig :=
  {| Config.enabled := Some flag;
     Config.mode := webexCfg ≫= Config.mode;
     Config.botToken := webexCfg ≫= Config.botToken;
     Config.groupPolicy := webexCfg ≫= Config.groupPolicy;
     Config.webhook := webexCfg ≫= Config.webhook;
     Config.polling := webexCfg ≫= Config.polling |}.

(** [config.setAccountEnabled] *)
Definition setAccountEnabled (cfg : OpenClawConfig) (flag : bool) : OpenClawConfig :=
  {| channels :=
       Some {| webex := Some (with_enabled (channels cfg ≫= webex) flag);
               others := default ∅ (others <$> channels cfg) |};
     top := top cfg |}.

(** [setup.applyAccountConfig] *)
Definition applyAccountConfig (cfg : OpenClawConfig) : OpenClawConfig :=
  {| channels :=
       Some {| webex := Some (with_enabled (channels cfg ≫= webex) true);
               others := default ∅ (others <$> channels cfg) |};
     top := top cfg |}.

(** [config.deleteAccount]: [channels] itself goes when no key is left
    in it. *)
Definition deleteAccount (cfg : OpenClawConfig) : OpenClawConfig :=
  let nextOthers := default ∅ (others <$> channels cfg) in
  {| channels :=
       if bool_decide (0 < size nextOthers)%nat
       then Some {| webex := None; others := nextOthers |}
       else None;
     top := top cfg |}.

End ConfigEdits.

Arguments webex {Json} _.
Arguments others {Json} _.
Arguments channels {Json} _.
Arguments top {Json} _.
Arguments setAccountEnabled {Json} cfg flag.
Arguments applyAccountConfig {Json} cfg.
Arguments deleteAccount {Json} cfg.

(** The [channels.webex] section of a configuration, and its other
    channels. *)
Definition webex_of {Json : Type} (cfg : OpenClawConfig Json) : option Config.WebexConfig :=
  channels cfg ≫= webex.

Definition others_of {Json : Type} (cfg : OpenClawConfig Json) : gmap string Json :=
  default ∅ (others <$> channels cfg).

End Channel.

(** ** Words for the properties of the further code *)

Module Words.

(** A string with no white space at either end. *)
Fixpoint ends_clean (s : string) : bool :=
  match s with
  | EmptyString => true
  | String c EmptyString => negb (Js.is_space c)
  | String c (String _ _ as s') => ends_clean s'
  end.

Definition no_outer_space (s : string) : bool :=
  match s with
  | EmptyString => true
  | String c _ => negb (Js.is_space c) && ends_clean s
  end.

(** A token source that holds nothing: missing, or white space only. *)
Definition blank (o : option string) : Prop :=
  match o with
  | Some s => Js.trim s = ""
  | None => True
  end.

(** A task all of whose events satisfy [P], whatever its environment
    answers and however it ends. *)
Definition emits {A : Type} (P : Async.Event -> Prop) (p : Async.Proc A) : Prop :=
  forall (env : Async.Request -> Async.Response) (store : gmap string Z),
    Forall P (Async.run env p store).1.2.

(** A task that never throws. *)
Definition returns {A : Type} (p : Async.Proc A) : Prop :=
  forall (env : Async.Request -> Async.Response) (store : gmap string Z),
    exists a, (Async.run env p store).2 = Async.Returned a.

(** The rooms whose messages a trace asks for, in order. *)
Fixpoint listings (t : list Async.Event) : list string :=
  match t with
  | Async.Requested (Async.Call _ (Async.ListMessages room _)) :: t' => room :: listings t'
  | _ :: t' => listings t'
  | [] => []
  end.

(** An event that is not a request to list a room's messages. *)
Definition not_listing (e : Async.Event) : Prop :=
  match e with
  | Async.Requested (Async.Call _ (Async.ListMessages _ _)) => False
  | _ => True
  end.

(** An event that, when it hands a context to the dispatcher, hands one
    that satisfies [Q]. *)
Definition dispatching (Q : Async.InboundContext -> Prop) (e : Async.Event) : Prop :=
  match e with
  | Async.Requested (Async.Dispatch ctx) => Q ctx
  | _ => True
  end.

(** The access gate on the fields of a raw message: the room is direct,
    or groups need no mention, or the bot is among the mentioned people. *)
Definition gate_open (requireMention : bool) (botId : string) (roomType : option string)
    (mentionedPeople : option (list string)) : Prop :=
  roomType = Some "direct" \/ requireMention = false
  \/ In botId (default [] mentionedPeople).

(** A task all of whose events satisfy [P] against the environment
    [env], however it ends. *)
Definition emits_in {A : Type} (env : Async.Request -> Async.Response)
    (P : Async.Event -> Prop) (p : Async.Proc A) : Prop :=
  forall store : gmap string Z, Forall P (Async.run env p store).1.2.

(** The message [m] is one that the remote API lists: for a room of its
    listing of the rooms, in the listing of that room's messages. *)
Definition listed (env : Async.Request -> Async.Response) (token : string)
    (m : Api.WebexMessage) : Prop :=
  exists rooms room items,
    env (Async.Call token (Async.ListRooms "lastactivity" 50)) = Async.Rooms rooms
    /\ In room rooms
    /\ env (Async.Call token (Async.ListMessages room 20)) = Async.Messages (Some items)
    /\ In m items.

(** The context [ctx] is the one that the polling loop builds from a
    listed message that another sender wrote and that the gate admits,
    with the text that the loop computes for it. *)
Definition from_listing (regexp_beyond : string -> string -> option string)
    (webexCfg : Config.WebexConfig) (token botId botEmail botName : string)
    (pollStartTime : Z) (env : Async.Request -> Async.Response)
    (ctx : Async.InboundContext) : Prop :=
  exists (m : Api.WebexMessage) (text : string),
    let parsed :=
      Inbound.parseWebexWebhookEvent (Monitor.eventOfMessage m)
        (Some (Inbound.detail_of m)) botId pollStartTime in
    listed env token m
    /\ Api.personEmail m <> botEmail
    /\ gate_open (Monitor.requireMentionInGroups webexCfg) botId
         (Some (Api.roomType m)) (Api.mentionedPeople m)
    /\ Monitor.dispatchText regexp_beyond botName parsed = Async.Ret text
    /\ ctx = Monitor.inboundContext parsed text.

(** The events of a monitor's startup: it probes the bot, starts the
    server and lists or creates the subscription; it sends no message,
    deletes nothing, dispatches nothing and writes no watermark. *)
Definition startup_event (e : Async.Event) : Prop :=
  match e with
  | Async.Requested (Async.Call _ Async.GetMe)
  | Async.Requested (Async.Call _ Async.ListWebhooks)
  | Async.Requested (Async.Call _ (Async.CreateWebhook _ _ _ _))
  | Async.Requested (Async.Listen _) => True
  | Async.Requested _ => False
  | Async.Stored _ _ | Async.Respond _ _ | Async.IntervalCleared => False
  | _ => True
  end.

(** The events of a webhook registration: log lines, the listing of the
    subscriptions and the creation of one. *)
Definition registration_event (e : Async.Event) : Prop :=
  match e with
  | Async.Log _ _ => True
  | Async.Requested (Async.Call _ Async.ListWebhooks)
  | Async.Requested (Async.Call _ (Async.CreateWebhook _ _ _ _)) => True
  | _ => False
  end.

(** What a monitor holds when its startup has returned: whether the
    webhook server runs, whether the polling interval is set, and the
    subscription id kept for the shutdown. *)
Definition server_of (r : Monitor.MonitorResult) : bool :=
  match r with
  | Monitor.Started _ _ _ server _ => server
  | Monitor.Inert _ => false
  end.

Definition polling_of (r : Monitor.MonitorResult) : bool :=
  match r with
  | Monitor.Started _ _ _ _ polling => polling
  | Monitor.Inert _ => false
  end.

Definition webhookId_of (r : Monitor.MonitorResult) : option string :=
  match r with
  | Monitor.Started _ _ webhookId _ _ => webhookId
  | Monitor.Inert _ => None
  end.

(** [webhookUrl] as the monitor computes it from the configuration:
    [webexCfg.webhook?.url], or else the placeholder host with the
    configured path. *)
Definition webhookUrl_of (webexCfg : Config.WebexConfig) : string :=
  Js.or_else (Config.webhook webexCfg ≫= Config.url)
    ("https://your-domain.com"
     +:+ default "/webex/webhook" (Config.webhook webexCfg ≫= Config.path)).

(** The subscription id [w] is one that the remote API gave for the URL:
    the id of the first subscription of its listing that has this target
    URL and the resource [messages], or, when the listing has none, the
    [id] of its answer to the creation of one for this URL. *)
Definition obtained (env : Async.Request -> Async.Response) (token webhookUrl w : string)
  : Prop :=
  exists items,
    env (Async.Call token Async.ListWebhooks) = Async.Webhooks items
    /\ ((exists existing,
           List.find (Monitor.matches webhookUrl) items = Some existing
           /\ Api.wh_id existing = w)
        \/ (List.find (Monitor.matches webhookUrl) items = None
            /\ Async.id_of
                 (env (Async.Call token
                         (Async.CreateWebhook "Moltbot Webex Webhook" webhookUrl
                            "messages" "created"))) = Some w)).

(** The events of a shutdown: log lines, the clearing of the interval,
    the deletion of a subscription and the closing of the server. *)
Definition shutdown_event (e : Async.Event) : Prop :=
  match e with
  | Async.Log _ _ | Async.IntervalCleared => True
  | Async.Requested (Async.Call _ (Async.DeleteWebhook _))
  | Async.Requested Async.CloseServer => True
  | _ => False
  end.

End Words.

(** ** An outage of the dispatcher *)

Module Outage.

(** A remote API with one room that lists the given messages, while the
    dispatcher rejects every context. *)
Definition dispatcher_down (items : list Api.WebexMessage) (req : Async.Request)
  : Async.Response :=
  match req with
  | Async.Call _ (Async.ListRooms _ _) => Async.Rooms ["room-123"]
  | Async.Call _ (Async.ListMessages _ _) => Async.Messages (Some items)
  | Async.Dispatch _ => Async.Rejected "agent unavailable"
  | _ => Async.Rejected "HTTP 404"
  end.

End Outage.

(** ** A monitor in the mode [both] *)

Module Both.

(** The body of the POST that the remote API sends for a message. *)
Definition body_of (m : Api.WebexMessage) : Monitor.RequestBody :=
  Monitor.BodyObject (Some "messages") (Some "created")
    (Some (Inbound.data (Monitor.eventOfMessage m))).

(** A remote API that holds one message: it returns it by id and lists
    it for every room; every dispatch completes. *)
Definition api_with_message (m : Api.WebexMessage) (req : Async.Request)
  : Async.Response :=
  match req with
  | Async.Call _ (Async.GetMessage _) => Async.Message m
  | Async.Call _ (Async.ListRooms _ _) => Async.Rooms [Api.roomId m]
  | Async.Call _ (Async.ListMessages _ _) => Async.Messages (Some [m])
  | Async.Dispatch _ => Async.Done
  | _ => Async.Rejected "HTTP 404"
  end.

End Both.

(** * Properties *)

(** ** Running resumptions: sequencing, handlers and loops *)

Section RunLemmas.
Import Async.

Variable env : Request -> Response.

Lemma run_bind {A B : Type} (p : Proc A) (f : A -> Proc B) (store : gmap string Z) :
  run env (p ≫= f) store
  = let '(s1, t1, o1) := run env p store in
    match o1 with
    | Returned a => let '(s2, t2, o2) := run env (f a) s1 in (s2, t1 ++ t2, o2)
    | Threw err => (s1, t1, Threw err)
    end.
Proof.
  change (p ≫= f) with (bind f p).
  revert store. induction p as [a|err|e k IH|room k IH|room time k IH|req k IH];
    intros store; cbn [bind run].
  - destruct (run env (f a) store) as [[s2 t2] o2]. reflexivity.
  - reflexivity.
  - rewrite IH. destruct (run env k store) as [[s1 t1] [a|err]].
    + destruct (run env (f a) s1) as [[s2 t2] o2]. reflexivity.
    + reflexivity.
  - apply IH.
  - rewrite IH. destruct (run env k _) as [[s1 t1] [a|err]].
    + destruct (run env (f a) s1) as [[s2 t2] o2]. reflexivity.
    + reflexivity.
  - rewrite IH. destruct (run env (k (env req)) store) as [[s1 t1] [a|err]].
    + destruct (run env (f a) s1) as [[s2 t2] o2]. reflexivity.
    + reflexivity.
Qed.

Lemma run_catch {A : Type} (p : Proc A) (h : string -> Proc A) (store : gmap string Z) :
  run env (catch p h) store
  = let '(s1, t1, o1) := run env p store in
    match o1 with
    | Returned a => (s1, t1, Returned a)
    | Threw err => let '(s2, t2, o2) := run env (h err) s1 in (s2, t1 ++ t2, o2)
    end.
Proof.
  revert store. induction p as [a|err|e k IH|room k IH|room time k IH|req k IH];
    intros store; cbn [catch run].
  - reflexivity.
  - destruct (run env (h err) store) as [[s2 t2] o2]. reflexivity.
  - rewrite IH. destruct (run env k store) as [[s1 t1] [a|err]].
    + reflexivity.
    + destruct (run env (h err) s1) as [[s2 t2] o2]. reflexivity.
  - apply IH.
  - rewrite IH. destruct (run env k _) as [[s1 t1] [a|err]].
    + reflexivity.
    + destruct (run env (h err) s1) as [[s2 t2] o2]. reflexivity.
  - rewrite IH. destruct (run env (k (env req)) store) as [[s1 t1] [a|err]].
    + reflexivity.
    + destruct (run env (h err) s1) as [[s2 t2] o2]. reflexivity.
Qed.

Lemma run_seq {A : Type} (p : Proc unit) (q : Proc A) (store : gmap string Z) :
  run env (p ;; q) store
  = let '(s1, t1, o1) := run env p store in
    match o1 with
    | Returned _ => let '(s2, t2, o2) := run env q s1 in (s2, t1 ++ t2, o2)
    | Threw err => (s1, t1, Threw err)
    end.
Proof. apply run_bind. Qed.

Lemma run_log {A : Type} (l : Level) (m : string) (q : Proc A) (store : gmap string Z) :
  run env (log l m ;; q) store
  = let '(s2, t2, o2) := run env q store in (s2, Log l m :: t2, o2).
Proof. reflexivity. Qed.

Lemma run_await (req : Request) (store : gmap string Z) :
  run env (await req) store
  = (store, [Requested req],
     match env req with Rejected m => Threw m | r => Returned r end).
Proof. unfold await. cbn [run]. destruct (env req); reflexivity. Qed.

End RunLemmas.

(** One step of a run: open a sequencing, a handler or an [await]. *)
Ltac run_step :=
  first [rewrite run_bind | rewrite run_catch | rewrite run_await];
  cbn [Async.run Async.emit Async.log Async.mapGet Async.mapSet mret
       Async.Proc_ret app].

(** ** The access-policy gate *)

(** C1.  The gate implements the decision table of the specification: for
    every parsed message whose room type is [rt] and whose mention flag
    is [m], and for every [requireMentionInGroups], the gate returns the
    table's entry; row by row: direct gives true; group without the
    requirement gives true; group with the requirement gives the mention
    flag. *)
Theorem gate_decision_table
    (parsed : Inbound.ParsedWebexMessage) (rt : Inbound.RoomType)
    (requireMentionInGroups m : bool)
    (Hrt : Inbound.p_roomType parsed = Some rt)
    (Hm : Inbound.p_isBotMentioned parsed = m) :
  Inbound.shouldProcessWebexMessage parsed requireMentionInGroups
    = Spec.shouldForward rt requireMentionInGroups m
  /\ (rt = Inbound.Direct ->
      Inbound.shouldProcessWebexMessage parsed requireMentionInGroups = true)
  /\ (rt = Inbound.Group -> requireMentionInGroups = false ->
      Inbound.shouldProcessWebexMessage parsed requireMentionInGroups = true)
  /\ (rt = Inbound.Group -> requireMentionInGroups = true -> m = true ->
      Inbound.shouldProcessWebexMessage parsed requireMentionInGroups = true)
  /\ (rt = Inbound.Group -> requireMentionInGroups = true -> m = false ->
      Inbound.shouldProcessWebexMessage parsed requireMentionInGroups = false).
Proof.
  unfold Inbound.shouldProcessWebexMessage.
  rewrite Hrt, Hm.
  destruct rt, requireMentionInGroups, m; cbn; repeat split; congruence.
Qed.

Lemma gate_decision_table_witness :
  Inbound.shouldProcessWebexMessage (Sample.parsed Inbound.Group false) true = false.
Proof.
  apply (gate_decision_table (Sample.parsed Inbound.Group false)
           Inbound.Group true false); reflexivity.
Defined.

(** ** The normalizer *)

Lemma array_includes_In (a : list string) (x : string) :
  Inbound.array_includes a x = true <-> In x a.
Proof.
  unfold Inbound.array_includes. rewrite existsb_exists. split.
  - intros (y & Hy & Heq). apply String.eqb_eq in Heq. now subst.
  - intros Hin. exists x. split; [assumption | apply String.eqb_refl].
Qed.

(** C7, as the claim has it, fails on the text fields: with a full
    message detail that has neither [text] nor [markdown] (the [{}] of the
    test suite), the parsed message has no [text] and no [markdown]; it
    does not hold the empty string. *)
Lemma normalizer_text_not_defaulted :
  let parsed :=
    Inbound.parseWebexWebhookEvent Sample.group_event (Some Sample.empty_detail)
      "bot-id" 0 in
  Inbound.d_text Sample.empty_detail = None
  /\ Inbound.p_text parsed = None
  /\ Inbound.p_text parsed <> Some ""
  /\ Inbound.p_markdown parsed = None
  /\ Inbound.p_markdown parsed <> Some "".
Proof. cbn. repeat split; congruence. Qed.

(** C7, amended.  The normalizer is a total function; the mention flag is
    true exactly when the bot's id is among the event's mentioned people
    (none when the list is absent); the room type is direct exactly when
    the raw value is the literal ["direct"], and group for every other
    value and for an absent one; [personId] and [personEmail] are the
    empty string when absent from the event, [files] and
    [mentionedPeople] are empty lists when absent; [text] and [markdown]
    are carried over from the detail as they are, and stay absent when
    the detail lacks them or is itself missing. *)
Theorem normalizer_fields
    (ev : Inbound.WebexWebhookEvent) (fullMessage : option Inbound.MessageDetail)
    (botId : string) (now : Z) :
  let parsed := Inbound.parseWebexWebhookEvent ev fullMessage botId now in
  let d := Inbound.data ev in
  (Inbound.p_isBotMentioned parsed = true
     <-> In botId (default [] (Inbound.mentionedPeople d)))
  /\ (Inbound.p_roomType parsed = Some Inbound.Direct
        <-> Inbound.roomType d = Some "direct")
  /\ (Inbound.p_roomType parsed = Some Inbound.Group
        <-> Inbound.roomType d <> Some "direct")
  /\ Inbound.p_messageId parsed = Inbound.id d
  /\ (Inbound.personId d = None -> Inbound.p_personId parsed = "")
  /\ (Inbound.personEmail d = None -> Inbound.p_personEmail parsed = "")
  /\ (fullMessage ≫= Inbound.d_files = None -> Inbound.p_files parsed = Some [])
  /\ (Inbound.mentionedPeople d = None -> Inbound.p_mentionedPeople parsed = Some [])
  /\ Inbound.p_text parsed = fullMessage ≫= Inbound.d_text
  /\ Inbound.p_markdown parsed = fullMessage ≫= Inbound.d_markdown
  /\ (fullMessage ≫= Inbound.d_text = None -> Inbound.p_text parsed = None)
  /\ (fullMessage ≫= Inbound.d_markdown = None -> Inbound.p_markdown parsed = None).
Proof.
  cbn. unfold Inbound.wasWebexBotMentioned.
  split; [apply array_includes_In |].
  split.
  { destruct (Inbound.roomType (Inbound.data ev)) as [t|] eqn:E; cbn.
    - destruct (String.eqb_spec t "direct"); split; congruence.
    - split; congruence. }
  split.
  { destruct (Inbound.roomType (Inbound.data ev)) as [t|] eqn:E; cbn.
    - destruct (String.eqb_spec t "direct"); split; congruence.
    - split; congruence. }
  repeat split; try (intros ->; reflexivity); try (intros H; exact H).
Qed.

(** ** Credentials *)

(** Where [resolveWebexCredentials] is used, a token set in the
    environment wins over the configuration file. *)
Lemma resolve_prefers_env (env : string) (cfg : option Config.WebexConfig) :
  Js.truthy (Js.trim env) = true ->
  Token.resolveWebexCredentials (Some env) cfg = Some (Js.trim env).
Proof. intros H. unfold Token.resolveWebexCredentials. cbn. now rewrite H. Qed.

(** The probe takes the configuration file's token whenever it is set. *)
Lemma probe_prefers_config (env : option string) (cfg : Config.WebexConfig) (c : string) :
  Config.botToken cfg = Some c ->
  Js.truthy (Js.trim c) = true ->
  Probe.token env (Some cfg) = Some (Js.trim c).
Proof. intros Hc H. unfold Probe.token. cbn. rewrite Hc. cbn. now rewrite H. Qed.

(** C8.  With [WEBEX_BOT_TOKEN=env-token] and [botToken: "config-token"],
    [resolveWebexCredentials] yields the environment's token, as its test
    demands, but [probeWebex] resolves the same two sources the other way
    round and authenticates with the configuration file's token. *)
Theorem probe_resolves_config_token_first :
  Token.resolveWebexCredentials (Some "env-token") (Some Sample.config_with_token)
    = Some "env-token"
  /\ Probe.token (Some "env-token") (Some Sample.config_with_token)
    = Some "config-token"
  /\ Trace.requests
       (Async.run Sample.api_with_bot
          (Probe.probeWebex (Some "env-token") (Some Sample.config_with_token)) ∅).1.2
     = [Async.Call "config-token" Async.GetMe].
Proof. repeat split; vm_compute; reflexivity. Qed.

(** ** Outbound addressing *)

Lemma match_literal (p s : string) :
  Regex.match_atoms (Regex.literal p) s = Spec.strip_prefix_ci p s.
Proof.
  revert s. induction p as [|x p IH]; intros s; [reflexivity|].
  destruct s as [|y s]; cbn; [reflexivity|].
  destruct (Js.eq_ci x y); [apply IH | reflexivity].
Qed.

Lemma strip_prefix_ci_app (p q rest : string) :
  Spec.same_ci p q = true -> Spec.strip_prefix_ci p (q +:+ rest) = Some rest.
Proof.
  revert q. induction p as [|x p IH]; intros [|y q];
    cbn [Spec.same_ci]; try discriminate.
  - reflexivity.
  - intros H. apply andb_prop in H as [H1 H].
    change (String y q +:+ rest) with (String y (q +:+ rest)).
    cbn [Spec.strip_prefix_ci]. rewrite H1. now apply IH.
Qed.

Lemma strip_prefix_ci_inv (p s rest : string) :
  Spec.strip_prefix_ci p s = Some rest ->
  exists q, s = q +:+ rest /\ Spec.same_ci p q = true.
Proof.
  revert s. induction p as [|x p IH]; intros s; cbn.
  - intros [= ->]. now exists "".
  - destruct s as [|y s]; [discriminate|].
    destruct (Js.eq_ci x y) eqn:E; [|discriminate].
    intros H. destruct (IH _ H) as (q & -> & Hq).
    exists (String y q). split; [reflexivity|].
    cbn [Spec.same_ci]. now rewrite E, Hq.
Qed.

Lemma prefix_app (p rest : string) : String.prefix p (p +:+ rest) = true.
Proof.
  induction p as [|x p IH]; [now destruct rest|].
  change (String.prefix (String x p) (String x (p +:+ rest)) = true).
  cbn [String.prefix]. destruct (ascii_dec x x); [exact IH | congruence].
Qed.

Lemma same_ci_refl (p : string) : Spec.same_ci p p = true.
Proof.
  induction p as [|x p IH]; cbn; [reflexivity|].
  rewrite IH. unfold Js.eq_ci. now rewrite Ascii.eqb_refl.
Qed.

(** C10.  The only request [sendMessageWebex] issues is [createMessage]
    with the payload built from its target and text (and none without
    credentials); that payload carries the body in [markdown] and never
    in [text], and sets exactly one addressing field: [toPersonEmail],
    the target itself, when the target contains [@]; otherwise
    [toPersonId] when the target starts with the Base64
    person-id prefix or with [person:], which is stripped; otherwise
    [roomId], with a leading [room:] (in any letter case) stripped. *)
Theorem outbound_addressing (to text : string) (mediaUrl : option string)
    (env : Async.Request -> Async.Response) (envToken : option string)
    (cfg : option Config.WebexConfig) (store : gmap string Z) :
  let p := Send.messagePayload to text mediaUrl in
  Trace.requests
    (Async.run env (Send.sendMessageWebex envToken cfg to text mediaUrl) store).1.2
  = match Token.resolveWebexCredentials envToken cfg with
    | Some botToken => [Async.Call botToken (Async.CreateMessage p)]
    | None => []
    end
  /\ Async.mp_markdown p = Some text
  /\ Async.mp_text p = None
  /\ Spec.addressing_fields p = 1%nat
  /\ (if Js.includes to "@" then
        Async.mp_toPersonEmail p = Some to
      else if Js.startsWith to Send.person_id_prefix || Js.startsWith to "person:" then
        Async.mp_toPersonId p = Some (default to (Spec.strip_prefix_ci "person:" to))
      else
        Async.mp_roomId p = Some (default to (Spec.strip_prefix_ci "room:" to)))
  /\ (forall rest, to = "person:" +:+ rest -> Js.includes to "@" = false ->
        Async.mp_toPersonId p = Some rest)
  /\ (Js.includes to "@" = false -> Js.startsWith to Send.person_id_prefix = true ->
        Async.mp_toPersonId p = Some to)
  /\ (forall q rest, to = q +:+ rest -> Spec.same_ci "room:" q = true ->
        Js.includes to "@" = false ->
        Js.startsWith to Send.person_id_prefix || Js.startsWith to "person:" = false ->
        Async.mp_roomId p = Some rest).
Proof.
  split.
  { unfold Send.sendMessageWebex.
    destruct (Token.resolveWebexCredentials envToken cfg) as [botToken|];
      [|reflexivity].
    do 3 run_step. destruct (env _); reflexivity. }
  unfold Send.messagePayload, Spec.addressing_fields, Regex.replace_start.
  rewrite !match_literal.
  assert (Hperson : forall rest,
             Spec.strip_prefix_ci "person:" ("person:" +:+ rest) = Some rest).
  { intros rest. apply strip_prefix_ci_app, same_ci_refl. }
  assert (Hid : Js.startsWith to Send.person_id_prefix = true ->
                Spec.strip_prefix_ci "person:" to = None).
  { unfold Js.startsWith, Send.person_id_prefix.
    destruct to as [|c to']; [discriminate|]. cbn [String.prefix].
    destruct (ascii_dec "Y" c) as [<-|]; [reflexivity | discriminate]. }
  set (sp := Spec.strip_prefix_ci "person:" to) in *.
  set (sr := Spec.strip_prefix_ci "room:" to).
  destruct (Js.includes to "@") eqn:Hat.
  { repeat split; try reflexivity; intros; discriminate. }
  destruct (Js.startsWith to Send.person_id_prefix || Js.startsWith to "person:") eqn:Hp.
  - repeat split; try reflexivity; cbn [Async.mp_toPersonId].
    + intros rest E _. subst sp. rewrite E, Hperson. reflexivity.
    + intros _ H. now rewrite (Hid H).
    + intros; discriminate.
  - apply orb_false_elim in Hp as [Hp1 Hp2].
    repeat split; try reflexivity; cbn [Async.mp_toPersonId Async.mp_roomId].
    + intros rest E _. subst to. unfold Js.startsWith in Hp2.
      now rewrite prefix_app in Hp2.
    + intros _ H. congruence.
    + intros q rest E Hq _ _. subst sr. rewrite E.
      now rewrite (strip_prefix_ci_app _ _ _ Hq).
Qed.

(** ** The text handed to dispatch *)

Lemma atoms_of_plain (src : string) :
  Regex.plain src = true -> Regex.atoms_of src = Some (Regex.literal src).
Proof.
  induction src as [|c src IH]; [reflexivity|].
  cbn [Regex.plain]. intros H.
  apply andb_prop in H as [H Hs]. apply andb_prop in H as [Hdot Hsyn].
  apply negb_true_iff in Hdot, Hsyn.
  cbn [Regex.atoms_of]. unfold Regex.atom_of. rewrite Hdot, Hsyn, (IH Hs).
  reflexivity.
Qed.

Lemma trimStart_idempotent (s : string) : Js.trimStart (Js.trimStart s) = Js.trimStart s.
Proof.
  induction s as [|c s IH]; [reflexivity|].
  cbn [Js.trimStart]. destruct (Js.is_space c) eqn:E; [exact IH|].
  cbn [Js.trimStart]. now rewrite E.
Qed.

Lemma trim_trimStart (s : string) : Js.trim (Js.trimStart s) = Js.trim s.
Proof. unfold Js.trim. now rewrite trimStart_idempotent. Qed.

Lemma text_or_markdown (text markdown : option string) :
  Js.or_else (Js.or_opt text markdown) ""
  = match text with
    | Some (String c s) => String c s
    | _ => match markdown with
           | Some (String c s) => String c s
           | _ => ""
           end
    end.
Proof.
  destruct text as [[|c s]|], markdown as [[|c' s']|]; reflexivity.
Qed.

(** For a bot name free of pattern syntax, [stripWebexBotMention] removes
    a leading [@<botName>] up to case and trims; a text without that
    prefix is only trimmed. *)
Lemma strip_plain_name (beyond : string -> string -> option string)
    (text botName : string) :
  Regex.plain botName = true ->
  Inbound.stripWebexBotMention beyond text botName
  = Some (match Spec.strip_prefix_ci (String "@" botName) text with
          | Some rest => Js.trim rest
          | None => Js.trim text
          end).
Proof.
  intros Hplain. unfold Inbound.stripWebexBotMention, Regex.replace_start_ws.
  rewrite (atoms_of_plain _ Hplain).
  change (Regex.Chr "@" :: Regex.literal botName)
    with (Regex.literal (String "@" botName)).
  rewrite match_literal.
  destruct (Spec.strip_prefix_ci (String "@" botName) text);
    [now rewrite trim_trimStart | reflexivity].
Qed.

(** For a bot name free of pattern syntax, the text handed to dispatch on
    both ingestion paths is the one the claim describes. *)
Lemma dispatchText_plain_name (beyond : string -> string -> option string)
    (botName : string) (parsed : Inbound.ParsedWebexMessage) :
  Regex.plain botName = true ->
  Monitor.dispatchText beyond botName parsed
  = Async.Ret (Spec.dispatch_text botName (Inbound.p_text parsed)
                 (Inbound.p_markdown parsed) (Inbound.p_isBotMentioned parsed)).
Proof.
  intros Hplain. unfold Monitor.dispatchText, Spec.dispatch_text.
  rewrite text_or_markdown.
  destruct (Inbound.p_isBotMentioned parsed); [|reflexivity].
  now rewrite (strip_plain_name _ _ _ Hplain).
Qed.

(** C9.  The bot's display name is spliced into the pattern unescaped, so
    a name with a pattern character is not matched as the text it is.
    For the bot named [Jarvis 2.0] and the message [@Jarvis 250 units],
    which does not start with [@Jarvis 2.0], the claim passes the text
    through; the code reads the dot as a wildcard, removes [@Jarvis 250]
    and hands [units] to dispatch. *)
Theorem mention_pattern_not_escaped (beyond : string -> string -> option string) :
  Spec.strip_prefix_ci "@Jarvis 2.0" "@Jarvis 250 units" = None
  /\ Spec.dispatch_text "Jarvis 2.0" (Some "@Jarvis 250 units") None true
     = "@Jarvis 250 units"
  /\ Inbound.stripWebexBotMention beyond "@Jarvis 250 units" "Jarvis 2.0"
     = Some "units"
  /\ Monitor.dispatchText beyond "Jarvis 2.0" (Sample.mention "@Jarvis 250 units")
     = Async.Ret "units".
Proof. repeat split; vm_compute; reflexivity. Qed.

(** ** The webhook handler *)

Section Quiet.
Import Async.

Lemma responses_app (t1 t2 : list Event) :
  Trace.responses (t1 ++ t2) = Trace.responses t1 ++ Trace.responses t2.
Proof.
  induction t1 as [|e t1 IH]; [reflexivity|].
  destruct e; cbn [Trace.responses app]; now rewrite ?IH.
Qed.

Lemma quiet_ret {A : Type} (a : A) : Trace.quiet (Ret a).
Proof. intros env store. now exists [], (Returned a). Qed.

Lemma quiet_throw {A : Type} (err : string) : Trace.quiet (@Throw A err).
Proof. intros env store. now exists [], (Threw err). Qed.

Lemma quiet_log (l : Level) (m : string) : Trace.quiet (log l m).
Proof. intros env store. now exists [Log l m], (Returned tt). Qed.

Lemma quiet_await (req : Request) : Trace.quiet (await req).
Proof.
  intros env store. rewrite run_await. do 2 eexists. split; [reflexivity|].
  reflexivity.
Qed.

Lemma quiet_bind {A B : Type} (p : Proc A) (f : A -> Proc B) :
  Trace.quiet p -> (forall a, Trace.quiet (f a)) -> Trace.quiet (p ≫= f).
Proof.
  intros Hp Hf env store. rewrite run_bind.
  destruct (Hp env store) as (t1 & o1 & -> & Ht1).
  destruct o1 as [a|err].
  - destruct (Hf a env store) as (t2 & o2 & -> & Ht2).
    exists (t1 ++ t2), o2. split; [reflexivity|].
    now rewrite responses_app, Ht1, Ht2.
  - now exists t1, (Threw err).
Qed.

Lemma quiet_catch {A : Type} (p : Proc A) (h : string -> Proc A) :
  Trace.quiet p -> (forall err, Trace.quiet (h err)) -> Trace.quiet (catch p h).
Proof.
  intros Hp Hh env store. rewrite run_catch.
  destruct (Hp env store) as (t1 & o1 & -> & Ht1).
  destruct o1 as [a|err].
  - now exists t1, (Returned a).
  - destruct (Hh err env store) as (t2 & o2 & -> & Ht2).
    exists (t1 ++ t2), o2. split; [reflexivity|].
    now rewrite responses_app, Ht1, Ht2.
Qed.

Lemma quiet_dispatchText (beyond : string -> string -> option string)
    (botName : string) (parsed : Inbound.ParsedWebexMessage) :
  Trace.quiet (Monitor.dispatchText beyond botName parsed).
Proof.
  unfold Monitor.dispatchText.
  destruct (Inbound.p_isBotMentioned parsed); [|apply quiet_ret].
  destruct (Inbound.stripWebexBotMention _ _ _); [apply quiet_ret | apply quiet_throw].
Qed.

Lemma quiet_dispatchToAgent (parsed : Inbound.ParsedWebexMessage) (text : string) :
  Trace.quiet (Monitor.dispatchToAgent parsed text).
Proof.
  unfold Monitor.dispatchToAgent.
  apply quiet_bind; [apply quiet_await | intros _; apply quiet_ret].
Qed.

End Quiet.

(** C6.  For every body of a POST, every configuration and every
    behaviour of the remote API and of the dispatcher, the handler's first
    effect is the response [200 OK], before any request is issued or
    anything is logged; no other response follows, so nothing that
    happens afterwards changes it; the handler returns normally, every
    exception being caught; and an event whose resource is not
    ["messages"] or whose event is not ["created"] leaves nothing after
    the acknowledgment: no request, no dispatch, no log line. *)
Theorem webhook_ack_first
    (beyond : string -> string -> option string) (webexCfg : Config.WebexConfig)
    (token botId botEmail botName : string) (now : Z)
    (body : Monitor.RequestBody)
    (env : Async.Request -> Async.Response) (store : gmap string Z) :
  exists rest,
    Async.run env
      (Monitor.webhookHandler beyond webexCfg token botId botEmail botName now body)
      store
    = (store, Async.Respond 200 "OK" :: rest, Async.Returned tt)
    /\ Trace.responses rest = []
    /\ (forall resource event data,
          body = Monitor.BodyObject resource event data ->
          resource <> Some "messages" \/ event <> Some "created" ->
          rest = []).
Proof.
  unfold Monitor.webhookHandler.
  rewrite run_catch.
  change (Async.emit (Async.Respond 200 "OK") ;; ?q)
    with (Async.Emit (Async.Respond 200 "OK") q).
  cbn [Async.run].
  match goal with
  | |- context [Async.run env ?q store] =>
      assert (Hq : Trace.quiet q); [|destruct (Hq env store) as (t & o & Hrun & Ht)]
  end.
  { destruct body as [|resource event data]; [apply quiet_throw|].
    destruct (_ || _); [apply quiet_ret|].
    destruct data as [d|]; [|apply quiet_throw].
    destruct (Inbound.isWebexBotMessage _ _); [apply quiet_ret|].
    apply quiet_bind; [apply quiet_await|]. intros fullMessage.
    destruct (negb _); [apply quiet_log|].
    apply quiet_bind; [apply quiet_dispatchText|]. intros text.
    apply quiet_dispatchToAgent. }
  assert (Hfiltered : forall resource event data,
             body = Monitor.BodyObject resource event data ->
             resource <> Some "messages" \/ event <> Some "created" ->
             t = [] /\ o = Async.Returned tt).
  { intros resource event data -> Hne.
    assert (Hc : negb (bool_decide (resource = Some "messages"))
                 || negb (bool_decide (event = Some "created")) = true).
    { destruct Hne as [Hne|Hne]; rewrite (bool_decide_eq_false_2 _ Hne);
        [reflexivity | apply orb_true_r]. }
    rewrite Hc in Hrun. cbn in Hrun. now inversion Hrun. }
  rewrite Hrun. destruct o as [[]|err].
  - exists t. split; [reflexivity|]. split; [exact Ht|].
    intros resource event data Hb Hne. now destruct (Hfiltered _ _ _ Hb Hne).
  - cbn. exists (t ++ [Async.Log Async.Error ("webhook error: " +:+ err)]).
    split; [reflexivity|]. split.
    + rewrite responses_app, Ht. reflexivity.
    + intros resource event data Hb Hne.
      destruct (Hfiltered _ _ _ Hb Hne) as [_ Ho]. discriminate.
Qed.

(** ** The webhook subscription: startup and shutdown *)

Section Lifecycle.
Import Async.

Variable env : Request -> Response.

(** A subscription that matches is reused: nothing is created and its id
    becomes [webhookId]. *)
Lemma register_reuses_existing (token webhookUrl : string)
    (items : list Api.WebexWebhook) (existing : Api.WebexWebhook)
    (store : gmap string Z) :
  env (Call token ListWebhooks) = Webhooks items ->
  List.find (Monitor.matches webhookUrl) items = Some existing ->
  run env (Monitor.registerWebhook token webhookUrl) store
  = (store,
     [Requested (Call token ListWebhooks);
      Log Info ("using existing webhook: " +:+ Api.wh_id existing)],
     Returned (Some (Api.wh_id existing))).
Proof.
  intros Hlist Hfind. unfold Monitor.registerWebhook.
  rewrite run_catch, run_bind, run_await, Hlist.
  rewrite Hfind. reflexivity.
Qed.

(** Registration that fails, at the listing or at the creation, is caught
    where it happens: two warnings, no [webhookId], and no exception
    leaves [registerWebhook]. *)
Lemma register_failure_caught (token webhookUrl : string) (store : gmap string Z) :
  Spec.registration_fails env token webhookUrl ->
  exists t,
    run env (Monitor.registerWebhook token webhookUrl) store = (store, t, Returned None)
    /\ Trace.logged Error t = []
    /\ exists m, Trace.logged Warn t
         = ["webhook registration failed: " +:+ m;
            "you may need to manually configure webhook to " +:+ webhookUrl].
Proof.
  intros [(m & Hlist)|(items & m & Hlist & Hfind & Hcreate)];
    unfold Monitor.registerWebhook;
    rewrite run_catch, run_bind, run_await, Hlist.
  - eexists. split; [reflexivity|]. split; [reflexivity|]. now exists m.
  - rewrite Hfind.
    cbn [app]. rewrite run_bind, run_await, Hcreate.
    eexists. split; [reflexivity|]. split; [reflexivity|]. now exists m.
Qed.

(** Whatever id [webhookId] holds at shutdown is deleted, and a failed
    deletion is logged as a warning and does not stop the shutdown: the
    server is closed afterwards. *)
Lemma shutdown_tolerates_delete_failure (mode token wid m : string)
    (pollingInterval : bool) (store : gmap string Z) :
  Js.truthy wid = true ->
  env (Call token (DeleteWebhook wid)) = Rejected m ->
  env CloseServer = Done ->
  exists t,
    run env (Monitor.shutdown (Monitor.Started mode token (Some wid) true pollingInterval))
      store
    = (store, t, Returned tt)
    /\ Trace.requests t = [Call token (DeleteWebhook wid); CloseServer]
    /\ Trace.logged Warn t = ["failed to delete webhook: " +:+ m].
Proof.
  intros Hwid Hdel Hclose. unfold Monitor.shutdown. rewrite Hwid.
  destruct pollingInterval;
    repeat (first [run_step | rewrite Hdel | rewrite Hclose]; cbn [run app]);
    (eexists; split; [reflexivity|]; split; reflexivity).
Qed.

End Lifecycle.

(** C5, as the claim has it, fails in webhook-only mode: with the
    registration endpoint unreachable the monitor does not abort.  The
    failure is caught next to the registration, two warnings are logged
    and no error, and startup returns a started monitor whose server is
    up and whose [webhookId] is unset. *)
Lemma registration_failure_survived_in_webhook_mode :
  let '(_, trace, outcome) :=
    Async.run Sample.api_without_webhooks
      (Monitor.monitorWebexProvider None (Some (Sample.config "webhook"))) ∅ in
  outcome = Async.Returned (Monitor.Started "webhook" "test-token" None true false)
  /\ (forall mode, outcome <> Async.Returned (Monitor.Inert mode))
  /\ (forall err, outcome <> Async.Threw err)
  /\ Trace.logged Async.Error trace = []
  /\ Trace.logged Async.Warn trace
     = ["webhook registration failed: fetch failed";
        "you may need to manually configure webhook to https://bot.example.com/webex/webhook"].
Proof. vm_compute. repeat split; congruence. Qed.

(** C5, amended.  A webhook registration that fails at startup is not
    fatal in any mode that starts the webhook server, webhook-only mode
    as well as combined mode.  For a monitor that is enabled, has
    credentials, whose request for the bot's identity is not rejected and
    whose server starts: when the listing of the subscriptions is
    rejected, or nothing listed matches and the creation is rejected,
    the failure is caught next to the registration; two warnings are
    logged and no error; startup returns a started monitor in the
    configured mode, with the server up and no subscription id; and
    polling is started exactly in combined mode. *)
Theorem registration_failure_not_fatal
    (env : Async.Request -> Async.Response) (envToken : option string)
    (webexCfg : Config.WebexConfig) (botToken probeToken : string)
    (store : gmap string Z) :
  let cfg := Some webexCfg in
  let mode := Js.or_else (Config.mode webexCfg) "webhook" in
  let webhookPort := default 3979 (Config.webhook webexCfg ≫= Config.port) in
  let webhookUrl := Words.webhookUrl_of webexCfg in
  Config.enabled webexCfg = Some true ->
  Token.resolveWebexCredentials envToken cfg = Some botToken ->
  Probe.token envToken cfg = Some probeToken ->
  Js.truthy probeToken = true ->
  (forall m, env (Async.Call probeToken Async.GetMe) <> Async.Rejected m) ->
  mode = "webhook" \/ mode = "both" ->
  (forall m, env (Async.Listen webhookPort) <> Async.Rejected m) ->
  Spec.registration_fails env botToken webhookUrl ->
  exists t,
    Async.run env (Monitor.monitorWebexProvider envToken cfg) store
    = (store, t,
       Async.Returned (Monitor.Started mode botToken None true (String.eqb mode "both")))
    /\ Trace.logged Async.Error t = []
    /\ (exists m, Trace.logged Async.Warn t
          = ["webhook registration failed: " +:+ m;
             "you may need to manually configure webhook to " +:+ webhookUrl])
    /\ (mode = "both" <-> exists ms, In (Async.IntervalSet ms) t).
Proof.
  intros cfg mode webhookPort webhookUrl Hen Hcred Hptok Htruthy Hme Hmode Hlisten Hfail.
  assert (Hreg : exists m,
            Async.run env (Monitor.registerWebhook botToken webhookUrl) store
            = (store,
               Async.Requested (Async.Call botToken Async.ListWebhooks)
               :: match env (Async.Call botToken Async.ListWebhooks) with
                  | Async.Rejected _ => []
                  | _ => [Async.Requested
                            (Async.Call botToken
                               (Async.CreateWebhook "Moltbot Webex Webhook" webhookUrl
                                  "messages" "created"))]
                  end
               ++ [Async.Log Async.Warn ("webhook registration failed: " +:+ m);
                   Async.Log Async.Warn
                     ("you may need to manually configure webhook to " +:+ webhookUrl)],
               Async.Returned None)).
  { destruct Hfail as [(m & Hlist)|(items & m & Hlist & Hfind & Hcreate)];
      exists m; unfold Monitor.registerWebhook;
      rewrite run_catch, run_bind, run_await, Hlist; [reflexivity|].
    rewrite Hfind. cbn [app]. now rewrite run_bind, run_await, Hcreate. }
  destruct Hreg as (m & Hreg).
  assert (Hstart :
            Async.run env (Monitor.startWebhook mode botToken webhookPort webhookUrl) store
            = (store,
               Async.Requested (Async.Listen webhookPort)
               :: (Async.run env (Monitor.registerWebhook botToken webhookUrl) store).1.2,
               Async.Returned (Some (true, None)))).
  { unfold Monitor.startWebhook. do 3 run_step.
    destruct (env (Async.Listen webhookPort)) eqn:E;
      try (now contradiction (Hlisten message));
      run_step; rewrite Hreg, app_nil_r; reflexivity. }
  rewrite Hreg in Hstart. cbn [fst snd] in Hstart.
  unfold Monitor.monitorWebexProvider. subst cfg. cbv beta iota zeta.
  rewrite Hen, Hcred. cbn [default negb id].
  rewrite run_bind.
  unfold Probe.probeWebex. rewrite run_catch, Hptok, Htruthy, run_bind, run_await.
  fold mode webhookPort.
  change (Js.or_else (Config.webhook webexCfg ≫= Config.url) _) with webhookUrl.
  assert (Hmodes : (String.eqb mode "webhook" || String.eqb mode "both" = true)
                   /\ String.eqb mode "polling" || String.eqb mode "both"
                      = String.eqb mode "both").
  { destruct Hmode as [->| ->]; split; reflexivity. }
  destruct Hmodes as [Henable Hpoll]. rewrite Henable, Hpoll.
  clear Hpoll Henable Hmode.
  destruct (env (Async.Call probeToken Async.GetMe)) eqn:E;
    try (now contradiction (Hme message));
    cbn [Async.run mret Async.Proc_ret app Probe.ok Probe.botInfo];
    rewrite run_log, run_bind, Hstart;
    (destruct (String.eqb mode "both") eqn:Hboth;
     [apply String.eqb_eq in Hboth | apply String.eqb_neq in Hboth];
     cbn [Async.run Async.log Async.emit mret Async.Proc_ret app];
     eexists; (split; [reflexivity|]);
     (split; [now destruct (env (Async.Call botToken Async.ListWebhooks))|]);
     (split; [exists m; now destruct (env (Async.Call botToken Async.ListWebhooks))|]);
     (split;
      [first [intros Hb; now contradiction Hboth
             | intros _; eexists; do 3 right;
               destruct (env (Async.Call botToken Async.ListWebhooks));
               cbn [app]; repeat (first [left; reflexivity | right])]
      |first [intros _; exact Hboth
             | intros (ms & Hin);
               destruct (env (Async.Call botToken Async.ListWebhooks));
               cbn [app] in Hin;
               repeat (destruct Hin as [Hin|Hin]; [discriminate Hin|]);
               destruct Hin]])).
Qed.

(** The same in combined mode, on the sample configuration: the
    registration fails, the server stays up and polling starts. *)
Example registration_failure_in_combined_mode :
  let '(_, trace, outcome) :=
    Async.run Sample.api_without_webhooks
      (Monitor.monitorWebexProvider None (Some (Sample.config "both"))) ∅ in
  outcome = Async.Returned (Monitor.Started "both" "test-token" None true true)
  /\ Trace.logged Async.Error trace = []
  /\ Trace.logged Async.Warn trace
     = ["webhook registration failed: fetch failed";
        "you may need to manually configure webhook to https://bot.example.com/webex/webhook"].
Proof. vm_compute. repeat split; reflexivity. Qed.

(** C5, amended, on the sample configuration in webhook-only mode. *)
Lemma registration_failure_not_fatal_witness :
  exists t,
    Async.run Sample.api_without_webhooks
      (Monitor.monitorWebexProvider None (Some (Sample.config "webhook"))) ∅
    = (∅, t,
       Async.Returned (Monitor.Started "webhook" "test-token" None true false))
    /\ Trace.logged Async.Error t = []
    /\ (exists m, Trace.logged Async.Warn t
          = ["webhook registration failed: " +:+ m;
             "you may need to manually configure webhook to "
             +:+ "https://bot.example.com/webex/webhook"])
    /\ ("webhook" = "both" <-> exists ms, In (Async.IntervalSet ms) t).
Proof.
  apply (registration_failure_not_fatal Sample.api_without_webhooks None
           (Sample.config "webhook") "test-token" "test-token" ∅).
  - reflexivity.
  - reflexivity.
  - reflexivity.
  - reflexivity.
  - intros m. discriminate.
  - left. reflexivity.
  - intros m. discriminate.
  - left. exists "fetch failed". reflexivity.
Defined.

(** C4.  The monitor starts in webhook mode against a remote API on which
    a subscription for its URL already exists, reuses it without creating
    one, and is shut down: the shutdown deletes the subscription it did
    not create.  ([webhookId] holds the reused id just as it would hold a
    created one, and [shutdown] tests only that it is set.) *)
Theorem shutdown_deletes_reused_webhook :
  let '(_, trace, outcome) :=
    Async.run Sample.api_with_webhook
      (Monitor.monitorWebexProvider None (Some (Sample.config "webhook"))
         ≫= Monitor.shutdown) ∅ in
  outcome = Async.Returned tt
  /\ Trace.requests trace
     = [Async.Call "test-token" Async.GetMe;
        Async.Listen 3979;
        Async.Call "test-token" Async.ListWebhooks;
        Async.Call "test-token" (Async.DeleteWebhook (Api.wh_id Sample.earlier_webhook));
        Async.CloseServer]
  /\ Trace.logged Async.Info trace
     = ["webex bot authenticated: Test Bot";
        "using existing webhook: webhook-from-earlier-run";
        "shutting down webex monitor";
        "deleted webhook: webhook-from-earlier-run";
        "webhook server stopped"].
Proof. vm_compute. repeat split; reflexivity. Qed.

(** ** The polling loop: one room, one tick *)

(** C3, as the claim has it, fails when a dispatch is rejected.  The
    room lists three messages at times 1, 2 and 3, none of them a
    duplicate for the watermark 0, and the dispatcher rejects: the
    oldest message is handed to the dispatcher, the rejection ends the
    visit in the room's handler, and nothing is written, neither for the
    message dispatched nor for the two after it, so the room's entry
    is not advanced. *)
Lemma rejected_dispatch_leaves_watermark :
  let lastTime := Monitor.lastTimeOr 0 ((∅ : gmap string Z) !! "room-123") in
  let '(store', trace, outcome) :=
    Async.run (Outage.dispatcher_down Sample.three_messages)
      (Monitor.pollRoom Sample.no_regexp (Sample.config "polling") "test-token"
         "bot-id-123" "testbot@webex.bot" "Test Bot" 0 "room-123") ∅ in
  List.filter (fun m => negb (Spec.duplicate lastTime m)) (rev Sample.three_messages)
  = rev Sample.three_messages
  /\ outcome = Async.Returned tt
  /\ map Async.MessageSid (Trace.dispatches trace) = ["msg-1"]
  /\ Trace.stores trace = []
  /\ store' !! "room-123" = None
  /\ Trace.logged Async.Warn trace
     = ["error polling room room-123: agent unavailable"].
Proof. vm_compute. repeat split; reflexivity. Qed.

(** The same happens when the pattern built from the bot's name does not
    compile: for a bot named [C++ Helper] a group message that mentions
    it ends the visit before any dispatch, and neither it nor the direct
    message after it is written for. *)
Example pattern_failure_leaves_watermark :
  let '(store', trace, outcome) :=
    Async.run
      (Sample.room_api [Sample.direct_message "msg-2" 2; Sample.group_mention "msg-1" 1])
      (Monitor.pollRoom Sample.nothing_to_repeat (Sample.config "polling") "test-token"
         "bot-id-123" "testbot@webex.bot" "C++ Helper" 0 "room-123") ∅ in
  outcome = Async.Returned tt
  /\ Trace.dispatches trace = []
  /\ Trace.stores trace = []
  /\ store' !! "room-123" = None.
Proof. vm_compute. repeat split; reflexivity. Qed.

Section PollRoom.
Import Async.

Variable beyond : string -> string -> option string.
Variable webexCfg : Config.WebexConfig.
Variables (token botId botEmail botName : string) (pollStartTime : Z).
Variable env : Request -> Response.

Hypothesis dispatch_completes : forall ctx m, env (Dispatch ctx) <> Rejected m.
Hypothesis pattern_compiles :
  forall text, Inbound.stripWebexBotMention beyond text botName <> None.

Lemma run_dispatchText (parsed : Inbound.ParsedWebexMessage) (store : gmap string Z) :
  exists text,
    run env (Monitor.dispatchText beyond botName parsed) store = (store, [], Returned text).
Proof.
  unfold Monitor.dispatchText.
  destruct (Inbound.p_isBotMentioned parsed); [|now eexists].
  destruct (Inbound.stripWebexBotMention _ _ _) as [stripped|] eqn:E; [now eexists|].
  now apply pattern_compiles in E.
Qed.

Lemma run_dispatchToAgent (parsed : Inbound.ParsedWebexMessage) (text : string)
    (store : gmap string Z) :
  run env (Monitor.dispatchToAgent parsed text) store
  = (store, [Requested (Dispatch (Monitor.inboundContext parsed text))], Returned tt).
Proof.
  unfold Monitor.dispatchToAgent. do 2 run_step.
  destruct (env (Dispatch _)) eqn:E; try reflexivity.
  now apply dispatch_completes in E.
Qed.

Lemma run_pollMessage (room : string) (lastTime : Z) (m : Api.WebexMessage)
    (store : gmap string Z) :
  exists t,
    run env (Monitor.pollMessage beyond webexCfg botId botEmail botName pollStartTime
               room lastTime m) store
    = ((if Spec.duplicate lastTime m then store
        else <[room := Z.max lastTime (Api.created m)]> store),
       t, Returned tt)
    /\ Trace.stores t
       = (if Spec.duplicate lastTime m then []
          else [(room, Z.max lastTime (Api.created m))])
    /\ map MessageSid (Trace.dispatches t)
       = (if Spec.dispatched webexCfg botId botEmail lastTime m then [Api.id m] else []).
Proof.
  unfold Monitor.pollMessage, Spec.dispatched, Spec.duplicate, Spec.own, Spec.gated_out.
  change (Inbound.parseWebexWebhookEvent (Monitor.eventOfMessage m)
            (Some (Inbound.detail_of m)) botId pollStartTime)
    with (Inbound.parseWebexWebhookEvent (Monitor.eventOfMessage m)
            (Some (Inbound.detail_of m)) botId (Api.created m)).
  destruct (Api.created m <=? lastTime).
  { eexists. split; [reflexivity|]. split; reflexivity. }
  destruct (String.eqb (Api.personEmail m) botEmail).
  { eexists. split; [reflexivity|]. split; reflexivity. }
  set (parsed := Inbound.parseWebexWebhookEvent _ _ _ _).
  destruct (negb (Inbound.shouldProcessWebexMessage parsed _)).
  { eexists. split; [reflexivity|]. split; reflexivity. }
  cbn [negb andb].
  destruct (run_dispatchText parsed store) as (text & Htext).
  do 2 run_step. rewrite Htext. do 2 run_step.
  rewrite run_dispatchToAgent.
  eexists. split; [reflexivity|]. split; reflexivity.
Qed.

Lemma stores_app (t1 t2 : list Event) :
  Trace.stores (t1 ++ t2) = Trace.stores t1 ++ Trace.stores t2.
Proof.
  induction t1 as [|e t1 IH]; [reflexivity|].
  destruct e; cbn [Trace.stores app]; now rewrite ?IH.
Qed.

Lemma dispatches_app (t1 t2 : list Event) :
  Trace.dispatches (t1 ++ t2) = Trace.dispatches t1 ++ Trace.dispatches t2.
Proof.
  induction t1 as [|e t1 IH]; [reflexivity|].
  destruct e as [| |[]| | | |]; cbn [Trace.dispatches app]; now rewrite ?IH.
Qed.

Lemma run_pollMessages_loop (room : string) (lastTime : Z)
    (msgs : list Api.WebexMessage) (store : gmap string Z) :
  exists t,
    run env (forEach msgs
               (Monitor.pollMessage beyond webexCfg botId botEmail botName pollStartTime
                  room lastTime)) store
    = (foldl (Spec.advance room lastTime) store
         (List.filter (fun m => negb (Spec.duplicate lastTime m)) msgs),
       t, Returned tt)
    /\ Trace.stores t
       = map (fun m => (room, Z.max lastTime (Api.created m)))
           (List.filter (fun m => negb (Spec.duplicate lastTime m)) msgs)
    /\ map MessageSid (Trace.dispatches t)
       = map Api.id (List.filter (Spec.dispatched webexCfg botId botEmail lastTime) msgs).
Proof.
  revert store. induction msgs as [|m msgs IH]; intros store.
  - exists []. repeat split; reflexivity.
  - cbn [forEach]. rewrite run_bind.
    destruct (run_pollMessage room lastTime m store) as (t1 & -> & Hs1 & Hd1).
    destruct (IH (if Spec.duplicate lastTime m then store
                  else <[room := Z.max lastTime (Api.created m)]> store))
      as (t2 & -> & Hs2 & Hd2).
    exists (t1 ++ t2). cbn [List.filter].
    rewrite stores_app, dispatches_app, map_app, Hs1, Hs2, Hd1, Hd2.
    destruct (Spec.duplicate lastTime m), (Spec.dispatched _ _ _ _ m);
      repeat split; reflexivity.
Qed.


Lemma StronglySorted_rev_flip {A : Type} (R : A -> A -> Prop) (l : list A) :
  StronglySorted R l -> StronglySorted (fun a b => R b a) (rev l).
Proof.
  induction 1 as [|a l Hl IH Ha]; [constructor|].
  cbn [rev]. apply StronglySorted_app_2; [|exact IH|repeat constructor].
  intros x1 x2 Hx1 Hx2. apply list_elem_of_singleton in Hx2 as ->.
  rewrite Forall_forall in Ha. apply Ha.
  apply list_elem_of_In. apply in_rev. now apply list_elem_of_In.
Qed.

Lemma StronglySorted_filter {A : Type} (R : A -> A -> Prop) (f : A -> bool) (l : list A) :
  StronglySorted R l -> StronglySorted R (List.filter f l).
Proof.
  induction 1 as [|a l Hl IH Ha]; [constructor|].
  cbn [List.filter]. destruct (f a); [|exact IH].
  constructor; [exact IH|].
  rewrite Forall_forall in *. intros x Hx. apply Ha.
  apply list_elem_of_In in Hx. apply List.filter_In in Hx as [Hx _].
  now apply list_elem_of_In.
Qed.

Lemma filter_none {A : Type} (f : A -> bool) (l : list A) :
  (forall x, In x l -> f x = false) -> List.filter f l = [].
Proof.
  induction l as [|a l IH]; [reflexivity|]. intros H. cbn [List.filter].
  rewrite (H a (or_introl eq_refl)). apply IH. intros x Hx. apply H. now right.
Qed.

Lemma writes_rise (lastTime : Z) (msgs : list Api.WebexMessage) :
  Spec.oldest_first msgs ->
  StronglySorted Z.le (map (fun m => Z.max lastTime (Api.created m)) msgs).
Proof.
  induction 1 as [|a l Hl IH Ha]; [constructor|].
  cbn [map]. constructor; [exact IH|].
  apply Forall_forall. intros x Hx.
  apply list_elem_of_In, in_map_iff in Hx as (m & <- & Hm).
  apply list_elem_of_In in Hm.
  pose proof (proj1 (Forall_forall _ _) Ha m Hm) as Hle. cbn beta in Hle. lia.
Qed.

Lemma watermark_covers_listing (room : string) (items : list Api.WebexMessage)
    (store : gmap string Z) :
  let lastTime := Monitor.lastTimeOr pollStartTime (store !! room) in
  0 <= lastTime ->
  Spec.newest_first items ->
  forall m, In m items ->
    Api.created m
    <= Monitor.lastTimeOr pollStartTime
         (foldl (Spec.advance room lastTime) store
            (List.filter (fun m => negb (Spec.duplicate lastTime m)) (rev items))
          !! room).
Proof.
  intros lastTime Hpos Hsorted m Hm.
  destruct items as [|m0 rest]; [destruct Hm|].
  apply StronglySorted_inv in Hsorted as [_ Hrest]. rewrite Forall_forall in Hrest.
  assert (Hle : forall x, In x (m0 :: rest) -> Api.created x <= Api.created m0).
  { intros x [<-|Hx]; [lia|]. apply Hrest. now apply list_elem_of_In. }
  cbn [rev]. rewrite List.filter_app, foldl_app. cbn [List.filter].
  unfold Spec.duplicate at 2. destruct (Z.leb_spec (Api.created m0) lastTime) as [Hdup|Hfresh].
  - cbn [negb foldl]. rewrite filter_none.
    + cbn [foldl]. fold lastTime. specialize (Hle m Hm). lia.
    + intros x Hx. apply in_rev in Hx. unfold Spec.duplicate.
      apply negb_false_iff, Z.leb_le. specialize (Hle x (or_intror Hx)). lia.
  - cbn [negb foldl]. unfold Spec.advance at 1. rewrite lookup_insert_eq.
    unfold Monitor.lastTimeOr at 1.
    destruct (Z.eqb_spec (Z.max lastTime (Api.created m0)) 0) as [E|_]; [lia|].
    specialize (Hle m Hm). lia.
Qed.

(** C3, amended.  One visit of a room by a polling tick, with
    [lastTime] read for the room and [items] listed for it, where every
    dispatch completes and the pattern built from the bot's name
    compiles: the messages are handled in the reverse of the listed order, which is
    oldest first for a listing that is newest first, as the remote API
    gives it, and so are the dispatched ones; a message with
    [created <= lastTime] causes neither a dispatch nor a write; every
    other message, whether it is dispatched, rejected by the gate or the
    bot's own, is followed by exactly one write of
    [max lastTime created] to the room's entry, and for a newest-first
    listing these writes never go down; and after the visit the entry is
    at or above every listed message, so none of them is considered again
    by a later tick. *)
Theorem poll_room_in_order (room : string) (items : list Api.WebexMessage)
    (store : gmap string Z) :
  env (Call token (ListMessages room 20)) = Messages (Some items) ->
  let lastTime := Monitor.lastTimeOr pollStartTime (store !! room) in
  let processed := rev items in
  let fresh := List.filter (fun m => negb (Spec.duplicate lastTime m)) processed in
  exists store' t,
    run env (Monitor.pollRoom beyond webexCfg token botId botEmail botName pollStartTime room)
      store
    = (store', t, Returned tt)
    /\ Trace.stores t = map (fun m => (room, Z.max lastTime (Api.created m))) fresh
    /\ map MessageSid (Trace.dispatches t)
       = map Api.id (List.filter (Spec.dispatched webexCfg botId botEmail lastTime) processed)
    /\ store' = foldl (Spec.advance room lastTime) store fresh
    /\ (Spec.newest_first items ->
        Spec.oldest_first processed
        /\ Spec.oldest_first
             (List.filter (Spec.dispatched webexCfg botId botEmail lastTime) processed)
        /\ StronglySorted Z.le (map snd (Trace.stores t)))
    /\ (0 <= lastTime -> Spec.newest_first items ->
        forall m, In m items ->
          Api.created m <= Monitor.lastTimeOr pollStartTime (store' !! room)).
Proof.
  intros Hlist lastTime processed fresh.
  destruct (run_pollMessages_loop room lastTime processed store) as (t & Hrun & Hs & Hd).
  unfold Monitor.pollRoom. do 2 run_step. fold lastTime.
  do 2 run_step. rewrite Hlist. do 1 run_step.
  change (rev (default [] (Some items))) with processed. rewrite Hrun.
  do 2 eexists. split; [reflexivity|].
  cbn [Trace.stores Trace.dispatches].
  split; [exact Hs|]. split; [exact Hd|]. split; [reflexivity|]. split.
  - intros Hsorted. assert (Hold : Spec.oldest_first processed).
    { apply (StronglySorted_rev_flip _ _ Hsorted). }
    split; [exact Hold|]. split; [now apply StronglySorted_filter|].
    rewrite Hs, map_map. cbn [snd]. apply writes_rise.
    now apply StronglySorted_filter.
  - intros Hpos Hsorted. now apply watermark_covers_listing.
Qed.

End PollRoom.

(** C3 on the specification's scenario: a room with three messages at
    times 1, 2 and 3 and a watermark of 0. *)
Lemma poll_room_in_order_witness :
  exists store' t,
    Async.run (Sample.room_api Sample.three_messages)
      (Monitor.pollRoom Sample.no_regexp (Sample.config "polling") "test-token"
         "bot-id-123" "testbot@webex.bot" "Test Bot" 0 "room-123") ∅
    = (store', t, Async.Returned tt)
    /\ Trace.stores t = [("room-123", 1); ("room-123", 2); ("room-123", 3)]
    /\ map Async.MessageSid (Trace.dispatches t) = ["msg-1"; "msg-2"; "msg-3"]
    /\ store' !! "room-123" = Some 3.
Proof.
  destruct (poll_room_in_order Sample.no_regexp (Sample.config "polling")
              "test-token" "bot-id-123" "testbot@webex.bot" "Test Bot" 0
              (Sample.room_api Sample.three_messages)
              ltac:(intros ctx m; discriminate)
              ltac:(intros text; discriminate)
              "room-123" Sample.three_messages ∅ eq_refl)
    as (store' & t & Hrun & Hs & Hd & Hstore & _).
  exists store', t.
  split; [exact Hrun|]. split; [exact Hs|]. split; [exact Hd|].
  rewrite Hstore. reflexivity.
Defined.

(** ** The polling loop: ticks in turn *)

Section Keeps.
Import Async.

Variable I : gmap string Z -> Prop.

Lemma keeps_ret {A : Type} (a : A) : Trace.keeps I (Ret a).
Proof. intros env store H. exact H. Qed.

Lemma keeps_throw {A : Type} (err : string) : Trace.keeps I (@Throw A err).
Proof. intros env store H. exact H. Qed.

Lemma keeps_log (l : Level) (m : string) : Trace.keeps I (log l m).
Proof. intros env store H. exact H. Qed.

Lemma keeps_await (req : Request) : Trace.keeps I (await req).
Proof. intros env store H. rewrite run_await. exact H. Qed.

Lemma keeps_bind {A B : Type} (p : Proc A) (f : A -> Proc B) :
  Trace.keeps I p -> (forall a, Trace.keeps I (f a)) -> Trace.keeps I (p ≫= f).
Proof.
  intros Hp Hf env store H. rewrite run_bind.
  specialize (Hp env store H).
  destruct (run env p store) as [[s1 t1] [a|err]]; cbn [fst] in *; [|exact Hp].
  specialize (Hf a env s1 Hp).
  destruct (run env (f a) s1) as [[s2 t2] o2]. exact Hf.
Qed.

Lemma keeps_catch {A : Type} (p : Proc A) (h : string -> Proc A) :
  Trace.keeps I p -> (forall err, Trace.keeps I (h err)) -> Trace.keeps I (catch p h).
Proof.
  intros Hp Hh env store H. rewrite run_catch.
  specialize (Hp env store H).
  destruct (run env p store) as [[s1 t1] [a|err]]; cbn [fst] in *; [exact Hp|].
  specialize (Hh err env s1 Hp).
  destruct (run env (h err) s1) as [[s2 t2] o2]. exact Hh.
Qed.

Lemma keeps_forEach {A : Type} (xs : list A) (body : A -> Proc unit) :
  (forall x, Trace.keeps I (body x)) -> Trace.keeps I (forEach xs body).
Proof.
  intros Hbody. induction xs as [|x xs IH]; [apply keeps_ret|].
  cbn [forEach]. apply keeps_bind; [apply Hbody | intros _; exact IH].
Qed.

Lemma keeps_mapSet (room : string) (time : Z) :
  (forall store, I store -> I (<[room := time]> store)) ->
  Trace.keeps I (mapSet room time).
Proof. intros Hset env store H. cbn. now apply Hset. Qed.

End Keeps.

Section LoneTick.
Import Async.

Variable beyond : string -> string -> option string.
Variable webexCfg : Config.WebexConfig.
Variables (token botId botEmail botName : string) (pollStartTime : Z).
Hypothesis start_after_epoch : 0 <= pollStartTime.

Lemma watermark_nonneg (store : gmap string Z) (room : string) :
  Spec.positive_times store -> 0 <= Spec.watermark pollStartTime store room.
Proof.
  intros Hpos. unfold Spec.watermark, Monitor.lastTimeOr.
  destruct (store !! room) as [t|] eqn:E; [|exact start_after_epoch].
  specialize (Hpos _ _ E). destruct (t =? 0); lia.
Qed.

Lemma pollMessage_keeps (room : string) (lastTime : Z) (store0 : gmap string Z)
    (m : Api.WebexMessage) :
  0 <= lastTime ->
  Trace.keeps (Spec.during_visit pollStartTime room lastTime store0)
    (Monitor.pollMessage beyond webexCfg botId botEmail botName pollStartTime
       room lastTime m).
Proof.
  intros Hlast. unfold Monitor.pollMessage.
  assert (Hset : (Api.created m <=? lastTime) = false ->
                 Trace.keeps (Spec.during_visit pollStartTime room lastTime store0)
                   (mapSet room (Z.max lastTime (Api.created m)))).
  { intros Hfresh. apply Z.leb_gt in Hfresh. apply keeps_mapSet.
    intros store (Hpos & Hle & Hother). split; [|split].
    - intros r t. destruct (decide (r = room)) as [->|Hne].
      + rewrite lookup_insert_eq. intros [= <-]. lia.
      + rewrite lookup_insert_ne by congruence. apply Hpos.
    - unfold Spec.watermark, Monitor.lastTimeOr. rewrite lookup_insert_eq.
      destruct (Z.eqb_spec (Z.max lastTime (Api.created m)) 0); lia.
    - intros r Hne. rewrite lookup_insert_ne by congruence. now apply Hother. }
  destruct (Api.created m <=? lastTime) eqn:Hfresh; [apply keeps_log|].
  destruct (String.eqb _ _).
  { apply keeps_bind; [apply keeps_log | intros _; now apply Hset]. }
  apply keeps_bind; [apply keeps_log | intros _].
  destruct (negb _).
  { apply keeps_bind; [apply keeps_log | intros _; now apply Hset]. }
  apply keeps_bind.
  { unfold Monitor.dispatchText. destruct (Inbound.p_isBotMentioned _); [|apply keeps_ret].
    destruct (Inbound.stripWebexBotMention _ _ _); [apply keeps_ret | apply keeps_throw]. }
  intros text. apply keeps_bind; [apply keeps_log | intros _].
  apply keeps_bind; [|intros _; now apply Hset].
  unfold Monitor.dispatchToAgent.
  apply keeps_bind; [apply keeps_await | intros _; apply keeps_ret].
Qed.

Lemma pollRoom_keeps (store0 : gmap string Z) (room : string) :
  Trace.keeps (Spec.during_tick pollStartTime store0)
    (Monitor.pollRoom beyond webexCfg token botId botEmail botName pollStartTime room).
Proof.
  intros env store (Hpos & Hmono).
  set (lastTime := Spec.watermark pollStartTime store room).
  assert (Hvisit : Spec.during_visit pollStartTime room lastTime store
                     (run env (Monitor.pollRoom beyond webexCfg token botId botEmail
                                 botName pollStartTime room) store).1.1).
  { unfold Monitor.pollRoom.
    change (mapGet room ≫= ?f) with (MapGet room f).
    cbn [catch run]. fold lastTime.
    apply keeps_catch.
    - apply keeps_bind; [apply keeps_await | intros messages].
      destruct messages;
        (apply keeps_bind; [apply keeps_log | intros _];
         apply keeps_forEach; intros ?; apply pollMessage_keeps;
         now apply watermark_nonneg).
    - intros err. apply keeps_log.
    - split; [exact Hpos|]. split; [unfold lastTime; lia | reflexivity]. }
  destruct Hvisit as (Hpos' & Hle & Hother).
  split; [exact Hpos'|]. intros r. specialize (Hmono r).
  destruct (decide (r = room)) as [->|Hne].
  - fold lastTime in Hmono. lia.
  - unfold Spec.watermark at 2. rewrite (Hother r Hne). exact Hmono.
Qed.

Lemma pollMessages_keeps (store0 : gmap string Z) :
  Trace.keeps (Spec.during_tick pollStartTime store0)
    (Monitor.pollMessages beyond webexCfg token botId botEmail botName pollStartTime).
Proof.
  unfold Monitor.pollMessages. apply keeps_catch; [|intros err; apply keeps_log].
  apply keeps_bind; [apply keeps_await | intros rooms].
  destruct rooms; try apply keeps_throw.
  apply keeps_bind; [apply keeps_log | intros _].
  apply keeps_forEach. intros room. apply pollRoom_keeps.
Qed.

(** A tick that runs alone never lowers a watermark, whatever the remote
    API and the dispatcher answer. *)
Lemma lone_tick_never_lowers (env : Request -> Response) (store : gmap string Z) :
  Spec.positive_times store ->
  let store' :=
    (run env (Monitor.pollMessages beyond webexCfg token botId botEmail botName
                pollStartTime) store).1.1 in
  Spec.positive_times store'
  /\ forall room,
       Spec.watermark pollStartTime store room <= Spec.watermark pollStartTime store' room.
Proof.
  intros Hpos. apply (pollMessages_keeps store env store).
  split; [exact Hpos | intros r; lia].
Qed.

(** Ticks that run one after the other never lower a watermark. *)
Lemma ticks_in_turn_never_lower (envs : list (Request -> Response))
    (store : gmap string Z) :
  Spec.positive_times store ->
  let store' :=
    Spec.ticks_in_turn
      (Monitor.pollMessages beyond webexCfg token botId botEmail botName pollStartTime)
      envs store in
  Spec.positive_times store'
  /\ forall room,
       Spec.watermark pollStartTime store room <= Spec.watermark pollStartTime store' room.
Proof.
  revert store. induction envs as [|env envs IH]; intros store Hpos.
  - split; [exact Hpos | intros room; apply Z.le_refl].
  - cbn [Spec.ticks_in_turn].
    destruct (lone_tick_never_lowers env store Hpos) as [Hpos1 Hle1].
    destruct (IH _ Hpos1) as [Hpos2 Hle2].
    split; [exact Hpos2|]. intros room.
    exact (Z.le_trans _ _ _ (Hle1 room) (Hle2 room)).
Qed.

End LoneTick.

(** ** The polling loop: overlapping ticks *)

(** C2.  Two overlapping ticks on one room, as in [Sample.overlapping_ticks]:
    both read the room's entry before either has written it; the writes
    are 105 and 110 by the second tick and then 105 by the first, each
    the maximum of the value its tick read at its start and the
    message's time, not of the entry's current value.  After both ticks
    have completed the entry is 105, below the 110 that the second tick
    saw and that the entry held before the last write.  (The message of
    time 105 is also dispatched twice.) *)
Theorem overlapping_ticks_lower_watermark :
  exists final trace,
    Async.schedule Sample.overlapping_ticks Sample.idle = Some (final, trace)
    /\ Async.tasks final = [Async.Ret tt; Async.Ret tt]
    /\ Trace.stores trace
       = [("room-123", 105); ("room-123", 110); ("room-123", 105)]
    /\ Async.shared final !! "room-123" = Some 105
    /\ map Async.MessageSid (Trace.dispatches trace) = ["msg-105"; "msg-105"; "msg-110"].
Proof.
  destruct (Async.schedule Sample.overlapping_ticks Sample.idle)
    as [[final trace]|] eqn:E; [|vm_compute in E; discriminate].
  exists final, trace. split; [reflexivity|].
  vm_compute in E. injection E as <- <-.
  repeat split; vm_compute; reflexivity.
Qed.

(** * Further properties of the extension *)

(** ** Credentials, probe and send *)

Lemma trimEnd_empty_or_clean (s : string) : Words.ends_clean (Js.trimEnd s) = true.
Proof.
  induction s as [|c s IH]; [reflexivity|].
  cbn [Js.trimEnd]. destruct (Js.trimEnd s) as [|d t] eqn:E.
  - destruct (Js.is_space c) eqn:Hc; cbn; [reflexivity | now rewrite Hc].
  - exact IH.
Qed.

Lemma trimEnd_head (c : ascii) (s : string) :
  Js.is_space c = false -> exists t, Js.trimEnd (String c s) = String c t.
Proof.
  intros Hc. cbn [Js.trimEnd]. destruct (Js.trimEnd s) as [|d t].
  - rewrite Hc. now exists "".
  - now exists (String d t).
Qed.

Lemma trimStart_head (s : string) :
  match Js.trimStart s with
  | EmptyString => True
  | String c _ => Js.is_space c = false
  end.
Proof.
  induction s as [|c s IH]; [exact I|].
  cbn [Js.trimStart]. destruct (Js.is_space c) eqn:Hc; [exact IH | exact Hc].
Qed.

Lemma trim_no_outer_space (s : string) : Words.no_outer_space (Js.trim s) = true.
Proof.
  unfold Js.trim. pose proof (trimStart_head s) as Hhead.
  pose proof (trimEnd_empty_or_clean (Js.trimStart s)) as Hend.
  destruct (Js.trimStart s) as [|c t]; [reflexivity|].
  destruct (trimEnd_head c t Hhead) as (u & Hu). rewrite Hu in *.
  cbn [Words.no_outer_space]. now rewrite Hhead, Hend.
Qed.

Lemma truthy_iff (s : string) : Js.truthy s = true <-> s <> "".
Proof.
  unfold Js.truthy. destruct (String.eqb_spec s ""); cbn; split; congruence.
Qed.

Lemma truthy_false_iff (s : string) : Js.truthy s = false <-> s = "".
Proof.
  unfold Js.truthy. destruct (String.eqb_spec s ""); cbn; split; congruence.
Qed.

(** X1.  [resolveWebexCredentials]: a token of the environment that is
    not blank is returned, trimmed, whatever the configuration holds;
    when the environment's is missing or blank, a configuration token
    that is not blank is returned, trimmed; the result is [null] exactly
    when both are missing or blank; and a token that is returned is never
    empty and has no white space at either end. *)
Theorem resolved_token_normal_form (env : option string) (cfg : option Config.WebexConfig) :
  let resolved := Token.resolveWebexCredentials env cfg in
  let configToken := cfg ≫= Config.botToken in
  (forall e, env = Some e -> Js.trim e <> "" -> resolved = Some (Js.trim e))
  /\ (Words.blank env -> forall c, configToken = Some c -> Js.trim c <> "" ->
      resolved = Some (Js.trim c))
  /\ (resolved = None <-> Words.blank env /\ Words.blank configToken)
  /\ (forall t, resolved = Some t -> t <> "" /\ Words.no_outer_space t = true).
Proof.
  unfold Token.resolveWebexCredentials.
  destruct env as [e|], (cfg ≫= Config.botToken) as [c|]; cbn [fmap option_fmap option_map Words.blank];
    try destruct (Js.truthy (Js.trim e)) eqn:He;
    try destruct (Js.truthy (Js.trim c)) eqn:Hc;
    rewrite ?truthy_iff, ?truthy_false_iff in *;
    (split; [intros e' [= <-] Hne; congruence|]);
    (split; [intros Hb c' Hc' Hne; try congruence|]);
    try (split; [split; [discriminate | intros [? ?]; congruence]|]);
    try (split; [split; [tauto | reflexivity]|]);
    try (intros t [= <-]; split; [assumption | apply trim_no_outer_space]);
    try discriminate.
Qed.

(** X2.  [probeWebex] never rejects and leaves the polling state alone:
    for every environment it returns a result, whose [ok] is true exactly
    when it carries the bot's information and exactly when it carries no
    error.  Without a token no request is made; with one, the only
    request is [getMe] with that token, and [ok] is true exactly when
    that request is not rejected: the answer is not looked at, and
    [botInfo] holds the [id], [displayName] and [emails] read off it,
    those of the person when the answer is a person, none (and no
    e-mail address) when it is the empty object of a 204.  A rejection
    is reported as [Probe failed: <message>]. *)
Theorem probe_never_rejects (env : option string) (cfg : option Config.WebexConfig)
    (api : Async.Request -> Async.Response) (store : gmap string Z) :
  exists t result,
    Async.run api (Probe.probeWebex env cfg) store = (store, t, Async.Returned result)
    /\ (Probe.ok result = true <-> is_Some (Probe.botInfo result))
    /\ (Probe.ok result = true <-> Probe.error result = None)
    /\ match Probe.token env cfg with
       | Some tok =>
           if Js.truthy tok then
             let answer := api (Async.Call tok Async.GetMe) in
             t = [Async.Requested (Async.Call tok Async.GetMe)]
             /\ (Probe.ok result = true <-> forall m, answer <> Async.Rejected m)
             /\ ((forall m, answer <> Async.Rejected m) ->
                 Probe.botInfo result
                 = Some {| Probe.id := Async.id_of answer;
                           Probe.displayName := Async.displayName_of answer;
                           Probe.emails := default [] (Async.emails_of answer) |})
             /\ (forall p, answer = Async.Person p ->
                   Probe.botInfo result
                   = Some {| Probe.id := Some (Async.bot_id p);
                             Probe.displayName := Some (Async.bot_displayName p);
                             Probe.emails := default [] (Async.bot_emails p) |})
             /\ (answer = Async.Done ->
                 Probe.botInfo result
                 = Some {| Probe.id := None; Probe.displayName := None;
                           Probe.emails := [] |})
             /\ (forall m, answer = Async.Rejected m ->
                   Probe.error result = Some ("Probe failed: " +:+ m))
           else t = [] /\ Probe.error result = Some "No bot token configured"
       | None => t = [] /\ Probe.error result = Some "No bot token configured"
       end.
Proof.
  unfold Probe.probeWebex.
  destruct (Probe.token env cfg) as [tok|]; [destruct (Js.truthy tok)|].
  - cbv zeta. do 3 run_step.
    destruct (api (Async.Call tok Async.GetMe)) as [m| |p| | | | |] eqn:E; cbn;
      do 2 eexists; (split; [reflexivity|]); cbn;
      repeat split; try congruence; try (intros [? ?]; discriminate);
      try (intros; discriminate); try (intros _; eauto);
      try (intros H; now contradiction (H m)).
  - do 2 eexists. split; [reflexivity|]. cbn.
    repeat split; try congruence; try (intros [? ?]; discriminate).
  - do 2 eexists. split; [reflexivity|]. cbn.
    repeat split; try congruence; try (intros [? ?]; discriminate).
Qed.

(** X3.  [sendMessageWebex] never rejects: every failure comes back as a
    result with [ok] false, an error and no message id.  Without
    credentials nothing is sent.  With them the one request is
    [createMessage], and [ok] is true exactly when that request is not
    rejected: the answer is not looked at, and the message id is the
    [id] read off it, that of the message when the answer is a message
    and none when it is the empty object of a 204, so that [ok] can come
    without a message id.  A rejection gives
    [Failed to send Webex message: <message>]. *)
Theorem send_never_rejects (env : option string) (cfg : option Config.WebexConfig)
    (to text : string) (mediaUrl : option string)
    (api : Async.Request -> Async.Response) (store : gmap string Z) :
  exists t result,
    Async.run api (Send.sendMessageWebex env cfg to text mediaUrl) store
    = (store, t, Async.Returned result)
    /\ (Send.ok result = true <-> Send.error result = None)
    /\ (Send.ok result = false -> Send.messageId result = None)
    /\ match Token.resolveWebexCredentials env cfg with
       | None =>
           t = [] /\ Send.ok result = false
           /\ Send.error result = Some "No Webex credentials configured"
       | Some botToken =>
           let req :=
             Async.Call botToken
               (Async.CreateMessage (Send.messagePayload to text mediaUrl)) in
           t = [Async.Requested req]
           /\ (Send.ok result = true <-> forall m, api req <> Async.Rejected m)
           /\ ((forall m, api req <> Async.Rejected m) ->
               Send.messageId result = Async.id_of (api req))
           /\ (forall m, api req = Async.Message m ->
                 Send.ok result = true /\ Send.messageId result = Some (Api.id m))
           /\ (api req = Async.Done ->
               Send.ok result = true /\ Send.messageId result = None)
           /\ (forall m, api req = Async.Rejected m ->
                 Send.error result = Some ("Failed to send Webex message: " +:+ m))
       end.
Proof.
  unfold Send.sendMessageWebex.
  destruct (Token.resolveWebexCredentials env cfg) as [botToken|].
  - cbv zeta. do 3 run_step.
    destruct (api _) as [m| | |msg| | | |] eqn:E; cbn;
      do 2 eexists; (split; [reflexivity|]); cbn;
      repeat split; try congruence; try (intros; discriminate);
      try (intros H; now contradiction (H m)).
  - do 2 eexists. split; [reflexivity|]. cbn.
    repeat split; try congruence; try (intros; discriminate).
Qed.

(** X4.  [verifyWebexWebhook] never rejects.  Without credentials it
    makes no request; with them its only request lists the webhooks, and
    [ok] is true exactly when the listing succeeds and holds a webhook
    with the given target URL.  It asks less than the monitor does:
    whatever subscription the monitor's startup would reuse (same URL and
    resource [messages]) is accepted by it. *)
Theorem verify_webhook_never_rejects (env : option string)
    (cfg : option Config.WebexConfig) (webhookUrl : string)
    (api : Async.Request -> Async.Response) (store : gmap string Z) :
  exists t result,
    Async.run api (ProbeWebhook.verifyWebexWebhook env cfg webhookUrl) store
    = (store, t, Async.Returned result)
    /\ (ProbeWebhook.ok result = true <-> ProbeWebhook.error result = None)
    /\ match Token.resolveWebexCredentials env cfg with
       | None =>
           t = [] /\ ProbeWebhook.error result = Some "No credentials configured"
       | Some botToken =>
           t = [Async.Requested (Async.Call botToken Async.ListWebhooks)]
           /\ (ProbeWebhook.ok result = true <->
               exists items wh,
                 api (Async.Call botToken Async.ListWebhooks) = Async.Webhooks items
                 /\ In wh items /\ Api.wh_targetUrl wh = webhookUrl)
           /\ (forall items existing,
                 api (Async.Call botToken Async.ListWebhooks) = Async.Webhooks items ->
                 List.find (Monitor.matches webhookUrl) items = Some existing ->
                 ProbeWebhook.ok result = true)
           /\ (forall m, api (Async.Call botToken Async.ListWebhooks) = Async.Rejected m ->
                 ProbeWebhook.error result = Some m)
       end.
Proof.
  unfold ProbeWebhook.verifyWebexWebhook.
  destruct (Token.resolveWebexCredentials env cfg) as [botToken|].
  2:{ do 2 eexists. split; [reflexivity|]. cbn. repeat split; congruence. }
  do 3 run_step.
  destruct (api _) as [m| | | | | |items|] eqn:E; cbn;
    try (do 2 eexists; (split; [reflexivity|]); cbn;
         repeat split; try congruence; try (intros; discriminate);
         try (intros (? & ? & ? & _); discriminate); fail).
  destruct (List.find _ items) as [found|] eqn:Hfind; cbn;
    do 2 eexists; (split; [reflexivity|]); cbn.
  - apply List.find_some in Hfind as [Hin Heq]. apply String.eqb_eq in Heq.
    repeat split; try congruence; try (intros; discriminate).
    intros _. exists items, found. auto.
  - repeat split; try congruence; try (intros; discriminate).
    + intros (items' & wh & [= <-] & Hin & Hurl).
      pose proof (List.find_none _ _ Hfind wh Hin) as Hn. cbn in Hn.
      rewrite Hurl, String.eqb_refl in Hn. discriminate.
    + intros items' existing [= <-] Hm.
      apply List.find_some in Hm as [Hin Hmatch].
      unfold Monitor.matches in Hmatch. apply andb_prop in Hmatch as [Hurl _].
      pose proof (List.find_none _ _ Hfind existing Hin) as Hn. cbn in Hn. congruence.
Qed.

(** ** What a task emits, and tasks that never throw *)

Section Emits.
Import Async.

Variable P : Event -> Prop.

Lemma emits_ret {A : Type} (a : A) : Words.emits P (Ret a).
Proof. intros env store. constructor. Qed.

Lemma emits_throw {A : Type} (err : string) : Words.emits P (@Throw A err).
Proof. intros env store. constructor. Qed.

Lemma emits_log (l : Level) (m : string) : P (Log l m) -> Words.emits P (log l m).
Proof. intros H env store. cbn. now repeat constructor. Qed.

Lemma emits_await (req : Request) : P (Requested req) -> Words.emits P (await req).
Proof. intros H env store. rewrite run_await. cbn. now repeat constructor. Qed.

Lemma emits_mapSet (room : string) (time : Z) :
  P (Stored room time) -> Words.emits P (mapSet room time).
Proof. intros H env store. cbn. now repeat constructor. Qed.

Lemma emits_bind {A B : Type} (p : Proc A) (f : A -> Proc B) :
  Words.emits P p -> (forall a, Words.emits P (f a)) -> Words.emits P (p ≫= f).
Proof.
  intros Hp Hf env store. rewrite run_bind.
  specialize (Hp env store).
  destruct (run env p store) as [[s1 t1] [a|err]]; cbn [fst snd] in *; [|exact Hp].
  specialize (Hf a env s1).
  destruct (run env (f a) s1) as [[s2 t2] o2]. cbn [fst snd] in *.
  now apply Forall_app.
Qed.

Lemma emits_catch {A : Type} (p : Proc A) (h : string -> Proc A) :
  Words.emits P p -> (forall err, Words.emits P (h err)) -> Words.emits P (catch p h).
Proof.
  intros Hp Hh env store. rewrite run_catch.
  specialize (Hp env store).
  destruct (run env p store) as [[s1 t1] [a|err]]; cbn [fst snd] in *; [exact Hp|].
  specialize (Hh err env s1).
  destruct (run env (h err) s1) as [[s2 t2] o2]. cbn [fst snd] in *.
  now apply Forall_app.
Qed.

Lemma emits_forEach {A : Type} (xs : list A) (body : A -> Proc unit) :
  (forall x, Words.emits P (body x)) -> Words.emits P (forEach xs body).
Proof.
  intros Hbody. induction xs as [|x xs IH]; [apply emits_ret|].
  cbn [forEach]. apply emits_bind; [apply Hbody | intros _; exact IH].
Qed.

Lemma emits_mapGet {A : Type} (room : string) (f : option Z -> Proc A) :
  (forall o, Words.emits P (f o)) -> Words.emits P (mapGet room ≫= f).
Proof. intros Hf env store. apply (Hf (store !! room) env store). Qed.

End Emits.

Section Returns.
Import Async.

Lemma returns_ret {A : Type} (a : A) : Words.returns (Ret a).
Proof. intros env store. now exists a. Qed.

Lemma returns_log (l : Level) (m : string) : Words.returns (log l m).
Proof. intros env store. now exists tt. Qed.

Lemma returns_bind {A B : Type} (p : Proc A) (f : A -> Proc B) :
  Words.returns p -> (forall a, Words.returns (f a)) -> Words.returns (p ≫= f).
Proof.
  intros Hp Hf env store. rewrite run_bind.
  destruct (Hp env store) as (a & Ha).
  destruct (run env p store) as [[s1 t1] o1]. cbn [snd] in Ha. subst o1.
  destruct (Hf a env s1) as (b & Hb).
  destruct (run env (f a) s1) as [[s2 t2] o2]. cbn [snd] in *. now exists b.
Qed.

Lemma returns_catch {A : Type} (p : Proc A) (h : string -> Proc A) :
  (forall err, Words.returns (h err)) -> Words.returns (catch p h).
Proof.
  intros Hh env store. rewrite run_catch.
  destruct (run env p store) as [[s1 t1] [a|err]]; [now exists a|].
  destruct (Hh err env s1) as (b & Hb).
  destruct (run env (h err) s1) as [[s2 t2] o2]. cbn [snd] in *. now exists b.
Qed.

Lemma returns_forEach {A : Type} (xs : list A) (body : A -> Proc unit) :
  (forall x, Words.returns (body x)) -> Words.returns (forEach xs body).
Proof.
  intros Hbody. induction xs as [|x xs IH]; [apply returns_ret|].
  cbn [forEach]. apply returns_bind; [apply Hbody | intros _; exact IH].
Qed.

End Returns.

(** ** The polling loop under any environment *)

Section TickRooms.
Import Async.

Variable beyond : string -> string -> option string.
Variable webexCfg : Config.WebexConfig.
Variables (token botId botEmail botName : string) (pollStartTime : Z).

Lemma listings_app (t1 t2 : list Event) :
  Words.listings (t1 ++ t2) = Words.listings t1 ++ Words.listings t2.
Proof.
  induction t1 as [|e t1 IH]; [reflexivity|].
  destruct e as [| |[? []|?| |]| | | |]; cbn [Words.listings app]; now rewrite ?IH.
Qed.

Lemma listings_none (t : list Event) : Forall Words.not_listing t -> Words.listings t = [].
Proof.
  induction 1 as [|e t He Ht IH]; [reflexivity|].
  destruct e as [| |[? []|?| |]| | | |]; cbn in *; try exact IH. contradiction.
Qed.

Lemma dispatchText_emits (P : Event -> Prop) (parsed : Inbound.ParsedWebexMessage) :
  Words.emits P (Monitor.dispatchText beyond botName parsed).
Proof.
  unfold Monitor.dispatchText. destruct (Inbound.p_isBotMentioned parsed); [|apply emits_ret].
  destruct (Inbound.stripWebexBotMention _ _ _); [apply emits_ret | apply emits_throw].
Qed.

Lemma pollMessage_not_listing (room : string) (lastTime : Z) (m : Api.WebexMessage) :
  Words.emits Words.not_listing
    (Monitor.pollMessage beyond webexCfg botId botEmail botName pollStartTime
       room lastTime m).
Proof.
  unfold Monitor.pollMessage.
  destruct (_ <=? _); [now apply emits_log|].
  destruct (String.eqb _ _).
  { apply emits_bind; [now apply emits_log | intros _; now apply emits_mapSet]. }
  apply emits_bind; [now apply emits_log | intros _].
  destruct (negb _).
  { apply emits_bind; [now apply emits_log | intros _; now apply emits_mapSet]. }
  apply emits_bind; [apply dispatchText_emits | intros text].
  apply emits_bind; [now apply emits_log | intros _].
  apply emits_bind; [|intros _; now apply emits_mapSet].
  unfold Monitor.dispatchToAgent.
  apply emits_bind; [now apply emits_await | intros _; apply emits_ret].
Qed.

(** A room visit asks once for the room's messages, and returns normally
    whatever happens next. *)
Lemma run_pollRoom_shape (env : Request -> Response) (room : string)
    (store : gmap string Z) :
  exists store' t,
    run env (Monitor.pollRoom beyond webexCfg token botId botEmail botName
               pollStartTime room) store
    = (store', Requested (Call token (ListMessages room 20)) :: t, Returned tt)
    /\ Forall Words.not_listing t.
Proof.
  unfold Monitor.pollRoom. rewrite run_catch.
  change (mapGet room ≫= ?f) with (MapGet room f). cbn [run].
  rewrite run_bind, run_await.
  set (lastTime := Monitor.lastTimeOr pollStartTime (store !! room)).
  assert (Hbody : forall messages : Response,
             Words.emits Words.not_listing
               (match messages with
                | Messages items =>
                    log Debug ("polling room " +:+ room) ;;
                    forEach (rev (default [] items))
                      (Monitor.pollMessage beyond webexCfg botId botEmail botName
                         pollStartTime room lastTime)
                | _ => Throw "TypeError"
                end)).
  { intros messages. destruct messages; try apply emits_throw.
    apply emits_bind; [now apply emits_log | intros _].
    apply emits_forEach. intros m. apply pollMessage_not_listing. }
  destruct (env (Call token (ListMessages room 20))) as [m| | | |items| | |] eqn:E;
    cbn [app];
    try (do 2 eexists; split; [reflexivity | repeat constructor]; fail).
  specialize (Hbody (Messages items) env store). cbn beta iota in Hbody.
  destruct (run env _ store) as [[s1 t1] [[]|err]]; cbn [fst snd] in Hbody; cbn.
  - do 2 eexists. split; [reflexivity | exact Hbody].
  - do 2 eexists. split; [reflexivity|]. apply Forall_app. split; [exact Hbody|].
    repeat constructor.
Qed.

Lemma run_rooms_loop (env : Request -> Response) (rooms : list string)
    (store : gmap string Z) :
  exists store' t,
    run env (forEach rooms
               (Monitor.pollRoom beyond webexCfg token botId botEmail botName
                  pollStartTime)) store
    = (store', t, Returned tt)
    /\ Words.listings t = rooms.
Proof.
  revert store. induction rooms as [|room rooms IH]; intros store.
  - now exists store, [].
  - cbn [forEach]. rewrite run_bind.
    destruct (run_pollRoom_shape env room store) as (s1 & t1 & -> & Hquiet).
    destruct (IH s1) as (s2 & t2 & -> & Hl).
    do 2 eexists. split; [reflexivity|].
    cbn [app Words.listings]. rewrite listings_app, (listings_none _ Hquiet), Hl.
    reflexivity.
Qed.

(** X5.  One tick of the polling loop never throws, whatever the remote
    API and the dispatcher answer, and no room can starve another: when
    the rooms are listed, the tick asks for the messages of every listed
    room, once each and in the listed order, even where the visit of an
    earlier room failed (at its listing, in the mention pattern or in the
    dispatch).  When the rooms cannot be listed the tick visits no room,
    dispatches nothing and leaves the watermarks alone. *)
Theorem tick_visits_every_room (env : Request -> Response) (store : gmap string Z) :
  exists store' t,
    run env (Monitor.pollMessages beyond webexCfg token botId botEmail botName
               pollStartTime) store
    = (store', t, Returned tt)
    /\ match env (Call token (ListRooms "lastactivity" 50)) with
       | Rooms rooms => Words.listings t = rooms
       | _ =>
           store' = store /\ Words.listings t = [] /\ Trace.dispatches t = []
       end.
Proof.
  unfold Monitor.pollMessages. do 3 run_step.
  destruct (env (Call token (ListRooms "lastactivity" 50))) as [m| | | | |rooms| |] eqn:E;
    cbn.
  all: try (do 2 eexists; split; [reflexivity|]; repeat split; eauto; fail).
  destruct (run_rooms_loop env rooms store) as (s1 & t1 & -> & Hl).
  do 2 eexists. split; [reflexivity|]. cbn. exact Hl.
Qed.

End TickRooms.

(** ** What is dispatched *)

Section DispatchGuards.
Import Async.

Variable beyond : string -> string -> option string.
Variable webexCfg : Config.WebexConfig.
Variables (token botId botEmail botName : string) (pollStartTime : Z).

Lemma or_else_some_empty (s : string) : Js.or_else (Some s) "" = s.
Proof.
  unfold Js.or_else. destruct (Js.truthy s) eqn:E; [reflexivity|].
  symmetry. now apply truthy_false_iff.
Qed.

Lemma gate_admits (ev : Inbound.WebexWebhookEvent) (detail : option Inbound.MessageDetail)
    (now : Z) (requireMention : bool) :
  Inbound.shouldProcessWebexMessage
    (Inbound.parseWebexWebhookEvent ev detail botId now) requireMention = true ->
  Words.gate_open requireMention botId (Inbound.roomType (Inbound.data ev))
    (Inbound.mentionedPeople (Inbound.data ev)).
Proof.
  unfold Inbound.shouldProcessWebexMessage, Words.gate_open.
  cbn [Inbound.parseWebexWebhookEvent Inbound.p_roomType Inbound.p_isBotMentioned].
  destruct (Inbound.roomType (Inbound.data ev)) as [rt|].
  - destruct (String.eqb_spec rt "direct") as [->|Hne]; [now left|].
    destruct (decide _) as [[=]|_].
    destruct requireMention; [|now (right; left)].
    intros H. right. right. now apply array_includes_In.
  - destruct (decide _) as [[=]|_].
    destruct requireMention; [|now (right; left)].
    intros H. right. right. now apply array_includes_In.
Qed.

Lemma emits_in_all {A : Type} (env : Request -> Response) (P : Event -> Prop)
    (p : Proc A) :
  Words.emits P p -> Words.emits_in env P p.
Proof. intros H store. apply H. Qed.

Lemma emits_in_bind {A B : Type} (env : Request -> Response) (P : Event -> Prop)
    (p : Proc A) (f : A -> Proc B) :
  Words.emits_in env P p -> (forall a, Words.emits_in env P (f a)) ->
  Words.emits_in env P (p ≫= f).
Proof.
  intros Hp Hf store. rewrite run_bind. specialize (Hp store).
  destruct (run env p store) as [[s1 t1] [a|err]]; cbn [fst snd] in *; [|exact Hp].
  specialize (Hf a s1). destruct (run env (f a) s1) as [[s2 t2] o2].
  cbn [fst snd] in *. now apply Forall_app.
Qed.

(** After an [await], only the answer of the environment matters. *)
Lemma emits_in_await {A : Type} (env : Request -> Response) (P : Event -> Prop)
    (req : Request) (f : Response -> Proc A) :
  P (Requested req) -> Words.emits_in env P (f (env req)) ->
  Words.emits_in env P (await req ≫= f).
Proof.
  intros Hreq Hf store. rewrite run_bind, run_await.
  destruct (env req) as [m| | | | | | |] eqn:E;
    [cbn; now repeat constructor|..];
    (specialize (Hf store); destruct (run env (f _) store) as [[s2 t2] o2];
     cbn [fst snd app] in *; now constructor).
Qed.

Lemma emits_in_catch {A : Type} (env : Request -> Response) (P : Event -> Prop)
    (p : Proc A) (h : string -> Proc A) :
  Words.emits_in env P p -> (forall err, Words.emits_in env P (h err)) ->
  Words.emits_in env P (catch p h).
Proof.
  intros Hp Hh store. rewrite run_catch. specialize (Hp store).
  destruct (run env p store) as [[s1 t1] [a|err]]; cbn [fst snd] in *; [exact Hp|].
  specialize (Hh err s1). destruct (run env (h err) s1) as [[s2 t2] o2].
  cbn [fst snd] in *. now apply Forall_app.
Qed.

Lemma emits_in_forEach {A : Type} (env : Request -> Response) (P : Event -> Prop)
    (xs : list A) (body : A -> Proc unit) :
  (forall x, In x xs -> Words.emits_in env P (body x)) ->
  Words.emits_in env P (forEach xs body).
Proof.
  induction xs as [|x xs IH]; intros Hbody; [intros store; constructor|].
  cbn [forEach]. apply emits_in_bind; [apply Hbody; now left|].
  intros _. apply IH. intros y Hy. apply Hbody. now right.
Qed.

Lemma emits_in_mapGet {A : Type} (env : Request -> Response) (P : Event -> Prop)
    (room : string) (f : option Z -> Proc A) :
  (forall o, Words.emits_in env P (f o)) -> Words.emits_in env P (mapGet room ≫= f).
Proof. intros Hf store. apply (Hf (store !! room) store). Qed.

Lemma dispatchText_cases (parsed : Inbound.ParsedWebexMessage) :
  (exists text, Monitor.dispatchText beyond botName parsed = Ret text)
  \/ Monitor.dispatchText beyond botName parsed = Throw "SyntaxError".
Proof.
  unfold Monitor.dispatchText.
  destruct (Inbound.p_isBotMentioned parsed); [|left; now eexists].
  destruct (Inbound.stripWebexBotMention _ _ _); [left; now eexists | now right].
Qed.

Lemma pollMessage_guarded (env : Request -> Response) (room : string) (lastTime : Z)
    (m : Api.WebexMessage) :
  Words.listed env token m ->
  Words.emits_in env
    (Words.dispatching
       (Words.from_listing beyond webexCfg token botId botEmail botName pollStartTime env))
    (Monitor.pollMessage beyond webexCfg botId botEmail botName pollStartTime
       room lastTime m).
Proof.
  intros Hlisted. unfold Monitor.pollMessage.
  destruct (_ <=? _); [now apply emits_in_all, emits_log|].
  destruct (String.eqb_spec (Api.personEmail m) botEmail) as [|Hother].
  { apply emits_in_all, emits_bind; [now apply emits_log | intros _; now apply emits_mapSet]. }
  apply emits_in_bind; [now apply emits_in_all, emits_log | intros _].
  set (parsed := Inbound.parseWebexWebhookEvent _ _ _ _).
  destruct (Inbound.shouldProcessWebexMessage parsed _) eqn:Hgate; cbn [negb].
  2:{ apply emits_in_all, emits_bind;
        [now apply emits_log | intros _; now apply emits_mapSet]. }
  destruct (dispatchText_cases parsed) as [(text & Htext)|Htext]; rewrite Htext.
  2:{ intros store. constructor. }
  change (Ret text ≫= ?f) with (f text). cbv beta.
  apply emits_in_bind; [now apply emits_in_all, emits_log | intros _].
  apply emits_in_bind; [|intros _; now apply emits_in_all, emits_mapSet].
  unfold Monitor.dispatchToAgent.
  apply emits_in_all, emits_bind; [|intros _; apply emits_ret].
  apply emits_await. cbn [Words.dispatching]. exists m, text. cbv zeta. fold parsed.
  split; [exact Hlisted|]. split; [exact Hother|].
  split; [exact (gate_admits _ _ _ _ Hgate)|]. split; [exact Htext | reflexivity].
Qed.

(** X6.  Whatever the remote API lists and however the dispatcher
    answers, every context that a polling tick hands to the dispatcher is
    the one built from a message of this tick's listings: a message that
    the remote API lists for a room of its listing of the rooms, that
    another sender than the bot wrote (its [personEmail] is not the bot's
    e-mail address) and that the gate admits (its room is direct, or
    groups need no mention, or the bot's id is among its mentioned
    people).  The context is exactly the one of that message, its room
    type included, with the text that the loop computes for it. *)
Theorem poll_dispatch_guarded (env : Request -> Response) (store : gmap string Z) :
  Forall
    (Words.dispatching
       (Words.from_listing beyond webexCfg token botId botEmail botName pollStartTime env))
    (run env
       (Monitor.pollMessages beyond webexCfg token botId botEmail botName pollStartTime)
       store).1.2.
Proof.
  revert store. change (Words.emits_in env
    (Words.dispatching
       (Words.from_listing beyond webexCfg token botId botEmail botName pollStartTime env))
    (Monitor.pollMessages beyond webexCfg token botId botEmail botName pollStartTime)).
  unfold Monitor.pollMessages.
  apply emits_in_catch; [|intros err; now apply emits_in_all, emits_log].
  apply emits_in_await; [exact I|].
  destruct (env (Call token (ListRooms "lastactivity" 50))) as [| | | | |rooms| |] eqn:Hrooms;
    try (intros store; constructor).
  apply emits_in_bind; [now apply emits_in_all, emits_log | intros _].
  apply emits_in_forEach. intros room Hroom. unfold Monitor.pollRoom.
  apply emits_in_catch; [|intros err; now apply emits_in_all, emits_log].
  apply emits_in_mapGet. intros entry.
  apply emits_in_await; [exact I|].
  destruct (env (Call token (ListMessages room 20))) as [| | | |items| | |] eqn:Hitems;
    try (apply emits_in_bind; [now apply emits_in_all, emits_log | intros _];
         intros store; constructor).
  apply emits_in_bind; [now apply emits_in_all, emits_log | intros _].
  apply emits_in_forEach. intros m Hm. apply in_rev in Hm.
  apply pollMessage_guarded.
  destruct items as [items|]; [|destruct Hm].
  exists rooms, room, items. repeat split; assumption.
Qed.

End DispatchGuards.

Section WebhookGuards.
Import Async.

Variable beyond : string -> string -> option string.
Variable webexCfg : Config.WebexConfig.
Variables (token botId botEmail botName : string).

Lemma requests_app (t1 t2 : list Event) :
  Trace.requests (t1 ++ t2) = Trace.requests t1 ++ Trace.requests t2.
Proof.
  induction t1 as [|e t1 IH]; [reflexivity|].
  destruct e; cbn [Trace.requests app]; now rewrite ?IH.
Qed.

Lemma run_dispatchText_cases (parsed : Inbound.ParsedWebexMessage)
    (env : Request -> Response) (store : gmap string Z) :
  (exists text,
     run env (Monitor.dispatchText beyond botName parsed) store = (store, [], Returned text))
  \/ (run env (Monitor.dispatchText beyond botName parsed) store
      = (store, [], Threw "SyntaxError")
      /\ Inbound.p_isBotMentioned parsed = true).
Proof.
  unfold Monitor.dispatchText.
  destruct (Inbound.p_isBotMentioned parsed); [|left; now eexists].
  destruct (Inbound.stripWebexBotMention _ _ _); [left; now eexists | now right].
Qed.

(** X7.  The webhook handler makes at most one fetch and at most one
    dispatch, in that order, for every body, remote API and dispatcher.
    Without event data it issues no request.  With event data its
    requests are none, or the fetch of the message the event names, or
    that fetch followed by one dispatch; and a dispatch happens only for
    a [messages]/[created] event whose sender is not the bot, whose
    fetch was not rejected and which the gate admits (direct room, or no
    mention required, or the bot among the mentioned people).  The
    context dispatched carries the id of the event. *)
Theorem webhook_dispatch_guarded (now : Z) (body : Monitor.RequestBody)
    (env : Request -> Response) (store : gmap string Z) :
  let t :=
    (run env (Monitor.webhookHandler beyond webexCfg token botId botEmail botName now body)
       store).1.2 in
  match body with
  | Monitor.BodyObject resource event (Some d) =>
      let fetch := Call token (GetMessage (Inbound.id d)) in
      Trace.requests t = []
      \/ Trace.requests t = [fetch]
      \/ exists ctx,
           Trace.requests t = [fetch; Dispatch ctx]
           /\ MessageSid ctx = Inbound.id d
           /\ resource = Some "messages" /\ event = Some "created"
           /\ Inbound.personEmail d <> Some botEmail
           /\ (forall m, env fetch <> Rejected m)
           /\ Words.gate_open (Monitor.requireMentionInGroups webexCfg) botId
                (Inbound.roomType d) (Inbound.mentionedPeople d)
  | _ => Trace.requests t = []
  end.
Proof.
  unfold Monitor.webhookHandler. rewrite run_catch.
  change (emit (Respond 200 "OK") ;; ?q) with (Emit (Respond 200 "OK") q).
  cbn [run].
  destruct body as [|resource event [d|]]; cbv zeta.
  1: reflexivity.
  2: now destruct (_ || _).
  destruct (bool_decide_reflect (resource = Some "messages")) as [Hres|Hres];
    cbn [negb orb]; [|now left].
  destruct (bool_decide_reflect (event = Some "created")) as [Hev|Hev];
    cbn [negb orb]; [|now left].
  destruct (Inbound.isWebexBotMessage _ botEmail) eqn:Hown; [now left|].
  assert (Hother : Inbound.personEmail d <> Some botEmail).
  { unfold Inbound.isWebexBotMessage in Hown. cbn [Inbound.data] in Hown.
    destruct (Inbound.personEmail d) as [e|]; [|discriminate].
    apply String.eqb_neq in Hown. congruence. }
  rewrite run_bind, run_await.
  set (fetch := Call token (GetMessage (Inbound.id d))).
  destruct (env fetch) as [m| | |msg| | | |] eqn:Hfetch; cbn [app fst snd];
    try (right; left; reflexivity).
  all: match goal with
       | |- context [Inbound.shouldProcessWebexMessage ?p _] => set (parsed := p)
       end;
    destruct (Inbound.shouldProcessWebexMessage parsed _) eqn:Hgate;
    cbn [negb]; try (right; left; reflexivity).
  all: apply gate_admits in Hgate; cbn [Inbound.data] in Hgate.
  all: rewrite run_bind;
    destruct (run_dispatchText_cases parsed env store) as [(text & ->)|(-> & _)];
    cbn [app fst snd]; try (right; left; reflexivity).
  all: right; right; exists (Monitor.inboundContext parsed text);
    unfold Monitor.dispatchToAgent; rewrite run_bind, run_await;
    (split; [destruct (env (Dispatch _)); reflexivity|]);
    repeat split; try assumption; try reflexivity; intros m'; fold fetch; congruence.
Qed.

(** X8.  For a bot whose e-mail address is known, no context that the
    webhook handler dispatches has the bot itself as sender.  The
    condition matters: the self-check compares the raw [personEmail] of
    the event with the bot's address, the monitor falls back to the empty
    string when the probe gives no address, and an event without
    [personEmail] is then handed on with an empty sender. *)
Theorem webhook_never_dispatches_own (now : Z) (body : Monitor.RequestBody) :
  botEmail <> "" ->
  Words.emits (Words.dispatching (fun ctx => SenderUsername ctx <> botEmail))
    (Monitor.webhookHandler beyond webexCfg token botId botEmail botName now body).
Proof.
  intros Hbot. unfold Monitor.webhookHandler.
  apply emits_catch; [|intros err; now apply emits_log].
  apply emits_bind; [intros env store; cbn; now repeat constructor | intros _].
  destruct body as [|resource event data]; [apply emits_throw|].
  destruct (_ || _); [apply emits_ret|].
  destruct data as [d|]; [|apply emits_throw].
  destruct (Inbound.isWebexBotMessage _ _) eqn:Hown; [apply emits_ret|].
  apply emits_bind; [now apply emits_await | intros fullMessage].
  destruct (negb _); [now apply emits_log|].
  apply emits_bind; [apply dispatchText_emits | intros text].
  unfold Monitor.dispatchToAgent.
  apply emits_bind; [|intros _; apply emits_ret].
  apply emits_await. cbn [Words.dispatching].
  cbn [Monitor.inboundContext SenderUsername Inbound.parseWebexWebhookEvent
       Inbound.p_personEmail Inbound.data].
  unfold Inbound.isWebexBotMessage in Hown. cbn [Inbound.data] in Hown.
  destruct (Inbound.personEmail d) as [e|]; [|cbn; congruence].
  rewrite or_else_some_empty. now apply String.eqb_neq.
Qed.

End WebhookGuards.

Lemma webhook_never_dispatches_own_witness :
  Words.emits
    (Words.dispatching (fun ctx => Async.SenderUsername ctx <> "testbot@webex.bot"))
    (Monitor.webhookHandler Sample.no_regexp (Sample.config "webhook") "test-token"
       "bot-id-123" "testbot@webex.bot" "Test Bot" 0
       (Monitor.BodyObject (Some "messages") (Some "created")
          (Some (Inbound.data Sample.group_event)))).
Proof.
  apply (webhook_never_dispatches_own Sample.no_regexp (Sample.config "webhook")
           "test-token" "bot-id-123" "testbot@webex.bot" "Test Bot" 0).
  discriminate.
Defined.

(** ** Room visits that fail, and visits that find nothing new *)

Section VisitFailure.
Import Async.

Variable beyond : string -> string -> option string.
Variable webexCfg : Config.WebexConfig.
Variables (token botId botEmail botName : string) (pollStartTime : Z).
Variable env : Request -> Response.

Lemma run_forEach_app {A : Type} (xs ys : list A) (body : A -> Proc unit)
    (store : gmap string Z) :
  run env (forEach (xs ++ ys) body) store
  = let '(s1, t1, o1) := run env (forEach xs body) store in
    match o1 with
    | Returned _ =>
        let '(s2, t2, o2) := run env (forEach ys body) s1 in (s2, t1 ++ t2, o2)
    | Threw err => (s1, t1, Threw err)
    end.
Proof.
  revert store. induction xs as [|x xs IH]; intros store.
  - cbn [app forEach run]. now destruct (run env (forEach ys body) store) as [[s2 t2] o2].
  - cbn [app forEach]. rewrite !run_bind.
    destruct (run env (body x) store) as [[s0 t0] [[]|err]]; [|reflexivity].
    rewrite IH.
    destruct (run env (forEach xs body) s0) as [[s1 t1] [[]|err]]; [|reflexivity].
    destruct (run env (forEach ys body) s1) as [[s2 t2] o2].
    now rewrite app_assoc.
Qed.

(** X9.  A dispatch that is rejected ends the visit of its room.  When
    the message [m] of the listing is fresh, not the bot's own and
    admitted by the gate, and the dispatcher rejects it, the visit stops
    there: after the listing its requests are those made for the
    messages handled before [m], then the dispatch of [m], and nothing
    more.  Nothing is written for [m] or after it, so the writes of the
    visit are those made for the earlier messages and the room's entry
    stays where they left it; the messages after [m] in the processing
    order are not looked at in this visit; and the visit itself returns
    normally, the failure being caught by the room's handler. *)
Theorem dispatch_failure_halts_visit (room : string) (store : gmap string Z)
    (items before after : list Api.WebexMessage) (m : Api.WebexMessage)
    (text err : string) (s1 : gmap string Z) (t1 : list Event) :
  let lastTime := Monitor.lastTimeOr pollStartTime (store !! room) in
  let parsed :=
    Inbound.parseWebexWebhookEvent (Monitor.eventOfMessage m)
      (Some (Inbound.detail_of m)) botId pollStartTime in
  let ctx := Monitor.inboundContext parsed text in
  env (Call token (ListMessages room 20)) = Messages (Some items) ->
  rev items = before ++ m :: after ->
  run env (forEach before
             (Monitor.pollMessage beyond webexCfg botId botEmail botName pollStartTime
                room lastTime)) store
  = (s1, t1, Returned tt) ->
  lastTime < Api.created m ->
  Api.personEmail m <> botEmail ->
  Inbound.shouldProcessWebexMessage parsed (Monitor.requireMentionInGroups webexCfg)
  = true ->
  Monitor.dispatchText beyond botName parsed = Ret text ->
  env (Dispatch ctx) = Rejected err ->
  exists t,
    run env (Monitor.pollRoom beyond webexCfg token botId botEmail botName pollStartTime room)
      store
    = (s1, t, Returned tt)
    /\ Trace.requests t
       = Call token (ListMessages room 20) :: Trace.requests t1 ++ [Dispatch ctx]
    /\ Trace.dispatches t = Trace.dispatches t1 ++ [ctx]
    /\ Trace.stores t = Trace.stores t1.
Proof.
  intros lastTime parsed ctx Hlist Hsplit Hbefore Hfresh Hother Hgate Htext Hdown.
  unfold Monitor.pollRoom. rewrite run_catch.
  change (mapGet room ≫= ?f) with (MapGet room f). cbn [run]. fold lastTime.
  rewrite run_bind, run_await, Hlist. cbv beta iota zeta.
  change (default [] (Some items)) with items. rewrite Hsplit.
  rewrite run_log, run_forEach_app, Hbefore.
  cbn [forEach]. rewrite run_bind.
  unfold Monitor.pollMessage at 1.
  apply Z.leb_gt in Hfresh. rewrite Hfresh.
  apply String.eqb_neq in Hother. rewrite Hother.
  fold parsed. rewrite Hgate. cbn [negb].
  rewrite run_log, Htext.
  change (Ret text ≫= ?f) with (f text). cbv beta.
  rewrite run_log. unfold Monitor.dispatchToAgent.
  rewrite !run_bind, run_await. fold ctx. rewrite Hdown.
  cbn [app run log emit fst snd].
  eexists. split; [reflexivity|].
  cbn [Trace.requests Trace.dispatches Trace.stores].
  rewrite !requests_app, !dispatches_app, !stores_app.
  cbn [Trace.requests Trace.dispatches Trace.stores app].
  rewrite !app_nil_r. repeat split; reflexivity.
Qed.

End VisitFailure.

Lemma dispatch_failure_halts_visit_witness :
  exists t,
    Async.run (Outage.dispatcher_down Sample.three_messages)
      (Monitor.pollRoom Sample.no_regexp (Sample.config "polling") "test-token"
         "bot-id-123" "testbot@webex.bot" "Test Bot" 0 "room-123") ∅
    = (∅, t, Async.Returned tt)
    /\ Trace.requests t
       = [Async.Call "test-token" (Async.ListMessages "room-123" 20);
          Async.Dispatch
            {| Async.RawBody := "Hello bot";
               Async.From := "webex:person-123";
               Async.To := "webex:room-123";
               Async.ChatType := "direct";
               Async.SenderId := "person-123";
               Async.SenderUsername := "user@example.com";
               Async.MessageSid := "msg-1" |}]
    /\ map Async.MessageSid (Trace.dispatches t) = ["msg-1"]
    /\ Trace.stores t = [].
Proof.
  destruct (dispatch_failure_halts_visit Sample.no_regexp (Sample.config "polling")
              "test-token" "bot-id-123" "testbot@webex.bot" "Test Bot" 0
              (Outage.dispatcher_down Sample.three_messages)
              "room-123" ∅ Sample.three_messages []
              [Sample.direct_message "msg-2" 2; Sample.direct_message "msg-3" 3]
              (Sample.direct_message "msg-1" 1) "Hello bot" "agent unavailable" ∅ [])
    as (t & Hrun & Hreq & Hd & Hs);
    [reflexivity | reflexivity | reflexivity | reflexivity | discriminate
    | reflexivity | reflexivity | reflexivity |].
  exists t. split; [exact Hrun|]. split; [exact Hreq|].
  split; [rewrite Hd; reflexivity | exact Hs].
Defined.

Section Repoll.
Import Async.

Variable beyond : string -> string -> option string.
Variable webexCfg : Config.WebexConfig.
Variables (token botId botEmail botName : string) (pollStartTime : Z).
Variable env : Request -> Response.

Hypothesis dispatch_completes : forall ctx m, env (Dispatch ctx) <> Rejected m.
Hypothesis pattern_compiles :
  forall text, Inbound.stripWebexBotMention beyond text botName <> None.

Lemma run_pollRoom_listed (room : string) (items : list Api.WebexMessage)
    (store : gmap string Z) :
  env (Call token (ListMessages room 20)) = Messages (Some items) ->
  let lastTime := Monitor.lastTimeOr pollStartTime (store !! room) in
  let fresh := List.filter (fun m => negb (Spec.duplicate lastTime m)) (rev items) in
  exists t,
    run env (Monitor.pollRoom beyond webexCfg token botId botEmail botName pollStartTime room)
      store
    = (foldl (Spec.advance room lastTime) store fresh, t, Returned tt)
    /\ Trace.stores t = map (fun m => (room, Z.max lastTime (Api.created m))) fresh
    /\ map MessageSid (Trace.dispatches t)
       = map Api.id
           (List.filter (Spec.dispatched webexCfg botId botEmail lastTime) (rev items)).
Proof.
  intros Hlist lastTime fresh.
  destruct (run_pollMessages_loop beyond webexCfg botId botEmail botName pollStartTime
              env dispatch_completes pattern_compiles room lastTime (rev items) store)
    as (t & Hrun & Hs & Hd).
  unfold Monitor.pollRoom. do 2 run_step. fold lastTime.
  do 2 run_step. rewrite Hlist. do 1 run_step.
  change (rev (default [] (Some items))) with (rev items). rewrite Hrun.
  eexists. split; [reflexivity|]. cbn [Trace.stores Trace.dispatches].
  split; [exact Hs | exact Hd].
Qed.

(** X10.  Polling a room a second time is idle.  When every dispatch
    completes and the mention pattern compiles, a visit of a room whose
    listing is newest first leaves the room's entry at or above every
    listed message; a second visit that gets the same listing writes
    nothing, dispatches nothing and leaves the map as the first visit
    left it.  (The condition on the watermark read holds for a monitor
    started after the epoch.) *)
Theorem repoll_is_idle (room : string) (items : list Api.WebexMessage)
    (store : gmap string Z) :
  env (Call token (ListMessages room 20)) = Messages (Some items) ->
  Spec.newest_first items ->
  0 <= Monitor.lastTimeOr pollStartTime (store !! room) ->
  exists store1 t1 t2,
    run env (Monitor.pollRoom beyond webexCfg token botId botEmail botName pollStartTime room)
      store
    = (store1, t1, Returned tt)
    /\ run env
         (Monitor.pollRoom beyond webexCfg token botId botEmail botName pollStartTime room)
         store1
       = (store1, t2, Returned tt)
    /\ Trace.stores t2 = []
    /\ Trace.dispatches t2 = [].
Proof.
  intros Hlist Hsorted Hpos.
  destruct (run_pollRoom_listed room items store Hlist) as (t1 & Hrun1 & _ & _).
  set (store1 := foldl _ store _) in Hrun1.
  destruct (run_pollRoom_listed room items store1 Hlist) as (t2 & Hrun2 & Hs2 & Hd2).
  assert (Hold : List.filter
                   (fun m => negb (Spec.duplicate
                                     (Monitor.lastTimeOr pollStartTime (store1 !! room)) m))
                   (rev items) = []).
  { apply filter_none. intros m Hm. apply in_rev in Hm.
    apply negb_false_iff, Z.leb_le.
    now apply (watermark_covers_listing pollStartTime room items store Hpos Hsorted). }
  rewrite Hold in Hrun2, Hs2. cbn [foldl map] in Hrun2, Hs2.
  exists store1, t1, t2. split; [exact Hrun1|]. split; [exact Hrun2|].
  split; [exact Hs2|].
  rewrite filter_none in Hd2.
  - cbn [map] in Hd2. now destruct (Trace.dispatches t2).
  - intros m Hm. unfold Spec.dispatched.
    assert (Hdup : negb (Spec.duplicate
                           (Monitor.lastTimeOr pollStartTime (store1 !! room)) m) = false).
    { apply negb_false_iff, Z.leb_le. apply in_rev in Hm.
      now apply (watermark_covers_listing pollStartTime room items store Hpos Hsorted). }
    now rewrite Hdup.
Qed.

End Repoll.

Lemma repoll_is_idle_witness :
  exists store1 t1 t2,
    Async.run (Sample.room_api Sample.three_messages)
      (Monitor.pollRoom Sample.no_regexp (Sample.config "polling") "test-token"
         "bot-id-123" "testbot@webex.bot" "Test Bot" 0 "room-123") ∅
    = (store1, t1, Async.Returned tt)
    /\ Async.run (Sample.room_api Sample.three_messages)
         (Monitor.pollRoom Sample.no_regexp (Sample.config "polling") "test-token"
            "bot-id-123" "testbot@webex.bot" "Test Bot" 0 "room-123") store1
       = (store1, t2, Async.Returned tt)
    /\ Trace.stores t2 = []
    /\ Trace.dispatches t2 = [].
Proof.
  apply (repoll_is_idle Sample.no_regexp (Sample.config "polling")
           "test-token" "bot-id-123" "testbot@webex.bot" "Test Bot" 0
           (Sample.room_api Sample.three_messages)
           ltac:(intros ctx m; discriminate)
           ltac:(intros text; discriminate)
           "room-123" Sample.three_messages ∅).
  - reflexivity.
  - repeat constructor; cbn; lia.
  - reflexivity.
Defined.

Section TicksFromStart.
Import Async.

Variable beyond : string -> string -> option string.
Variable webexCfg : Config.WebexConfig.
Variables (token botId botEmail botName : string) (pollStartTime : Z).

Lemma ticks_in_turn_app (tick : Proc unit) (envs more : list (Request -> Response))
    (store : gmap string Z) :
  Spec.ticks_in_turn tick (envs ++ more) store
  = Spec.ticks_in_turn tick more (Spec.ticks_in_turn tick envs store).
Proof.
  revert store. induction envs as [|env envs IH]; intros store; [reflexivity|].
  cbn [app Spec.ticks_in_turn]. apply IH.
Qed.

(** X11.  Ticks that run one after the other, from the empty map of a
    monitor started at [pollStartTime] after the epoch, each against any
    remote API and dispatcher: at every moment the watermark of every
    room is at or above the start time, so a message created at or
    before the start is a duplicate in every visit; the watermark after
    more ticks is at or above the watermark after fewer; and no entry is
    ever zero, the one stored value that
    [lastMessageTimeByRoom.get(room.id) || pollStartTime] would discard. *)
Theorem ticks_in_turn_from_start (envs more : list (Request -> Response))
    (room : string) :
  0 <= pollStartTime ->
  let tick :=
    Monitor.pollMessages beyond webexCfg token botId botEmail botName pollStartTime in
  let sooner := Spec.ticks_in_turn tick envs ∅ in
  let later := Spec.ticks_in_turn tick (envs ++ more) ∅ in
  pollStartTime <= Spec.watermark pollStartTime sooner room
  /\ Spec.watermark pollStartTime sooner room <= Spec.watermark pollStartTime later room
  /\ sooner !! room <> Some 0.
Proof.
  intros Hstart tick sooner later.
  assert (Hempty : Spec.positive_times (∅ : gmap string Z)).
  { intros r t Hr. rewrite lookup_empty in Hr. discriminate. }
  destruct (ticks_in_turn_never_lower beyond webexCfg token botId botEmail botName
              pollStartTime Hstart envs ∅ Hempty) as [Hpos Hle].
  destruct (ticks_in_turn_never_lower beyond webexCfg token botId botEmail botName
              pollStartTime Hstart more _ Hpos) as [_ Hle'].
  split; [|split].
  - specialize (Hle room). unfold Spec.watermark at 1 in Hle.
    rewrite lookup_empty in Hle. exact Hle.
  - unfold later. rewrite ticks_in_turn_app. apply Hle'.
  - intros H0. specialize (Hpos _ _ H0). lia.
Qed.

End TicksFromStart.

Lemma ticks_in_turn_from_start_witness :
  let tick := Sample.tick 100 in
  let sooner :=
    Spec.ticks_in_turn tick [Sample.room_api [Sample.direct_message "msg-105" 105]] ∅ in
  let later :=
    Spec.ticks_in_turn tick
      ([Sample.room_api [Sample.direct_message "msg-105" 105]]
       ++ [Sample.room_api [Sample.direct_message "msg-110" 110;
                            Sample.direct_message "msg-105" 105]]) ∅ in
  100 <= Spec.watermark 100 sooner "room-123"
  /\ Spec.watermark 100 sooner "room-123" <= Spec.watermark 100 later "room-123"
  /\ sooner !! "room-123" <> Some 0.
Proof.
  apply (ticks_in_turn_from_start Sample.no_regexp (Sample.config "polling")
           "test-token" "bot-id-123" "testbot@webex.bot" "Test Bot" 100
           [Sample.room_api [Sample.direct_message "msg-105" 105]]
           [Sample.room_api [Sample.direct_message "msg-110" 110;
                             Sample.direct_message "msg-105" 105]]
           "room-123").
  lia.
Defined.

(** ** Startup and shutdown under any environment *)

Section Startup.
Import Async.

Variable env : Request -> Response.

Lemma run_registerWebhook_shape (token webhookUrl : string) (store : gmap string Z) :
  exists t wid,
    run env (Monitor.registerWebhook token webhookUrl) store = (store, t, Returned wid)
    /\ Forall Words.registration_event t
    /\ forall w, wid = Some w -> Words.obtained env token webhookUrl w.
Proof.
  unfold Monitor.registerWebhook, Words.obtained.
  rewrite run_catch, run_bind, run_await.
  destruct (env (Call token ListWebhooks)) as [m| | | | | |items|] eqn:Hlist;
    try (do 2 eexists; split; [reflexivity|]; split;
         [repeat constructor | intros ? [=]]; fail).
  destruct (List.find (Monitor.matches webhookUrl) items) as [existing|] eqn:Hfind.
  { do 2 eexists. split; [reflexivity|]. split; [repeat constructor|].
    intros w [= <-]. exists items. split; [reflexivity|]. left. now exists existing. }
  cbn [app]. rewrite run_bind, run_await.
  destruct (env (Call token (CreateWebhook _ _ _ _))) as [m| | | | | | |created] eqn:Hcreate;
    cbn [app]; do 2 eexists; (split; [reflexivity|]);
    (split; [repeat constructor|]);
    cbn; intros ? [=]; subst; exists items; (split; [reflexivity|]); right;
    (split; [exact Hfind | reflexivity]).
Qed.

Lemma run_startWebhook_shape (mode token : string) (webhookPort : Z) (webhookUrl : string)
    (store : gmap string Z) :
  exists t r,
    run env (Monitor.startWebhook mode token webhookPort webhookUrl) store
    = (store, Requested (Listen webhookPort) :: t, Returned r)
    /\ Forall Words.registration_event t
    /\ match r with
       | None =>
           String.eqb mode "webhook" = true
           /\ exists m, env (Listen webhookPort) = Rejected m
       | Some (server, wid) =>
           (server = true <-> forall m, env (Listen webhookPort) <> Rejected m)
           /\ (server = false -> wid = None /\ String.eqb mode "webhook" = false)
           /\ forall w, wid = Some w -> Words.obtained env token webhookUrl w
       end.
Proof.
  unfold Monitor.startWebhook. rewrite run_catch, run_bind, run_await.
  destruct (run_registerWebhook_shape token webhookUrl store) as (t & wid & Hrun & Ht & Hw).
  destruct (env (Listen webhookPort)) as [m| | | | | | |] eqn:Hlisten.
  { cbn [app]. destruct (String.eqb mode "webhook") eqn:Hmode.
    - do 2 eexists. split; [reflexivity|]. split; [repeat constructor|].
      split; [reflexivity | now exists m].
    - do 2 eexists. split; [reflexivity|]. split; [repeat constructor|].
      split; [split; [discriminate | intros H; now contradiction (H m)]|].
      split; [now intros _ | intros ? [=]]. }
  all: rewrite run_bind, Hrun; cbn [app run mret Proc_ret];
    do 2 eexists; (split; [rewrite app_nil_r; reflexivity|]);
    (split; [exact Ht|]);
    (split; [split; [intros _ ?; discriminate | reflexivity]|]);
    (split; [discriminate | exact Hw]).
Qed.

Lemma run_probeWebex_shape (envToken : option string) (cfg : option Config.WebexConfig)
    (store : gmap string Z) :
  exists t probe,
    run env (Probe.probeWebex envToken cfg) store = (store, t, Returned probe)
    /\ Forall (fun e => exists tok, e = Requested (Call tok GetMe)) t
    /\ forall b, (if Probe.ok probe then Probe.botInfo probe else None) = Some b ->
         exists tok, Probe.token envToken cfg = Some tok
                     /\ Js.truthy tok = true
                     /\ (forall m, env (Call tok GetMe) <> Rejected m)
                     /\ Probe.displayName b = displayName_of (env (Call tok GetMe)).
Proof.
  unfold Probe.probeWebex. rewrite run_catch.
  destruct (Probe.token envToken cfg) as [tok|];
    [destruct (Js.truthy tok) eqn:Htok|];
    try (do 2 eexists; split; [reflexivity|]; split; [constructor | intros b [=]]; fail).
  rewrite run_bind, run_await.
  destruct (env (Call tok GetMe)) as [m| |p| | | | |] eqn:Hme;
    do 2 eexists; (split; [reflexivity|]);
    (split; [once (repeat constructor); now exists tok|]); cbn; intros b [=]; subst b;
    exists tok; rewrite Hme; (split; [reflexivity|]); (split; [exact Htok|]);
    (split; [discriminate | reflexivity]).
Qed.

Lemma registration_is_startup (t : list Event) :
  Forall Words.registration_event t -> Forall Words.startup_event t.
Proof.
  intros H. eapply Forall_impl; [exact H|].
  intros [l m|? ?|[tok []|?|?|]|? ?| |?|]; cbn; tauto.
Qed.

Lemma probe_is_startup (t : list Event) :
  Forall (fun e => exists tok, e = Requested (Call tok GetMe)) t ->
  Forall Words.startup_event t.
Proof. intros H. eapply Forall_impl; [exact H|]. intros e (tok & ->). exact I. Qed.


Ltac in_trace :=
  repeat match goal with
         | H : In _ (_ ++ _) |- _ => apply in_app_iff in H as [H|H]
         | H : In _ (_ :: _) |- _ => destruct H as [H|H]
         | H : In _ [] |- _ => destruct H
         | H : In _ ?t, Hgetme : forall e, In e ?t -> exists tok, e = _ |- _ =>
             apply Hgetme in H as (? & H)
         | H : In _ ?t, Hreg : forall e, In e ?t -> Words.registration_event e |- _ =>
             apply Hreg in H; destruct H
         | H : _ = _ :> Event |- _ => discriminate H
         end.

(** The startup, in full: what it returns, what it leaves in the trace,
    and how the two go together. *)
Lemma run_startup_shape (envToken : option string) (cfg : option Config.WebexConfig)
    (store : gmap string Z) :
  exists t r,
    run env (Monitor.monitorWebexProvider envToken cfg) store = (store, t, Returned r)
    /\ Forall Words.startup_event t
    /\ (cfg ≫= Config.enabled <> Some true
        \/ Token.resolveWebexCredentials envToken cfg = None ->
        Trace.requests t = [] /\ r = Monitor.Inert "webhook")
    /\ (forall mode tok wid server polling,
          r = Monitor.Started mode tok wid server polling ->
          cfg ≫= Config.enabled = Some true
          /\ Token.resolveWebexCredentials envToken cfg = Some tok
          /\ mode = Js.or_else (cfg ≫= Config.mode) "webhook"
          /\ polling = (String.eqb mode "polling" || String.eqb mode "both")
          /\ (server = true -> String.eqb mode "webhook" || String.eqb mode "both" = true)
          /\ (String.eqb mode "webhook" = true -> server = true)
          /\ (is_Some wid -> server = true)
          /\ (exists probeToken,
                Probe.token envToken cfg = Some probeToken
                /\ forall m, env (Call probeToken GetMe) <> Rejected m)
          /\ (forall w, wid = Some w ->
                exists webexCfg,
                  cfg = Some webexCfg
                  /\ Words.obtained env tok (Words.webhookUrl_of webexCfg) w))
    /\ (forall port, In (Requested (Listen port)) t ->
          (Words.server_of r = true <-> forall m, env (Listen port) <> Rejected m))
    /\ (Words.server_of r = true -> exists port, In (Requested (Listen port)) t)
    /\ (Words.polling_of r = true <-> exists ms, In (IntervalSet ms) t).
Proof.
  unfold Monitor.monitorWebexProvider.
  destruct cfg as [webexCfg|].
  2:{ do 2 eexists. split; [reflexivity|]. split; [repeat constructor|].
      split; [now intros _|]. split; [intros ? ? ? ? ? [=]|].
      split; [intros port [[=]|[]]|]. split; [discriminate|].
      split; [discriminate | intros (ms & [[=]|[]])]. }
  change (Some webexCfg ≫= Config.enabled) with (Config.enabled webexCfg).
  change (Some webexCfg ≫= Config.mode) with (Config.mode webexCfg).
  destruct (Config.enabled webexCfg) as [[|]|] eqn:Hen; cbn [default negb id].
  2, 3: do 2 eexists; (split; [reflexivity|]); (split; [repeat constructor|]);
    (split; [now intros _|]); (split; [intros ? ? ? ? ? [=]|]);
    (split; [intros port [[=]|[]]|]); (split; [discriminate|]);
    (split; [discriminate | intros (ms & [[=]|[]])]).
  destruct (Token.resolveWebexCredentials envToken (Some webexCfg)) as [botToken|] eqn:Hcred.
  2:{ do 2 eexists. split; [reflexivity|]. split; [repeat constructor|].
      split; [now intros _|]. split; [intros ? ? ? ? ? [=]|].
      split; [intros port [[=]|[]]|]. split; [discriminate|].
      split; [discriminate | intros (ms & [[=]|[]])]. }
  rewrite run_bind.
  destruct (run_probeWebex_shape envToken (Some webexCfg) store)
    as (tp & probe & -> & Htp & Hprobe).
  pose proof (probe_is_startup _ Htp) as Htp'.
  assert (HnoListen : forall e, In e tp -> exists tok, e = Requested (Call tok GetMe)).
  { now apply List.Forall_forall. }
  destruct (if Probe.ok probe then Probe.botInfo probe else None) as [botInfo|] eqn:Hok.
  2:{ cbn [run log emit]. do 2 eexists. split; [reflexivity|].
      split; [apply Forall_app; split; [exact Htp' | repeat constructor]|].
      split; [intros [H|[=]]; congruence|]. split; [intros ? ? ? ? ? [=]|].
      split.
      { intros port Hin. apply in_app_iff in Hin as [Hin|[[=]|[]]].
        apply HnoListen in Hin as (tok & [=]). }
      split; [discriminate|]. split; [discriminate|].
      intros (ms & Hin). apply in_app_iff in Hin as [Hin|[[=]|[]]].
      apply HnoListen in Hin as (tok & [=]). }
  destruct (Hprobe botInfo eq_refl) as (probeToken & Hptok & _ & Hme & _).
  assert (Hfound : exists probeToken,
             Probe.token envToken (Some webexCfg) = Some probeToken
             /\ forall m, env (Call probeToken GetMe) <> Rejected m).
  { now exists probeToken. }
  set (mode := Js.or_else (Config.mode webexCfg) "webhook").
  set (webhookPort := default 3979 _).
  set (webhookUrl := Js.or_else _ _).
  set (ms := default 5 _ * 1000).
  rewrite run_log, run_bind.
  destruct (String.eqb mode "webhook" || String.eqb mode "both") eqn:Hwebhook.
  - destruct (run_startWebhook_shape mode botToken webhookPort webhookUrl store)
      as (tw & started & -> & Htw & Hstarted).
    pose proof (registration_is_startup _ Htw) as Htw'.
    assert (Hreg : forall e, In e tw -> Words.registration_event e).
    { now apply List.Forall_forall. }
    destruct started as [[server wid]|].
    + destruct Hstarted as (Hserver & Hoff & Hwid).
      destruct (String.eqb mode "polling" || String.eqb mode "both") eqn:Hpolling;
        cbn [run log emit app mret Proc_ret];
        do 2 eexists; (split; [reflexivity|]);
        (split; [once (repeat first [apply Forall_app; split | exact Htp' | exact Htw'
                                    | constructor; [exact I|] | constructor])|]);
        (split; [intros [H|[=]]; congruence|]);
        (split;
         [intros ? ? ? ? ? [= <- <- <- <- <-];
          (split; [reflexivity|]); (split; [reflexivity|]); (split; [reflexivity|]);
          (split; [symmetry; exact Hpolling|]); (split; [intros _; exact Hwebhook|]);
          (split; [intros Hm; destruct server; [reflexivity|];
                   destruct (Hoff eq_refl) as [_ Hne]; congruence|]);
          (split; [intros [w ->]; destruct server; [reflexivity|];
                   destruct (Hoff eq_refl) as [[=] _]|]);
          (split; [exact Hfound|]);
          intros w Hw; exists webexCfg; (split; [reflexivity|]); exact (Hwid w Hw)|]);
        (split; [intros port Hin; cbn [Words.server_of]; in_trace;
                 match goal with H : Requested _ = Requested _ |- _ =>
                   injection H as <- end; exact Hserver|]);
        (split; [intros _; exists webhookPort; apply in_app_iff; right; right; now left|]).
      * split; [intros _|reflexivity].
        exists ms. apply in_app_iff. right. right. right.
        apply in_app_iff. right. right. right. now left.
      * split; [discriminate|]. intros (ms' & Hin). in_trace.
    + destruct Hstarted as (Hmode & m & Hrej).
      cbn [run log emit app mret Proc_ret].
      do 2 eexists. split; [reflexivity|].
      split; [repeat first [apply Forall_app; split | exact Htp' | exact Htw'
                           | constructor; [exact I|] | constructor]|].
      split; [intros [H|[=]]; congruence|].
      split; [intros ? ? ? ? ? [=]|].
      split.
      { intros port Hin. cbn [Words.server_of]. in_trace.
        match goal with H : Requested _ = Requested _ |- _ => injection H as <- end.
        split; [discriminate | intros H; now contradiction (H m)]. }
      split; [discriminate|]. split; [discriminate|].
      intros (ms' & Hin). in_trace.
  - apply orb_false_elim in Hwebhook as [Hnw Hnb].
    rewrite Hnb, orb_false_r.
    destruct (String.eqb mode "polling") eqn:Hpolling;
      cbn [run log emit app mret Proc_ret];
      do 2 eexists; (split; [reflexivity|]);
      (split; [once (repeat first [apply Forall_app; split | exact Htp'
                                  | constructor; [exact I|] | constructor])|]);
      (split; [intros [H|[=]]; congruence|]);
      (split;
       [intros ? ? ? ? ? [= <- <- <- <- <-];
        rewrite ?Hnw, ?Hnb, ?Hpolling;
        (split; [reflexivity|]); (split; [reflexivity|]); (split; [reflexivity|]);
        (split; [reflexivity|]); (split; [discriminate|]);
        (split; [discriminate|]); (split; [intros [? [=]]|]);
        (split; [exact Hfound | intros ? [=]])|]);
      (split; [intros port Hin; in_trace|]);
      (split; [discriminate|]).
    + split; [intros _|reflexivity].
      exists ms. apply in_app_iff. right. right. right. right. now left.
    + split; [discriminate|]. intros (ms' & Hin). in_trace.
Qed.

Lemma run_shutdown_shape (r : Monitor.MonitorResult) (store : gmap string Z) :
  exists t o,
    run env (Monitor.shutdown r) store = (store, t, o)
    /\ Forall Words.shutdown_event t
    /\ (In (Requested CloseServer) t <-> Words.server_of r = true)
    /\ (In IntervalCleared t <-> Words.polling_of r = true)
    /\ (forall tok w,
          In (Requested (Call tok (DeleteWebhook w))) t
          <-> exists mode server polling,
                r = Monitor.Started mode tok (Some w) server polling /\ w <> "")
    /\ ((forall m, env CloseServer <> Rejected m) -> o = Returned tt).
Proof.
  destruct r as [mode|mode tok wid server polling].
  { do 2 eexists. split; [reflexivity|]. split; [constructor|].
    split; [split; [intros [] | discriminate]|].
    split; [split; [intros [] | discriminate]|].
    split; [|reflexivity]. intros tok w. split; [intros [] | intros (? & ? & ? & [=] & _)]. }
  unfold Monitor.shutdown. rewrite run_log, run_seq.
  assert (Hclear : exists t1,
             run env (if polling
                      then emit IntervalCleared ;; log Info "polling stopped"
                      else mret tt) store = (store, t1, Returned tt)
             /\ Forall Words.shutdown_event t1
             /\ (In IntervalCleared t1 <-> polling = true)
             /\ (forall e, In e t1 -> e = IntervalCleared \/ exists l m, e = Log l m)).
  { destruct polling; eexists; (split; [reflexivity|]);
      (split; [repeat constructor|]).
    - split; [split; [reflexivity | intros _; now left]|].
      intros e [<-|[<-|[]]]; eauto.
    - split; [split; [intros [] | discriminate]|]. intros e []. }
  destruct Hclear as (t1 & -> & Ht1 & Hcleared & Hkinds1).
  rewrite run_seq.
  assert (Hdelete : exists t2,
             run env (match wid with
                      | Some wid0 =>
                          if Js.truthy wid0 then
                            catch
                              (await (Call tok (DeleteWebhook wid0)) ;;
                               log Info ("deleted webhook: " +:+ wid0))
                              (fun message =>
                                 log Warn ("failed to delete webhook: " +:+ message))
                          else mret tt
                      | None => mret tt
                      end) store = (store, t2, Returned tt)
             /\ Forall Words.shutdown_event t2
             /\ (forall e, In e t2 ->
                   (exists l m, e = Log l m)
                   \/ exists w, wid = Some w /\ w <> ""
                                /\ e = Requested (Call tok (DeleteWebhook w)))
             /\ (forall w, wid = Some w -> w <> "" ->
                   In (Requested (Call tok (DeleteWebhook w))) t2)).
  { destruct wid as [w|].
    2:{ eexists. split; [reflexivity|]. split; [constructor|].
        split; [intros e [] | intros w [=]]. }
    destruct (Js.truthy w) eqn:Hw.
    2:{ eexists. split; [reflexivity|]. split; [constructor|].
        split; [intros e []|]. intros w' [= <-] Hne.
        apply truthy_false_iff in Hw. contradiction. }
    apply truthy_iff in Hw.
    rewrite run_catch, run_bind, run_await.
    destruct (env (Call tok (DeleteWebhook w)));
      cbn [app run log emit]; eexists; (split; [reflexivity|]);
      (split; [repeat constructor|]);
      (split; [intros e [<-|[<-|[]]]; eauto | intros w' [= <-] _; now left]). }
  destruct Hdelete as (t2 & -> & Ht2 & Hkinds2 & Hdeleted).
  assert (Hclose : exists t3 o,
             run env (if server
                      then await CloseServer ;; log Info "webhook server stopped"
                      else mret tt) store = (store, t3, o)
             /\ Forall Words.shutdown_event t3
             /\ (In (Requested CloseServer) t3 <-> server = true)
             /\ (forall e, In e t3 -> e = Requested CloseServer \/ exists l m, e = Log l m)
             /\ ((forall m, env CloseServer <> Rejected m) -> o = Returned tt)).
  { destruct server.
    2:{ do 2 eexists. split; [reflexivity|]. split; [constructor|].
        split; [split; [intros [] | discriminate]|].
        split; [intros e [] | reflexivity]. }
    rewrite run_bind, run_await.
    destruct (env CloseServer) as [m| | | | | | |] eqn:Hc;
      cbn [app run log emit]; do 2 eexists; (split; [reflexivity|]);
      (split; [repeat constructor|]);
      (split; [split; [reflexivity | intros _; now left]|]);
      (split; [intros e Hin; repeat (destruct Hin as [<-|Hin]; [eauto|]); destruct Hin|]);
      try reflexivity.
    intros H. now contradiction (H m). }
  destruct Hclose as (t3 & o & -> & Ht3 & Hclosed & Hkinds3 & Hout).
  do 2 eexists. split; [reflexivity|].
  split.
  { constructor; [exact I|]. apply Forall_app. split; [exact Ht1|].
    apply Forall_app. split; [exact Ht2 | exact Ht3]. }
  cbn [Words.server_of Words.polling_of].
  split.
  { rewrite <- Hclosed. split.
    - intros [[=]|Hin]. apply in_app_iff in Hin as [Hin|Hin].
      + apply Hkinds1 in Hin as [[=]|(? & ? & [=])].
      + apply in_app_iff in Hin as [Hin|Hin]; [|exact Hin].
        apply Hkinds2 in Hin as [(? & ? & [=])|(? & _ & _ & [=])].
    - intros Hin. right. apply in_app_iff. right. apply in_app_iff. now right. }
  split.
  { rewrite <- Hcleared. split.
    - intros [[=]|Hin]. apply in_app_iff in Hin as [Hin|Hin]; [exact Hin|].
      apply in_app_iff in Hin as [Hin|Hin].
      + apply Hkinds2 in Hin as [(? & ? & [=])|(? & _ & _ & [=])].
      + apply Hkinds3 in Hin as [[=]|(? & ? & [=])].
    - intros Hin. right. apply in_app_iff. now left. }
  split; [|exact Hout].
  intros tok' w. split.
  - intros [[=]|Hin]. apply in_app_iff in Hin as [Hin|Hin].
    { apply Hkinds1 in Hin as [[=]|(? & ? & [=])]. }
    apply in_app_iff in Hin as [Hin|Hin].
    + apply Hkinds2 in Hin as [(? & ? & [=])|(w' & Hwid & Hne & Heq)].
      injection Heq as -> ->. subst wid. now exists mode, server, polling.
    + apply Hkinds3 in Hin as [[=]|(? & ? & [=])].
  - intros (? & ? & ? & Heq & Hne). injection Heq as _ <- Hwid _ _.
    right. apply in_app_iff. right. apply in_app_iff. left. now apply Hdeleted.
Qed.


(** X13.  The shutdown releases what the startup took, for every
    configuration and remote API, when the shutdown that the startup
    returned is run after it: the server is closed exactly when its start
    was not rejected, and never without a start; the interval is cleared
    exactly when it was set; a subscription is deleted only with the
    resolved token and only if its id is not empty and the remote API
    gave it at startup for the webhook URL of the configuration
    ([webhook.url], or else the placeholder host with the configured
    path): as the id of the first subscription it listed with this
    target URL and the resource [messages], or, when it listed none, as
    the [id] of its answer to the creation of one for this URL; and
    every subscription id the started monitor kept, if not empty, is
    deleted, a reused one as well as a created one.  The polling state
    is left alone. *)
Theorem shutdown_releases_startup (envToken : option string)
    (cfg : option Config.WebexConfig) (store : gmap string Z) :
  let session := Monitor.monitorWebexProvider envToken cfg ≫= Monitor.shutdown in
  let t := (run env session store).1.2 in
  (run env session store).1.1 = store
  /\ (forall port, In (Requested (Listen port)) t ->
        (In (Requested CloseServer) t <-> forall m, env (Listen port) <> Rejected m))
  /\ (In (Requested CloseServer) t -> exists port, In (Requested (Listen port)) t)
  /\ (In IntervalCleared t <-> exists ms, In (IntervalSet ms) t)
  /\ (forall tok w,
        In (Requested (Call tok (DeleteWebhook w))) t ->
        w <> "" /\ Token.resolveWebexCredentials envToken cfg = Some tok
        /\ exists webexCfg,
             cfg = Some webexCfg
             /\ Words.obtained env tok (Words.webhookUrl_of webexCfg) w)
  /\ (forall mode tok w server polling,
        (run env (Monitor.monitorWebexProvider envToken cfg) store).2
        = Returned (Monitor.Started mode tok (Some w) server polling) ->
        w <> "" -> In (Requested (Call tok (DeleteWebhook w))) t).
Proof.
  intros session t. subst t session. rewrite run_bind.
  destruct (run_startup_shape envToken cfg store)
    as (t1 & r & -> & Hevents & _ & Hstarted & Hlisten & Hserver & Hpolling).
  destruct (run_shutdown_shape r store)
    as (t2 & o & -> & Hevents2 & Hclose & Hclear & Hdelete & _).
  cbn [fst snd].
  assert (H1 : forall e, In e t1 -> Words.startup_event e) by now apply List.Forall_forall.
  assert (H2 : forall e, In e t2 -> Words.shutdown_event e) by now apply List.Forall_forall.
  split; [reflexivity|]. split.
  { intros port Hin. apply in_app_iff in Hin as [Hin|Hin]; [|now apply H2 in Hin].
    rewrite <- (Hlisten port Hin), <- Hclose. rewrite in_app_iff. split; [|tauto].
    intros [Hc|Hc]; [now apply H1 in Hc | exact Hc]. }
  split.
  { intros Hin. apply in_app_iff in Hin as [Hin|Hin]; [now apply H1 in Hin|].
    apply Hclose, Hserver in Hin as (port & Hin). exists port. apply in_app_iff. now left. }
  split.
  { rewrite in_app_iff. split.
    - intros [Hin|Hin]; [now apply H1 in Hin|].
      apply Hclear, Hpolling in Hin as (ms & Hin). exists ms. apply in_app_iff. now left.
    - intros (ms & Hin). apply in_app_iff in Hin as [Hin|Hin]; [|now apply H2 in Hin].
      right. apply Hclear, Hpolling. now exists ms. }
  split.
  { intros tok w Hin. apply in_app_iff in Hin as [Hin|Hin]; [now apply H1 in Hin|].
    apply Hdelete in Hin as (mode & server & polling & Hr & Hne).
    destruct (Hstarted mode tok (Some w) server polling Hr)
      as (_ & Hcred & _ & _ & _ & _ & _ & _ & Hwid).
    split; [exact Hne|]. split; [exact Hcred|]. now apply Hwid. }
  intros mode tok w server polling [= ->] Hne.
  apply in_app_iff. right. apply Hdelete. now exists mode, server, polling.
Qed.

End Startup.

(** ** The channel plugin: targets, allow list, policies, configuration,
    directory and outbound *)

Lemma ends_clean_trimEnd (s : string) : Words.ends_clean s = true -> Js.trimEnd s = s.
Proof.
  induction s as [|c s IH]; [reflexivity|].
  destruct s as [|d s'].
  - cbn. now intros ->%negb_true_iff.
  - intros H. change (Words.ends_clean (String d s') = true) in H.
    change (Js.trimEnd (String c (String d s')))
      with (match Js.trimEnd (String d s') with
            | EmptyString => if Js.is_space c then EmptyString else String c EmptyString
            | t => String c t
            end).
    rewrite (IH H). reflexivity.
Qed.

Lemma no_outer_space_trim (s : string) : Words.no_outer_space s = true -> Js.trim s = s.
Proof.
  destruct s as [|c t]; [reflexivity|].
  cbn [Words.no_outer_space]. intros [Hc Hend]%andb_prop.
  apply negb_true_iff in Hc. unfold Js.trim. cbn [Js.trimStart]. rewrite Hc.
  now apply ends_clean_trimEnd.
Qed.

Lemma trim_idempotent (s : string) : Js.trim (Js.trim s) = Js.trim s.
Proof. apply no_outer_space_trim, trim_no_outer_space. Qed.

(** X14.  [normalizeWebexTarget] and [resolveTargets].  A target that
    is normalized is never empty and has no white space at either end,
    and only an input that is not blank gives one; trimming the input
    first changes nothing.  [resolveTargets] keeps the inputs and their
    order, and for each input its entry carries exactly what
    [normalizeWebexTarget] gives for that input: it is resolved exactly
    when there is a normal form, it has no note exactly when it is
    resolved, and its note is [empty input] exactly when the input is
    blank. *)
Theorem target_resolution (raw : string) (inputs : list string) :
  (forall id, Channel.normalizeWebexTarget raw = Some id ->
     id <> "" /\ Words.no_outer_space id = true /\ Js.trim raw <> "")
  /\ Channel.normalizeWebexTarget (Js.trim raw) = Channel.normalizeWebexTarget raw
  /\ Channel.id (Channel.resolveTarget raw) = Channel.normalizeWebexTarget raw
  /\ (Channel.resolved (Channel.resolveTarget raw) = true
      <-> is_Some (Channel.normalizeWebexTarget raw))
  /\ (Channel.note (Channel.resolveTarget raw) = Some "empty input" <-> Js.trim raw = "")
  /\ (Channel.note (Channel.resolveTarget raw) = None
      <-> Channel.resolved (Channel.resolveTarget raw) = true)
  /\ map Channel.input (Channel.resolveTargets inputs) = inputs.
Proof.
  assert (Hres : Channel.resolveTarget raw
                 = match Channel.normalizeWebexTarget raw with
                   | Some id =>
                       {| Channel.input := raw; Channel.resolved := true;
                          Channel.id := Some id; Channel.note := None |}
                   | None =>
                       {| Channel.input := raw; Channel.resolved := false;
                          Channel.id := None;
                          Channel.note :=
                            Some (if Js.truthy (Js.trim raw) then "invalid target format"
                                  else "empty input") |}
                   end).
  { unfold Channel.resolveTarget, Channel.normalizeWebexTarget.
    rewrite trim_idempotent.
    destruct (Js.truthy (Js.trim raw)); cbn [negb]; [|reflexivity].
    now destruct (Js.truthy (Js.trim _)). }
  assert (Hblank : Js.trim raw = "" -> Channel.normalizeWebexTarget raw = None).
  { intros H. unfold Channel.normalizeWebexTarget. now rewrite H. }
  split.
  { intros id. unfold Channel.normalizeWebexTarget.
    destruct (Js.truthy (Js.trim raw)) eqn:Hraw; cbn [negb]; [|discriminate].
    set (inner := JsText.replace_start_first _ _ _).
    destruct (Js.truthy (Js.trim inner)) eqn:Hid; [|discriminate].
    intros Heq. injection Heq as <-. split; [now apply truthy_iff|].
    split; [apply trim_no_outer_space | now apply truthy_iff]. }
  split.
  { unfold Channel.normalizeWebexTarget. now rewrite trim_idempotent. }
  rewrite Hres.
  split; [now destruct (Channel.normalizeWebexTarget raw)|].
  split.
  { destruct (Channel.normalizeWebexTarget raw); cbn; split; eauto; try discriminate.
    intros [? [=]]. }
  split.
  { destruct (Channel.normalizeWebexTarget raw) as [id|] eqn:Hn; cbn [Channel.note].
    - split; [discriminate | intros H; apply Hblank in H; discriminate].
    - destruct (Js.truthy (Js.trim raw)) eqn:Hraw.
      + apply truthy_iff in Hraw. split; [discriminate | contradiction].
      + apply truthy_false_iff in Hraw. split; [now intros _ | reflexivity]. }
  split.
  { destruct (Channel.normalizeWebexTarget raw); cbn; split; eauto; discriminate. }
  unfold Channel.resolveTargets. rewrite map_map.
  induction inputs as [|inp inputs IH]; [reflexivity|].
  cbn [map]. rewrite IH. f_equal.
  unfold Channel.resolveTarget. destruct (negb _); [reflexivity|].
  now destruct (Channel.normalizeWebexTarget (Js.trim inp)).
Qed.

Lemma is_space_upcase (c : ascii) : Js.is_space (Js.upcase c) = Js.is_space c.
Proof. destruct c as [[] [] [] [] [] [] [] []]; reflexivity. Qed.

Lemma eq_ci_space (x y : ascii) : Js.eq_ci x y = true -> Js.is_space y = Js.is_space x.
Proof.
  unfold Js.eq_ci. intros H%Ascii.eqb_eq.
  now rewrite <- (is_space_upcase y), <- H, is_space_upcase.
Qed.

Lemma eq_ci_trans_false (x y z : ascii) :
  Js.eq_ci x y = false -> Js.eq_ci y z = true -> Js.eq_ci x z = false.
Proof.
  unfold Js.eq_ci. intros Hxy Hyz%Ascii.eqb_eq. now rewrite <- Hyz.
Qed.

Lemma ends_clean_app (p rest : string) :
  rest <> "" -> Words.ends_clean (p +:+ rest) = Words.ends_clean rest.
Proof.
  intros Hrest. induction p as [|c p IH]; [reflexivity|].
  change (String c p +:+ rest) with (String c (p +:+ rest)).
  destruct (p +:+ rest) as [|d s] eqn:E.
  - destruct p; [cbn in E; contradiction | discriminate].
  - exact IH.
Qed.

Lemma no_outer_space_app (c : ascii) (p rest : string) :
  Js.is_space c = false -> rest <> "" -> Words.ends_clean rest = true ->
  Words.no_outer_space (String c p +:+ rest) = true.
Proof.
  intros Hc Hrest Hclean.
  change (String c p +:+ rest) with (String c (p +:+ rest)).
  cbn [Words.no_outer_space]. rewrite Hc. cbn [negb andb].
  change (String c (p +:+ rest)) with (String c p +:+ rest).
  now rewrite ends_clean_app.
Qed.

Lemma no_outer_space_ends (s : string) :
  Words.no_outer_space s = true -> Words.ends_clean s = true.
Proof. destruct s; [reflexivity|]. cbn. now intros [_ H]%andb_prop. Qed.

(** A prefix whose first character differs, up to case, from the first
    of the literal that [q] spells is not at the start of [q +:+ rest]. *)
Lemma strip_other_head (x y : ascii) (p' q' q rest : string) :
  Js.eq_ci x y = false ->
  Spec.same_ci (String y q') q = true ->
  Spec.strip_prefix_ci (String x p') (q +:+ rest) = None.
Proof.
  intros Hxy Hq. destruct q as [|z q]; [discriminate|].
  cbn [Spec.same_ci] in Hq. apply andb_prop in Hq as [Hyz _].
  change (String z q +:+ rest) with (String z (q +:+ rest)).
  cbn [Spec.strip_prefix_ci]. now rewrite (eq_ci_trans_false x y z Hxy Hyz).
Qed.

Lemma same_ci_head_clean (y : ascii) (q' q rest : string) :
  Js.is_space y = false ->
  Spec.same_ci (String y q') q = true ->
  rest <> "" -> Words.ends_clean rest = true ->
  Words.no_outer_space (q +:+ rest) = true.
Proof.
  intros Hy Hq Hrest Hclean. destruct q as [|z q]; [discriminate|].
  cbn [Spec.same_ci] in Hq. apply andb_prop in Hq as [Hyz _].
  apply no_outer_space_app; try assumption.
  now rewrite (eq_ci_space y z Hyz).
Qed.

Section Prefixes.

Variables scheme kind id : string.

Hypothesis id_clean : Words.no_outer_space id = true.
Hypothesis id_set : id <> "".
Hypothesis no_scheme : Spec.strip_prefix_ci "webex:" id = None.
Hypothesis no_kind :
  forall k, In k ["person"; "room"; "user"] -> Spec.strip_prefix_ci (k +:+ ":") id = None.
Hypothesis scheme_form : scheme = "" \/ Spec.same_ci "webex:" scheme = true.
Hypothesis kind_form :
  kind = ""
  \/ exists k, In k ["person"; "room"; "user"] /\ Spec.same_ci (k +:+ ":") kind = true.

Ltac spell H :=
  first [ change (Spec.same_ci "person:" kind = true) in H
        | change (Spec.same_ci "room:" kind = true) in H
        | change (Spec.same_ci "user:" kind = true) in H ].

Lemma kind_id_clean : Words.no_outer_space (kind +:+ id) = true.
Proof.
  pose proof (no_outer_space_ends _ id_clean) as Hends.
  destruct kind_form as [->|(k & Hk & Hsame)]; [exact id_clean|].
  destruct Hk as [<-|[<-|[<-|[]]]]; spell Hsame;
    (refine (same_ci_head_clean _ _ _ _ _ Hsame id_set Hends); reflexivity).
Qed.

Lemma kind_id_set : kind +:+ id <> "".
Proof. destruct kind; [exact id_set | discriminate]. Qed.

Lemma raw_clean : Words.no_outer_space (scheme +:+ kind +:+ id) = true.
Proof.
  destruct scheme_form as [->|Hsame]; [exact kind_id_clean|].
  refine (same_ci_head_clean _ _ _ _ _ Hsame kind_id_set
            (no_outer_space_ends _ kind_id_clean)).
  reflexivity.
Qed.

Lemma scheme_stripped :
  Regex.replace_start (Regex.literal "webex:") (scheme +:+ kind +:+ id) = kind +:+ id.
Proof.
  unfold Regex.replace_start. rewrite match_literal.
  destruct scheme_form as [->|Hsame].
  - change ("" +:+ kind +:+ id) with (kind +:+ id).
    destruct kind_form as [->|(k & Hk & Hkind)].
    { change ("" +:+ id) with id. now rewrite no_scheme. }
    destruct Hk as [<-|[<-|[<-|[]]]]; spell Hkind;
      pose proof (fun x p' H => strip_other_head x _ p' _ _ id H Hkind) as Hother;
      now rewrite Hother by reflexivity.
  - now rewrite (strip_prefix_ci_app _ _ (kind +:+ id) Hsame).
Qed.

Lemma kind_stripped :
  JsText.replace_start_first ["person"; "room"; "user"] ":" (kind +:+ id) = id.
Proof.
  cbn [JsText.replace_start_first]. rewrite !match_literal.
  change ("person" +:+ ":") with "person:". change ("room" +:+ ":") with "room:".
  change ("user" +:+ ":") with "user:".
  destruct kind_form as [->|(k & Hk & Hkind)].
  - change ("" +:+ id) with id.
    pose proof (no_kind "person" ltac:(cbn; tauto)) as H1.
    pose proof (no_kind "room" ltac:(cbn; tauto)) as H2.
    pose proof (no_kind "user" ltac:(cbn; tauto)) as H3.
    change ("person" +:+ ":") with "person:" in H1.
    change ("room" +:+ ":") with "room:" in H2.
    change ("user" +:+ ":") with "user:" in H3.
    now rewrite H1, H2, H3.
  - destruct Hk as [<-|[<-|[<-|[]]]]; spell Hkind;
      pose proof (fun x p' H => strip_other_head x _ p' _ _ id H Hkind) as Hother;
      rewrite ?Hother by reflexivity;
      now rewrite (strip_prefix_ci_app _ _ id Hkind).
Qed.

(** X15.  [normalizeWebexTarget] removes one optional [webex:] and then
    one optional [person:], [room:] or [user:], in any letter case: an
    id that is not empty, has no white space at either end and does not
    itself start with one of these prefixes is recovered from every such
    spelling, the bare id included. *)
Theorem normalize_strips_prefixes :
  Channel.normalizeWebexTarget (scheme +:+ kind +:+ id) = Some id.
Proof.
  unfold Channel.normalizeWebexTarget.
  rewrite (no_outer_space_trim _ raw_clean).
  assert (Hraw : Js.truthy (scheme +:+ kind +:+ id) = true).
  { apply truthy_iff. destruct scheme; [exact kind_id_set | discriminate]. }
  rewrite Hraw. cbn [negb].
  rewrite scheme_stripped, kind_stripped, (no_outer_space_trim _ id_clean).
  now rewrite (proj2 (truthy_iff id) id_set).
Qed.

End Prefixes.

Lemma normalize_strips_prefixes_witness :
  Channel.normalizeWebexTarget ("WebEx:" +:+ "Room:" +:+ "abc123") = Some "abc123".
Proof.
  apply (normalize_strips_prefixes "WebEx:" "Room:" "abc123").
  - reflexivity.
  - discriminate.
  - reflexivity.
  - intros k [<-|[<-|[<-|[]]]]; reflexivity.
  - right. reflexivity.
  - right. exists "room". split; [right; left; reflexivity | reflexivity].
Defined.

Lemma is_space_downcase (c : ascii) : Js.is_space (JsText.downcase c) = Js.is_space c.
Proof. destruct c as [[] [] [] [] [] [] [] []]; reflexivity. Qed.

Lemma downcase_idempotent (c : ascii) :
  JsText.downcase (JsText.downcase c) = JsText.downcase c.
Proof. destruct c as [[] [] [] [] [] [] [] []]; reflexivity. Qed.

Lemma toLowerCase_idempotent (s : string) :
  JsText.toLowerCase (JsText.toLowerCase s) = JsText.toLowerCase s.
Proof.
  induction s as [|c s IH]; [reflexivity|].
  cbn [JsText.toLowerCase]. now rewrite downcase_idempotent, IH.
Qed.

Lemma trimStart_toLowerCase (s : string) :
  Js.trimStart (JsText.toLowerCase s) = JsText.toLowerCase (Js.trimStart s).
Proof.
  induction s as [|c s IH]; [reflexivity|].
  cbn [JsText.toLowerCase Js.trimStart]. rewrite is_space_downcase.
  destruct (Js.is_space c); [exact IH | reflexivity].
Qed.

Lemma trimEnd_toLowerCase (s : string) :
  Js.trimEnd (JsText.toLowerCase s) = JsText.toLowerCase (Js.trimEnd s).
Proof.
  induction s as [|c s IH]; [reflexivity|].
  cbn [JsText.toLowerCase Js.trimEnd]. rewrite IH, is_space_downcase.
  destruct (Js.trimEnd s) as [|d t]; cbn [JsText.toLowerCase]; [|reflexivity].
  now destruct (Js.is_space c).
Qed.

Lemma trim_toLowerCase (s : string) :
  Js.trim (JsText.toLowerCase s) = JsText.toLowerCase (Js.trim s).
Proof. unfold Js.trim. now rewrite trimStart_toLowerCase, trimEnd_toLowerCase. Qed.

Lemma truthy_toLowerCase (s : string) : Js.truthy (JsText.toLowerCase s) = Js.truthy s.
Proof. now destruct s. Qed.

Lemma formatted_entry_fixed (e : string) :
  let e' := JsText.toLowerCase (Js.trim e) in JsText.toLowerCase (Js.trim e') = e'.
Proof.
  cbv zeta. now rewrite trim_toLowerCase, trim_idempotent, toLowerCase_idempotent.
Qed.

(** X16.  [formatAllowFrom] gives a normal form: every entry of its
    result is non-empty, has no white space at either end and is in lower
    case (ASCII); formatting a formatted list changes nothing; the result
    is no longer than the input; and an entry of the input shows up, in
    its trimmed lower-case form, exactly when it is not blank. *)
Theorem allow_list_normal_form (allowFrom : list string) :
  let formatted := Channel.formatAllowFrom allowFrom in
  Channel.formatAllowFrom formatted = formatted
  /\ Forall (fun e => e <> "" /\ Words.no_outer_space e = true
                      /\ JsText.toLowerCase e = e) formatted
  /\ (List.length formatted <= List.length allowFrom)%nat
  /\ (forall e, In e allowFrom ->
        Js.trim e <> "" <-> In (JsText.toLowerCase (Js.trim e)) formatted).
Proof.
  cbv zeta. unfold Channel.formatAllowFrom.
  induction allowFrom as [|e l (IHfix & IHall & IHlen & IHin)].
  { cbn. split; [reflexivity|]. split; [constructor|]. split; [lia|]. intros e []. }
  cbn [map List.filter].
  destruct (Js.truthy (JsText.toLowerCase (Js.trim e))) eqn:He.
  - assert (Hne : Js.trim e <> "").
    { rewrite truthy_toLowerCase in He. now apply truthy_iff. }
    split; [|split; [|split]].
    + cbn [map List.filter]. rewrite formatted_entry_fixed, He. now f_equal.
    + constructor; [|exact IHall].
      split; [now apply truthy_iff|].
      split; [|apply toLowerCase_idempotent].
      rewrite <- trim_toLowerCase. apply trim_no_outer_space.
    + cbn [List.length]. lia.
    + intros x [<-|Hx].
      * split; [intros _; now left | now intros _].
      * rewrite (IHin x Hx). split; [now right|].
        intros [Heq|Hin]; [|exact Hin].
        apply IHin; [exact Hx|].
        rewrite truthy_toLowerCase in He. apply truthy_iff.
        rewrite <- (truthy_toLowerCase (Js.trim x)), <- Heq, truthy_toLowerCase.
        exact He.
  - assert (Hblank : Js.trim e = "").
    { rewrite truthy_toLowerCase in He. now apply truthy_false_iff. }
    split; [exact IHfix|]. split; [exact IHall|]. split; [cbn [List.length]; lia|].
    intros x [<-|Hx]; [|now apply IHin].
    split; [contradiction|]. intros Hin. exfalso.
    rewrite Hblank in Hin. cbn in Hin.
    apply (proj1 (List.Forall_forall _ _) IHall) in Hin. now destruct Hin.
Qed.

(** X17.  The mention requirement of the channel plugin and of the
    monitor.  With a [groupPolicy] in the configuration,
    [groups.resolveRequireMention] and the monitor's
    [requireMentionInGroups] agree.  Without one they differ: the plugin
    defaults the policy to [allowlist] and requires a mention, the
    monitor compares the missing value with [mention] and [allowlist] and
    requires none, so that its gate admits every message.  Whenever the
    plugin requires a mention its tool policy is [allowlist]; the tool
    policy is always one of [allowlist], [open] and [disabled]. *)
Theorem mention_requirement_defaults (webexCfg : Config.WebexConfig) :
  (is_Some (Config.groupPolicy webexCfg) ->
   Monitor.requireMentionInGroups webexCfg = Channel.resolveRequireMention (Some webexCfg))
  /\ (Config.groupPolicy webexCfg = None ->
      Channel.resolveRequireMention (Some webexCfg) = true
      /\ Monitor.requireMentionInGroups webexCfg = false
      /\ forall parsed,
           Inbound.shouldProcessWebexMessage parsed
             (Monitor.requireMentionInGroups webexCfg) = true)
  /\ Channel.resolveRequireMention None = true
  /\ (Channel.resolveRequireMention (Some webexCfg) = true ->
      Channel.resolveToolPolicy (Some webexCfg) = "allowlist")
  /\ (Channel.resolveToolPolicy (Some webexCfg) = "allowlist"
      \/ Channel.resolveToolPolicy (Some webexCfg) = "open"
      \/ Channel.resolveToolPolicy (Some webexCfg) = "disabled").
Proof.
  unfold Monitor.requireMentionInGroups, Channel.resolveRequireMention,
    Channel.resolveToolPolicy.
  cbn [mbind option_bind].
  destruct (Config.groupPolicy webexCfg) as [p|]; cbn [default id].
  - split; [reflexivity|]. split; [discriminate|]. split; [reflexivity|].
    destruct (String.eqb_spec p "mention") as [->|Hm];
      [cbn; tauto|].
    destruct (String.eqb_spec p "allowlist") as [->|Ha]; [cbn; tauto|].
    split; [discriminate|].
    destruct (String.eqb p "disabled"); [tauto|].
    destruct (String.eqb p "open"); tauto.
  - split; [intros [? [=]]|]. split; [|cbn; tauto].
    intros _. split; [reflexivity|]. split; [reflexivity|].
    intros parsed. unfold Inbound.shouldProcessWebexMessage. now destruct (decide _).
Qed.

Section Edits.

Variable Json : Type.
Variable cfg : Channel.OpenClawConfig Json.

(** X18.  The edits of the configuration.  [setAccountEnabled] sets the
    flag and nothing else: the other top-level keys, the other channels,
    and the credentials of the account are as before; setting the flag
    twice is setting it to the last value; [applyAccountConfig] is
    [setAccountEnabled] with [true].  [deleteAccount] removes the [webex]
    section and nothing else, drops [channels] exactly when no other
    channel is left, is idempotent, and forgets an earlier
    [setAccountEnabled]; afterwards an account is configured only through
    the environment.  The monitor started on a configuration after
    [deleteAccount], or after [setAccountEnabled] with [false], is inert
    and makes no request. *)
Theorem account_edits (flag flag' : bool) (env : option string) (accountId : string)
    (api : Async.Request -> Async.Response) (store : gmap string Z) :
  let switched := Channel.setAccountEnabled cfg flag in
  let deleted := Channel.deleteAccount cfg in
  let account c := Channel.resolveAccount accountId env (Channel.webex_of c) in
  let inert :=
    (store, [Async.Log Async.Debug "webex provider disabled"],
     Async.Returned (Monitor.Inert "webhook")) in
  (Channel.top switched = Channel.top cfg
   /\ Channel.others_of switched = Channel.others_of cfg
   /\ Channel.enabled (account switched) = flag
   /\ Channel.botToken (account switched) = Channel.botToken (account cfg)
   /\ Channel.configured (account switched) = Channel.configured (account cfg)
   /\ Channel.setAccountEnabled switched flag' = Channel.setAccountEnabled cfg flag'
   /\ Channel.applyAccountConfig cfg = Channel.setAccountEnabled cfg true)
  /\ (Channel.top deleted = Channel.top cfg
      /\ Channel.webex_of deleted = None
      /\ Channel.others_of deleted = Channel.others_of cfg
      /\ (Channel.channels deleted = None <-> Channel.others_of cfg = ∅)
      /\ Channel.deleteAccount deleted = deleted
      /\ Channel.deleteAccount switched = deleted
      /\ Channel.configured (account deleted)
         = Channel.configured (Channel.resolveAccount accountId env None))
  /\ Async.run api (Monitor.monitorWebexProvider env (Channel.webex_of deleted)) store
     = inert
  /\ Async.run api
       (Monitor.monitorWebexProvider env
          (Channel.webex_of (Channel.setAccountEnabled cfg false))) store
     = inert.
Proof.
  cbv zeta.
  assert (Hsize : forall o : gmap string Json,
             bool_decide (0 < size o)%nat = negb (bool_decide (o = ∅))).
  { intros o. destruct (decide (o = ∅)) as [->|Hne].
    - rewrite map_size_empty, (bool_decide_eq_true_2 ((∅ : gmap string Json) = ∅) eq_refl).
      apply bool_decide_eq_false_2. cbn. lia.
    - rewrite (bool_decide_eq_false_2 _ Hne). apply bool_decide_eq_true_2.
      apply map_size_non_empty_iff in Hne. lia. }
  destruct cfg as [[[w o]|] t];
    unfold Channel.setAccountEnabled, Channel.applyAccountConfig, Channel.deleteAccount,
      Channel.webex_of, Channel.others_of, Channel.resolveAccount;
    cbn [Channel.channels Channel.top Channel.webex Channel.others fmap option_fmap
         option_map mbind option_bind default id Channel.with_enabled Config.enabled
         Channel.enabled Channel.botToken Channel.configured];
    rewrite ?Hsize.
  - destruct (decide (o = ∅)) as [->|Hne];
      [rewrite ?(bool_decide_eq_true_2 ((∅ : gmap string Json) = ∅) eq_refl)
      |rewrite ?(bool_decide_eq_false_2 _ Hne)];
      cbn [negb fmap option_fmap option_map mbind option_bind default id
           Channel.others Channel.webex];
      rewrite ?Hsize, ?(bool_decide_eq_true_2 ((∅ : gmap string Json) = ∅) eq_refl),
        ?(bool_decide_eq_false_2 _ Hne);
      cbn [negb];
      repeat split; try reflexivity; try (now destruct flag); try discriminate;
      try (intros; congruence).
  - rewrite ?(bool_decide_eq_true_2 ((∅ : gmap string Json) = ∅) eq_refl).
    cbn [negb fmap option_fmap option_map mbind option_bind default id
         Channel.others Channel.webex].
    rewrite ?Hsize, ?(bool_decide_eq_true_2 ((∅ : gmap string Json) = ∅) eq_refl).
    cbn [negb].
    repeat split; try reflexivity; try (now destruct flag); try discriminate.
Qed.

End Edits.

Lemma normalized_nonempty (raw id : string) :
  Channel.normalizeWebexTarget raw = Some id -> id <> "".
Proof.
  unfold Channel.normalizeWebexTarget.
  destruct (negb _); [discriminate|].
  set (inner := JsText.replace_start_first _ _ _).
  destruct (Js.truthy (Js.trim inner)) eqn:Hid; [|discriminate].
  intros Heq. injection Heq as <-. now apply truthy_iff.
Qed.

Lemma set_add_all_elements (seen xs : list string) (x : string) :
  In x (Channel.set_add_all seen xs) -> In x seen \/ In x xs.
Proof.
  revert seen. induction xs as [|y xs IH]; intros seen; cbn [Channel.set_add_all].
  - now left.
  - destruct (Inbound.array_includes seen y).
    + intros H. apply IH in H as [H|H]; [now left | right; now right].
    + intros H. apply IH in H as [H|H]; [|right; now right].
      apply in_app_iff in H as [H|[<-|[]]]; [now left | right; now left].
Qed.

Lemma set_add_all_length (seen xs : list string) :
  (List.length (Channel.set_add_all seen xs) <= List.length seen + List.length xs)%nat.
Proof.
  revert seen. induction xs as [|y xs IH]; intros seen; cbn [Channel.set_add_all List.length].
  - lia.
  - destruct (Inbound.array_includes seen y).
    + specialize (IH seen). lia.
    + specialize (IH (seen ++ [y])). rewrite length_app in IH. cbn in IH. lia.
Qed.

Lemma filter_length_le {A : Type} (f : A -> bool) (l : list A) :
  (List.length (List.filter f l) <= List.length l)%nat.
Proof.
  induction l as [|a l IH]; [reflexivity|].
  cbn [List.filter]. destruct (f a); cbn [List.length]; lia.
Qed.

Lemma filter_sublist {A : Type} (f : A -> bool) (l : list A) :
  sublist (List.filter f l) l.
Proof.
  induction l as [|a l IH]; [constructor|].
  cbn [List.filter]. destruct (f a); now constructor.
Qed.

Lemma sublist_In {A : Type} (l1 l2 : list A) (x : A) :
  sublist l1 l2 -> In x l1 -> In x l2.
Proof.
  induction 1 as [|a l1 l2 Hs IH|a l1 l2 Hs IH]; [intros []| |].
  - intros [<-|Hin]; [now left | right; now apply IH].
  - intros Hin. right. now apply IH.
Qed.

Lemma sublist_map {A B : Type} (f : A -> B) (l1 l2 : list A) :
  sublist l1 l2 -> sublist (map f l1) (map f l2).
Proof. induction 1; cbn [map]; now constructor. Qed.

Lemma slice_limit_sublist {A : Type} (limit : option Z) (l : list A) :
  sublist (JsText.slice_limit limit l) l.
Proof.
  unfold JsText.slice_limit. destruct limit as [n|]; [|reflexivity].
  destruct (0 <? n); [apply sublist_take | reflexivity].
Qed.

Lemma slice_limit_length {A : Type} (n : Z) (l : list A) :
  0 < n -> (List.length (JsText.slice_limit (Some n) l) <= Z.to_nat n)%nat.
Proof.
  intros Hn. unfold JsText.slice_limit. apply Z.ltb_lt in Hn. rewrite Hn.
  rewrite length_take. lia.
Qed.

Lemma slice_limit_length_le {A : Type} (limit : option Z) (l : list A) :
  (List.length (JsText.slice_limit limit l) <= List.length l)%nat.
Proof. apply sublist_length, slice_limit_sublist. Qed.

(** X19.  The directory.  With a positive limit, [listPeers] and
    [listGroups] return no more entries than the limit.  A peer id is
    never empty, and with a query every peer id and every group title
    returned contains the query (trimmed, lower case), so a room without
    title is never returned for a query.  There are no more peers than
    entries in [allowFrom].  The groups are rooms of the listing, in the
    listed order; when the listing of the rooms fails, there is no
    group. *)
Theorem directory_listings (allowFrom : option (list string))
    (rooms : option (list Channel.Room)) (query : option string) (limit : option Z) :
  let peers := Channel.listPeers allowFrom query limit in
  let groups := Channel.listGroups rooms query limit in
  let q := Js.or_else (JsText.toLowerCase <$> (Js.trim <$> query)) "" in
  (forall n, limit = Some n -> 0 < n ->
     (List.length peers <= Z.to_nat n)%nat /\ (List.length groups <= Z.to_nat n)%nat)
  /\ Forall (fun id => id <> "" /\ (q <> "" -> Js.includes (JsText.toLowerCase id) q = true))
       peers
  /\ (List.length peers <= List.length (default [] allowFrom))%nat
  /\ (rooms = None -> groups = [])
  /\ (forall listed, rooms = Some listed ->
        sublist groups (map (fun room => (Channel.room_id room, Channel.room_title room))
                          listed)
        /\ (q <> "" ->
            Forall (fun g => exists title,
                        g.2 = Some title /\ Js.includes (JsText.toLowerCase title) q = true)
              groups)).
Proof.
  cbv zeta. unfold Channel.listPeers, Channel.listGroups.
  set (q := Js.or_else _ _).
  set (ids := Channel.set_add_all [] _).
  split.
  { intros n -> Hn. split; [now apply slice_limit_length|].
    destruct rooms as [listed|]; [|cbn; lia].
    rewrite length_map. now apply slice_limit_length. }
  split.
  { apply List.Forall_forall. intros id Hin.
    apply (sublist_In _ _ _ (slice_limit_sublist _ _)) in Hin.
    apply List.filter_In in Hin as [Hin Hq].
    apply in_map_iff in Hin as (raw & <- & Hraw).
    split.
    - apply set_add_all_elements in Hraw as [[]|Hraw].
      apply List.filter_In in Hraw as [_ Hraw]. apply andb_prop in Hraw as [Hraw _].
      apply truthy_iff in Hraw.
      destruct (Channel.normalizeWebexTarget raw) as [id|] eqn:Hn; cbn [default].
      + now apply normalized_nonempty in Hn.
      + exact Hraw.
    - intros Hne. apply truthy_iff in Hne. now rewrite Hne in Hq. }
  split.
  { etransitivity; [apply slice_limit_length_le|].
    etransitivity; [apply filter_length_le|]. rewrite length_map.
    etransitivity; [apply set_add_all_length|]. cbn [List.length plus].
    etransitivity; [apply filter_length_le|]. now rewrite length_map. }
  split; [now intros ->|].
  intros listed ->. split.
  - apply sublist_map. etransitivity; [apply slice_limit_sublist | apply filter_sublist].
  - intros Hne. apply truthy_iff in Hne. apply List.Forall_forall. intros g Hin.
    apply in_map_iff in Hin as (room & <- & Hin).
    apply (sublist_In _ _ _ (slice_limit_sublist _ _)) in Hin.
    apply List.filter_In in Hin as [_ Hq]. rewrite Hne in Hq. cbn [snd].
    destruct (Channel.room_title room) as [title|]; cbn in Hq.
    + exists title. split; [reflexivity|].
      unfold Js.or_else in Hq. cbn in Hq.
      destruct (Js.truthy (JsText.toLowerCase title)) eqn:Ht; [exact Hq|].
      apply truthy_false_iff in Ht. now rewrite Ht.
    + exfalso. fold q in Hq. destruct q; [discriminate|]. cbn in Hq. discriminate.
Qed.

Section Outbound.
Import Async.

Variable api : Request -> Response.

Lemma run_sendMessageWebex_shape (env : option string) (cfg : option Config.WebexConfig)
    (to text : string) (mediaUrl : option string) (store : gmap string Z) :
  exists t result,
    run api (Send.sendMessageWebex env cfg to text mediaUrl) store
    = (store, t, Returned result)
    /\ (Send.ok result = false -> Send.messageId result = None)
    /\ (Send.ok result = true <-> Send.error result = None)
    /\ Trace.requests t
       = match Token.resolveWebexCredentials env cfg with
         | Some botToken =>
             [Call botToken (CreateMessage (Send.messagePayload to text mediaUrl))]
         | None => []
         end
    /\ (Send.ok result = true <->
        exists botToken,
          Token.resolveWebexCredentials env cfg = Some botToken
          /\ forall m,
               api (Call botToken (CreateMessage (Send.messagePayload to text mediaUrl)))
               <> Rejected m)
    /\ (forall botToken,
          Token.resolveWebexCredentials env cfg = Some botToken ->
          Send.ok result = true ->
          Send.messageId result
          = id_of (api (Call botToken
                          (CreateMessage (Send.messagePayload to text mediaUrl))))).
Proof.
  unfold Send.sendMessageWebex.
  destruct (Token.resolveWebexCredentials env cfg) as [botToken|].
  - do 3 run_step.
    destruct (api _) as [m| | |msg| | | |] eqn:E; cbn;
      do 2 eexists; (split; [reflexivity|]); cbn;
      (split; [intros; congruence|]);
      (split; [split; intros; congruence|]);
      (split; [reflexivity|]);
      (split;
       [split;
        [intros ?; first [discriminate | exists botToken; split; [reflexivity|];
                          intros ?; rewrite E; discriminate]
        |intros (? & [= <-] & Hnot); first [reflexivity | now contradiction (Hnot m)]]|]);
      intros ? [= <-] ?; rewrite E; first [reflexivity | discriminate].
  - do 2 eexists. split; [reflexivity|]. cbn.
    split; [reflexivity|]. split; [split; intros; congruence|].
    split; [reflexivity|].
    split; [split; [discriminate | intros (? & [=] & _)] | intros ? [=]].
Qed.

(** X20.  The outbound adapter.  [sendText] is [sendMedia] without
    media.  [sendMedia] never rejects and leaves the polling state alone:
    it returns a result for the channel [webex], whose [ok] is true
    exactly when it carries no error, and exactly when there are
    credentials and the remote API did not reject the one
    [createMessage], whatever it answered; the message id is then the
    [id] read off that answer, which is missing when the answer has
    none, and a result that is not [ok] carries no message id.  Without
    credentials nothing is sent.  No file is attached without a media
    URL, and with one exactly that URL, unless it is empty.
    [notifyApproval] sends the approval text to the id and returns
    normally whether or not the send succeeded. *)
Theorem outbound_never_rejects (env : option string) (cfg : option Config.WebexConfig)
    (to text : string) (mediaUrl : option string) (approved : string)
    (store : gmap string Z) :
  let sent :=
    match Token.resolveWebexCredentials env cfg with
    | Some botToken =>
        [Call botToken (CreateMessage (Send.messagePayload to text mediaUrl))]
    | None => []
    end in
  Outbound.sendText env cfg to text = Outbound.sendMedia env cfg to text None
  /\ (exists t result,
        run api (Outbound.sendMedia env cfg to text mediaUrl) store
        = (store, t, Returned result)
        /\ Trace.requests t = sent
        /\ Outbound.channel result = "webex"
        /\ (Outbound.ok result = false -> Outbound.messageId result = None)
        /\ (Outbound.ok result = true <-> Outbound.error result = None)
        /\ (Outbound.ok result = true <->
            exists botToken,
              Token.resolveWebexCredentials env cfg = Some botToken
              /\ forall m,
                   api (Call botToken
                          (CreateMessage (Send.messagePayload to text mediaUrl)))
                   <> Rejected m)
        /\ (forall botToken,
              Token.resolveWebexCredentials env cfg = Some botToken ->
              Outbound.ok result = true ->
              Outbound.messageId result
              = id_of (api (Call botToken
                              (CreateMessage (Send.messagePayload to text mediaUrl))))))
  /\ mp_files (Send.messagePayload to text None) = None
  /\ (forall u, mp_files (Send.messagePayload to text (Some u))
                = if Js.truthy u then Some [u] else None)
  /\ (exists t,
        run api (Channel.notifyApproval approved env cfg to) store = (store, t, Returned tt)
        /\ Trace.requests t
           = match Token.resolveWebexCredentials env cfg with
             | Some botToken =>
                 [Call botToken (CreateMessage (Send.messagePayload to approved None))]
             | None => []
             end).
Proof.
  cbv zeta. split; [reflexivity|]. split; [|split; [|split]].
  - unfold Outbound.sendMedia. rewrite run_bind.
    destruct (run_sendMessageWebex_shape env cfg to text mediaUrl store)
      as (t & result & -> & Hnone & Herr & Hreq & Hok & Hid).
    cbn [run mret Proc_ret]. exists (t ++ []), (Outbound.of_send result).
    split; [reflexivity|]. rewrite app_nil_r.
    split; [exact Hreq|]. split; [reflexivity|].
    split; [exact Hnone|]. split; [exact Herr|]. split; [exact Hok | exact Hid].
  - unfold Send.messagePayload.
    destruct (Js.includes to "@"); [reflexivity|]. now destruct (_ || _).
  - intros u. unfold Send.messagePayload.
    destruct (Js.includes to "@"); [reflexivity|]. now destruct (_ || _).
  - unfold Channel.notifyApproval. rewrite run_bind.
    destruct (run_sendMessageWebex_shape env cfg to approved None store)
      as (t & result & -> & _ & _ & Hreq & _ & _).
    cbn [run mret Proc_ret]. exists (t ++ []). split; [reflexivity|].
    now rewrite app_nil_r.
Qed.

End Outbound.

Lemma prefix_split (p s : string) :
  String.prefix p s = true -> exists rest, s = p +:+ rest.
Proof.
  revert s. induction p as [|x p IH]; intros s; [now exists s|].
  destruct s as [|y s]; [discriminate|]. cbn [String.prefix].
  destruct (Ascii.ascii_dec x y) as [->|]; [|discriminate].
  intros H. destruct (IH _ H) as (rest & ->). now exists rest.
Qed.

Lemma prefix_strip (p s : string) :
  Spec.strip_prefix_ci p s = None -> String.prefix p s = false.
Proof.
  intros Hnone. destruct (String.prefix p s) eqn:E; [|reflexivity].
  apply prefix_split in E as (rest & ->).
  now rewrite (strip_prefix_ci_app p p rest (same_ci_refl p)) in Hnone.
Qed.

(** X21.  A [person:] target before and after normalisation.  For an id
    that is neither an e-mail address nor a Base64 person id and has none
    of the prefixes, [person:<id>] looks like an id to the target
    resolver and is sent to the person ([toPersonId]); its normal form is
    the bare id, which [sendMessageWebex] addresses as a room
    ([roomId]). *)
Theorem person_prefix_and_normalisation (id text : string) (mediaUrl : option string) :
  Words.no_outer_space id = true ->
  id <> "" ->
  Js.includes id "@" = false ->
  Js.startsWith id Send.person_id_prefix = false ->
  Spec.strip_prefix_ci "webex:" id = None ->
  (forall k, In k ["person"; "room"; "user"] -> Spec.strip_prefix_ci (k +:+ ":") id = None) ->
  let raw := "person:" +:+ id in
  let direct := Send.messagePayload raw text mediaUrl in
  let normalized := Send.messagePayload id text mediaUrl in
  Channel.looksLikeId raw = true
  /\ Async.mp_toPersonId direct = Some id /\ Async.mp_roomId direct = None
  /\ Channel.normalizeWebexTarget raw = Some id
  /\ Async.mp_roomId normalized = Some id /\ Async.mp_toPersonId normalized = None.
Proof.
  intros Hclean Hset Hat Hb64 Hscheme Hkinds raw direct normalized.
  assert (Hperson : Spec.same_ci "person:" "person:" = true) by reflexivity.
  assert (Hroom : Spec.strip_prefix_ci "room:" id = None).
  { apply (Hkinds "room"). cbn. tauto. }
  assert (Hnoperson : Spec.strip_prefix_ci "person:" id = None).
  { apply (Hkinds "person"). cbn. tauto. }
  assert (Hinc : Js.includes raw "@" = false) by (cbn; exact Hat).
  assert (Hstart : Js.startsWith raw "person:" = true) by apply prefix_app.
  assert (Hstart' : Js.startsWith id "person:" = false) by now apply prefix_strip.
  assert (Hkind : "person:" = ""
                  \/ exists k, In k ["person"; "room"; "user"]
                               /\ Spec.same_ci (k +:+ ":") "person:" = true).
  { right. exists "person". split; [now left | exact Hperson]. }
  pose proof (raw_clean "" "person:" id Hclean Hset (or_introl eq_refl) Hkind) as Hraw.
  split.
  { unfold Channel.looksLikeId. change raw with ("" +:+ "person:" +:+ id).
    rewrite (no_outer_space_trim _ Hraw). reflexivity. }
  split; [|split; [|split; [|split]]].
  - subst direct. unfold Send.messagePayload.
    rewrite Hinc, Hstart, orb_true_r. cbn [Async.mp_toPersonId].
    unfold Regex.replace_start, raw. rewrite match_literal.
    now rewrite (strip_prefix_ci_app "person:" "person:" id Hperson).
  - subst direct. unfold Send.messagePayload. now rewrite Hinc, Hstart, orb_true_r.
  - unfold Channel.normalizeWebexTarget.
    change raw with ("" +:+ "person:" +:+ id).
    rewrite (no_outer_space_trim _ Hraw).
    rewrite (scheme_stripped "" "person:" id Hscheme (or_introl eq_refl) Hkind).
    rewrite (kind_stripped "" "person:" id Hkinds (or_introl eq_refl) Hkind).
    rewrite (no_outer_space_trim _ Hclean), (proj2 (truthy_iff id) Hset).
    reflexivity.
  - subst normalized. unfold Send.messagePayload. rewrite Hat, Hb64, Hstart'.
    cbn [orb Async.mp_roomId]. unfold Regex.replace_start.
    now rewrite match_literal, Hroom.
  - subst normalized. unfold Send.messagePayload. now rewrite Hat, Hb64, Hstart'.
Qed.

Lemma person_prefix_and_normalisation_witness :
  let raw := "person:" +:+ "abc123" in
  let direct := Send.messagePayload raw "hello" None in
  let normalized := Send.messagePayload "abc123" "hello" None in
  Channel.looksLikeId raw = true
  /\ Async.mp_toPersonId direct = Some "abc123" /\ Async.mp_roomId direct = None
  /\ Channel.normalizeWebexTarget raw = Some "abc123"
  /\ Async.mp_roomId normalized = Some "abc123" /\ Async.mp_toPersonId normalized = None.
Proof.
  apply (person_prefix_and_normalisation "abc123" "hello" None).
  - reflexivity.
  - discriminate.
  - reflexivity.
  - reflexivity.
  - reflexivity.
  - intros k [<-|[<-|[<-|[]]]]; reflexivity.
Defined.

Section BothPaths.
Import Async.

Variable beyond : string -> string -> option string.
Variable webexCfg : Config.WebexConfig.
Variables (token botId botEmail botName : string) (pollStartTime : Z).
Variable env : Request -> Response.

(** X22.  The two ingestion paths handle a message alike, and neither
    knows of the other.  For a message that the remote API returns by id,
    written by another sender, admitted by the gate and dispatched
    without failure, the webhook handler (given the message's event) and
    the polling loop (given the message as a fresh one of a listing) hand
    the same context to the dispatcher.  The handler leaves the polling
    state alone, so the loop still sees the message as new: a monitor in
    the mode [both] dispatches it on both paths. *)
Theorem both_paths_dispatch (m : Api.WebexMessage) (text room : string) (now lastTime : Z)
    (store : gmap string Z) :
  let parsed :=
    Inbound.parseWebexWebhookEvent (Monitor.eventOfMessage m)
      (Some (Inbound.detail_of m)) botId pollStartTime in
  let ctx := Monitor.inboundContext parsed text in
  env (Call token (GetMessage (Api.id m))) = Message m ->
  (forall err, env (Dispatch ctx) <> Rejected err) ->
  Api.personEmail m <> botEmail ->
  Inbound.shouldProcessWebexMessage parsed (Monitor.requireMentionInGroups webexCfg)
  = true ->
  Monitor.dispatchText beyond botName parsed = Ret text ->
  lastTime < Api.created m ->
  exists t1 t2,
    run env (Monitor.webhookHandler beyond webexCfg token botId botEmail botName now
               (Both.body_of m)) store
    = (store, t1, Returned tt)
    /\ Trace.dispatches t1 = [ctx]
    /\ run env (Monitor.pollMessage beyond webexCfg botId botEmail botName pollStartTime
                  room lastTime m) store
       = (<[room := Z.max lastTime (Api.created m)]> store, t2, Returned tt)
    /\ Trace.dispatches t2 = [ctx].
Proof.
  intros parsed ctx Hget Hdone Hother Hgate Htext Hfresh.
  assert (Hrun : run env (Monitor.dispatchToAgent parsed text) store
                 = (store, [Requested (Dispatch ctx)], Returned tt)).
  { unfold Monitor.dispatchToAgent. rewrite run_bind, run_await. fold ctx.
    destruct (env (Dispatch ctx)) as [msg| | | | | | |] eqn:E; try reflexivity.
    now contradiction (Hdone msg). }
  apply String.eqb_neq in Hother.
  do 2 eexists. split; [|split; [|split]].
  - unfold Monitor.webhookHandler, Both.body_of. rewrite run_catch.
    change (emit (Respond 200 "OK") ;; ?q) with (Emit (Respond 200 "OK") q).
    cbn [run bool_decide negb orb].
    rewrite !bool_decide_eq_true_2 by reflexivity. cbn [negb orb].
    unfold Inbound.isWebexBotMessage.
    cbn [Inbound.data Monitor.eventOfMessage Inbound.personEmail Inbound.id].
    rewrite Hother, run_bind, run_await, Hget.
    change (Inbound.parseWebexWebhookEvent _ (Some (Inbound.detail_of m)) botId now)
      with parsed.
    rewrite Hgate. cbn [negb]. rewrite Htext.
    change (Ret text ≫= ?f) with (f text). cbv beta. rewrite Hrun. reflexivity.
  - reflexivity.
  - unfold Monitor.pollMessage.
    apply Z.leb_gt in Hfresh. rewrite Hfresh, Hother. fold parsed.
    rewrite Hgate. cbn [negb]. rewrite run_log, Htext.
    change (Ret text ≫= ?f) with (f text). cbv beta.
    rewrite run_log, run_seq, Hrun. reflexivity.
  - reflexivity.
Qed.

End BothPaths.

Lemma both_paths_dispatch_witness :
  let m := Sample.direct_message "msg-1" 1 in
  let ctx :=
    {| Async.RawBody := "Hello bot";
       Async.From := "webex:person-123";
       Async.To := "webex:room-123";
       Async.ChatType := "direct";
       Async.SenderId := "person-123";
       Async.SenderUsername := "user@example.com";
       Async.MessageSid := "msg-1" |} in
  exists t1 t2,
    Async.run (Both.api_with_message m)
      (Monitor.webhookHandler Sample.no_regexp (Sample.config "both") "test-token"
         "bot-id-123" "testbot@webex.bot" "Test Bot" 5 (Both.body_of m)) ∅
    = (∅, t1, Async.Returned tt)
    /\ Trace.dispatches t1 = [ctx]
    /\ Async.run (Both.api_with_message m)
         (Monitor.pollMessage Sample.no_regexp (Sample.config "both") "bot-id-123"
            "testbot@webex.bot" "Test Bot" 0 "room-123" 0 m) ∅
       = (<["room-123" := Z.max 0 1]> ∅, t2, Async.Returned tt)
    /\ Trace.dispatches t2 = [ctx].
Proof.
  apply (both_paths_dispatch Sample.no_regexp (Sample.config "both") "test-token"
           "bot-id-123" "testbot@webex.bot" "Test Bot" 0
           (Both.api_with_message (Sample.direct_message "msg-1" 1))
           (Sample.direct_message "msg-1" 1) "Hello bot" "room-123" 5 0 ∅).
  - reflexivity.
  - intros err. discriminate.
  - discriminate.
  - reflexivity.
  - reflexivity.
  - reflexivity.
Defined.

Section Fetches.
Import Async.

Variable api : Request -> Response.

(** X23.  [getWebexMessage] and [listWebexRooms] do not catch.
    [getWebexMessage] throws exactly when there are no credentials (with
    [No Webex credentials configured]) or when the remote API rejects the
    fetch (with its message).  [listWebexRooms] throws exactly when there
    are credentials and the remote API rejects the listing; without
    credentials it returns no room and makes no request, and a listing
    that succeeds is returned as it is. *)
Theorem fetch_and_list_outcomes (env : option string) (cfg : option Config.WebexConfig)
    (messageId : string) (store : gmap string Z) :
  (forall err,
     (run api (SendMore.getWebexMessage env cfg messageId) store).2 = Threw err
     <-> (Token.resolveWebexCredentials env cfg = None
          /\ err = "No Webex credentials configured")
         \/ exists botToken,
              Token.resolveWebexCredentials env cfg = Some botToken
              /\ api (Call botToken (GetMessage messageId)) = Rejected err)
  /\ (forall err,
        (run api (SendMore.listWebexRooms env cfg) store).2 = Threw err
        <-> exists botToken,
              Token.resolveWebexCredentials env cfg = Some botToken
              /\ api (Call botToken (ListRooms "" 0)) = Rejected err)
  /\ (Token.resolveWebexCredentials env cfg = None ->
      run api (SendMore.listWebexRooms env cfg) store = (store, [], Returned []))
  /\ (forall botToken items,
        Token.resolveWebexCredentials env cfg = Some botToken ->
        api (Call botToken (ListRooms "" 0)) = Rooms items ->
        run api (SendMore.listWebexRooms env cfg) store
        = (store, [Requested (Call botToken (ListRooms "" 0))], Returned items)).
Proof.
  unfold SendMore.getWebexMessage, SendMore.listWebexRooms.
  destruct (Token.resolveWebexCredentials env cfg) as [botToken|].
  - split; [|split; [|split]].
    + intros err. rewrite run_await. cbn [snd].
      destruct (api (Call botToken (GetMessage messageId))) eqn:E; split;
        try discriminate;
        try (intros [[[=] _]|(? & [= <-] & H)]; congruence).
      * intros [= <-]. right. now exists botToken.
    + intros err. rewrite run_bind, run_await.
      destruct (api (Call botToken (ListRooms "" 0))) eqn:E; cbn; split;
        try discriminate;
        try (intros (? & [= <-] & H); congruence).
      * intros [= <-]. now exists botToken.
    + discriminate.
    + intros ? items [= <-] Hrooms. now rewrite run_bind, run_await, Hrooms.
  - split; [|split; [|split]].
    + intros err. cbn. split.
      * intros [= <-]. now left.
      * intros [[_ ->]|(? & [=] & _)]. reflexivity.
    + intros err. cbn. split; [discriminate | intros (? & [=] & _)].
    + reflexivity.
    + intros ? ? [=].
Qed.

End Fetches.
